(** * terraform-modules-interface: descriptor parsing and document synthesis

    A shallow embedding of
      - terraform_module_parameter.py,
      - terraform_module_resources.py,
      - terraform_remote_module_variables.py,
    each in a module named after its class, followed by the properties
    established about them.

    Conventions.  A Python [str] is a Rocq [string], one character per code
    point below 256.  A Python object of unknown shape (a decoded JSON value,
    a default) is a [pyval].  A Python [dict] is an association list kept in
    insertion order.  A function that can raise returns a [result]. *)

From Stdlib Require Import String Ascii List ZArith Bool Arith Lia.
Import ListNotations.
Local Open Scope string_scope.
Local Open Scope nat_scope.
Local Open Scope bool_scope.
Set Warnings "-register-all".

(** ** Python values and exceptions *)

Inductive pyval : Type :=
| PNone
| PBool (b : bool)
| PInt (z : Z)
| PFloat (literal : string)
| PStr (s : string)
| PList (items : list pyval)
| PDict (entries : list (string * pyval)).

(** [isinstance(v, str)], [isinstance(v, bool)], [isinstance(v, int)],
    [isinstance(v, list)].  [bool] is a subclass of [int] in Python. *)
Definition isinstance_str (v : pyval) : bool :=
  match v with PStr _ => true | _ => false end.

Definition isinstance_bool (v : pyval) : bool :=
  match v with PBool _ => true | _ => false end.

Definition isinstance_int (v : pyval) : bool :=
  match v with PBool _ | PInt _ => true | _ => false end.

Definition isinstance_list (v : pyval) : bool :=
  match v with PList _ => true | _ => false end.

(** [RuntimeError msg obj cause]: the message is [msg], followed by the
    formatting of [obj] when the f-string interpolates an object that is not
    a string; [cause] is the exception named after [from].
    [IllTyped f] is not a Python exception: it marks a keyword argument whose
    value is not of the annotated type of the dataclass field [f].  The
    dataclass would store it unchecked; the typed record below has no such
    inhabitant, so the construction stops there. *)
Inductive exn : Type :=
| RuntimeError (msg : string) (obj : option pyval) (cause : option exn)
| ValueError
| TypeError
| AttributeError
| IndexError
| IllTyped (field : string).

Inductive result (A : Type) : Type :=
| Ok (a : A)
| Raise (e : exn).
Arguments Ok {A} a.
Arguments Raise {A} e.

Definition bind {A B : Type} (r : result A) (k : A -> result B) : result B :=
  match r with
  | Ok a => k a
  | Raise e => Raise e
  end.

Notation "'do' x <- r ; k" := (bind r (fun x => k))
  (at level 10, x pattern, r at level 100, k at level 200).

(** ** Python dictionaries: association lists in insertion order *)

Module Dict.
Section WithKey.
Context {K V : Type} (eqb : K -> K -> bool).

Fixpoint get (k : K) (d : list (K * V)) : option V :=
  match d with
  | [] => None
  | (k', v) :: rest => if eqb k k' then Some v else get k rest
  end.

Definition mem (k : K) (d : list (K * V)) : bool :=
  match get k d with Some _ => true | None => false end.

(** [d[k] = v]: an existing key keeps its position. *)
Fixpoint set (k : K) (v : V) (d : list (K * V)) : list (K * V) :=
  match d with
  | [] => [(k, v)]
  | (k', v') :: rest =>
      if eqb k k' then (k', v) :: rest else (k', v') :: set k v rest
  end.

(** [d.pop(k, None)]. *)
Fixpoint remove (k : K) (d : list (K * V)) : list (K * V) :=
  match d with
  | [] => []
  | (k', v') :: rest =>
      if eqb k k' then rest else (k', v') :: remove k rest
  end.

(** [a | b]: the right operand wins on a shared key. *)
Definition union (a b : list (K * V)) : list (K * V) :=
  fold_left (fun acc kv => set (fst kv) (snd kv) acc) b a.

Definition keys (d : list (K * V)) : list K := map fst d.
End WithKey.
End Dict.

Abbreviation sdict V := (list (string * V)).
Abbreviation sget := (Dict.get String.eqb).
Abbreviation sset := (Dict.set String.eqb).
Abbreviation smem := (Dict.mem String.eqb).

(** ** Python string methods *)

Module Str.

Definition code (c : ascii) : nat := nat_of_ascii c.

(** [str.isspace] on one character. *)
Definition isspace (c : ascii) : bool :=
  let n := code c in
  ((9 <=? n) && (n <=? 13)) || ((28 <=? n) && (n <=? 32))
  || (n =? 133) || (n =? 160).

(** The ASCII class of the pattern [[A-Za-z0-9]]. *)
Definition is_ascii_alnum (c : ascii) : bool :=
  let n := code c in
  ((48 <=? n) && (n <=? 57)) || ((65 <=? n) && (n <=? 90))
  || ((97 <=? n) && (n <=? 122)).

(** [str.isalnum] on one character. *)
Definition isalnum_char (c : ascii) : bool :=
  let n := code c in
  is_ascii_alnum c
  || (n =? 170) || (n =? 178) || (n =? 179) || (n =? 181) || (n =? 185)
  || (n =? 186) || ((188 <=? n) && (n <=? 190))
  || ((192 <=? n) && (n <=? 214)) || ((216 <=? n) && (n <=? 246))
  || ((248 <=? n) && (n <=? 255)).

(** [s[:1].isalnum()]: false on the empty string. *)
Definition first_isalnum (s : string) : bool :=
  match s with
  | EmptyString => false
  | String c _ => isalnum_char c
  end.

Definition lower_char (c : ascii) : ascii :=
  let n := code c in
  if ((65 <=? n) && (n <=? 90))
     || ((192 <=? n) && (n <=? 214)) || ((216 <=? n) && (n <=? 222))
  then ascii_of_nat (n + 32) else c.

Fixpoint lower (s : string) : string :=
  match s with
  | EmptyString => EmptyString
  | String c r => String (lower_char c) (lower r)
  end.

Definition startswith (s pre : string) : bool := String.prefix pre s.

Definition endswith (s suf : string) : bool :=
  let n := String.length s in
  let m := String.length suf in
  (m <=? n) && String.eqb (String.substring (n - m) m s) suf.

Fixpoint drop (n : nat) (s : string) : string :=
  match n, s with
  | O, _ => s
  | S _, EmptyString => EmptyString
  | S k, String _ r => drop k r
  end.

Definition removeprefix (s pre : string) : string :=
  if startswith s pre then drop (String.length pre) s else s.

Definition removesuffix (s suf : string) : string :=
  if endswith s suf && negb (String.eqb suf "")
  then String.substring 0 (String.length s - String.length suf) s
  else s.

(** [s.lstrip(chars)] and [s.rstrip(chars)], the set of characters given by
    its membership test. *)
Fixpoint lstrip_by (p : ascii -> bool) (s : string) : string :=
  match s with
  | EmptyString => EmptyString
  | String c r => if p c then lstrip_by p r else s
  end.

Fixpoint rstrip_by (p : ascii -> bool) (s : string) : string :=
  match s with
  | EmptyString => EmptyString
  | String c r =>
      match rstrip_by p r with
      | EmptyString => if p c then EmptyString else String c EmptyString
      | r' => String c r'
      end
  end.

Definition strip_by (p : ascii -> bool) (s : string) : string :=
  rstrip_by p (lstrip_by p s).

Definition strip (s : string) : string := strip_by isspace s.

(** [s.split(sep)] for a one-character separator. *)
Fixpoint split (sep : ascii) (s : string) : list string :=
  match s with
  | EmptyString => [EmptyString]
  | String c r =>
      if Ascii.eqb c sep then EmptyString :: split sep r
      else match split sep r with
           | [] => [String c EmptyString]
           | h :: t => String c h :: t
           end
  end.

Fixpoint count (x : ascii) (s : string) : nat :=
  match s with
  | EmptyString => 0
  | String c r => (if Ascii.eqb c x then 1 else 0) + count x r
  end.

(** [sub in s]. *)
Fixpoint contains (sub s : string) : bool :=
  String.prefix sub s
  || match s with
     | EmptyString => false
     | String _ r => contains sub r
     end.

(** [s.replace(old, new)] for a non-empty [old]: matches are taken from the
    left and do not overlap; [skip] counts the characters of a match still
    to be passed over. *)
Fixpoint replace_from (skip : nat) (old new s : string) : string :=
  match s with
  | EmptyString => EmptyString
  | String c r =>
      match skip with
      | S k => replace_from k old new r
      | O =>
          if String.prefix old s
          then new ++ replace_from (String.length old - 1) old new r
          else String c (replace_from 0 old new r)
      end
  end.

Definition replace (s old new : string) : string := replace_from 0 old new s.

(** [sep.join(parts)]. *)
Definition join (sep : string) (parts : list string) : string :=
  String.concat sep parts.

(** Line boundaries of [str.splitlines] below code point 256. *)
Definition is_linebreak (c : ascii) : bool :=
  let n := code c in
  ((10 <=? n) && (n <=? 13)) || ((28 <=? n) && (n <=? 30)) || (n =? 133).

(** [s.splitlines()]: a carriage return followed by a line feed is one
    boundary, and a final boundary opens no empty last line.  [cur] is the
    line being read, reversed; [after_cr] tells that the previous character
    was a carriage return. *)
Fixpoint splitlines_from (cur : list ascii) (after_cr : bool) (s : string)
  : list string :=
  let close := string_of_list_ascii (rev cur) in
  match s with
  | EmptyString => match cur with [] => [] | _ => [close] end
  | String c r =>
      if after_cr && Ascii.eqb c "010"%char then splitlines_from [] false r
      else if is_linebreak c
      then close :: splitlines_from [] (Ascii.eqb c "013"%char) r
      else splitlines_from (c :: cur) false r
  end.

Definition splitlines (s : string) : list string := splitlines_from [] false s.

End Str.

(** ** terraform_module_parameter.py *)

Module TerraformModuleParameter.

(** The dataclass [TerraformModuleParameter], fields typed by their
    annotations; [None] is the absent option. *)
Record t : Type := mk {
  name : string;
  json_encode : bool;
  base64_encode : bool;
  default : pyval;
  required : bool;
  description : option string;
  sensitive : bool;
  type : option string;
  trigger : option string
}.

(** The type computed by [__post_init__] when none was given. *)
Definition inferred_type (p : t) : string :=
  if isinstance_str (default p) || Str.endswith (name p) "id" then "string"
  else if isinstance_bool (default p) then "bool"
  else if isinstance_int (default p) then "number"
  else "any".

Definition __post_init__ (p : t) : t :=
  match type p with
  | Some _ => p
  | None =>
      mk (name p) (json_encode p) (base64_encode p) (default p) (required p)
         (description p) (sensitive p) (Some (inferred_type p)) (trigger p)
  end.

(** [TerraformModuleParameter(name=..., ...)]: the generated [__init__]
    stores the fields and runs [__post_init__]. *)
Definition __init__ (name : string) (json_encode base64_encode : bool)
  (default : pyval) (required : bool) (description : option string)
  (sensitive : bool) (type trigger : option string) : t :=
  __post_init__
    (mk name json_encode base64_encode default required description
        sensitive type trigger).




Definition opt_str (o : option string) : pyval :=
  match o with Some s => PStr s | None => PNone end.

Definition get_variable (p : t) : sdict pyval :=
  let variable := [("type", opt_str (type p))] in
  let variable :=
    if negb (required p) then sset "default" (default p) variable
    else variable in
  let variable :=
    match description p with
    | Some d => sset "description" (PStr d) variable
    | None => variable
    end in
  if sensitive p then sset "sensitive" (PBool true) variable else variable.

(** The expression before the final wrapping. *)
Definition trigger_expression (p : t) (disable_encoding : bool) : string :=
  let trigger := "var." ++ name p in
  let trigger :=
    if json_encode p && negb disable_encoding
    then "jsonencode(" ++ trigger ++ ")" else trigger in
  if base64_encode p && negb disable_encoding
  then "base64encode(" ++ trigger ++ ")" else trigger.

(** [try(nonsensitive(E), E)] inside an interpolation. *)
Definition wrap_nonsensitive (e : string) : string :=
  "${try(nonsensitive(" ++ e ++ "), " ++ e ++ ")}".

Definition get_trigger (p : t) (disable_encoding : bool) : string :=
  match trigger p with
  | Some override => override
  | None => wrap_nonsensitive (trigger_expression p disable_encoding)
  end.

(** The keywords of the generated [__init__]. *)
Definition field_names : list string :=
  ["name"; "json_encode"; "base64_encode"; "default"; "required";
   "description"; "sensitive"; "type"; "trigger"].

Definition is_field (k : string) : bool := existsb (String.eqb k) field_names.

Definition as_str (f : string) (v : pyval) : result string :=
  match v with PStr s => Ok s | _ => Raise (IllTyped f) end.

Definition as_opt_str (f : string) (v : pyval) : result (option string) :=
  match v with
  | PNone => Ok None
  | PStr s => Ok (Some s)
  | _ => Raise (IllTyped f)
  end.

Definition as_bool (f : string) (v : pyval) : result bool :=
  match v with PBool b => Ok b | _ => Raise (IllTyped f) end.

Definition kwarg (kw : sdict pyval) (f : string) (dflt : pyval) : pyval :=
  match sget f kw with Some v => v | None => dflt end.

(** The constructor applied to a dictionary unpacked into keyword
    arguments.  An unexpected keyword, or no [name], is a [TypeError] of
    the generated [__init__]; a keyword left out takes the default of its
    field. *)
Definition of_kwargs (kw : sdict pyval) : result t :=
  if negb (forallb is_field (Dict.keys kw)) then Raise TypeError
  else
    match sget "name" kw with
    | None => Raise TypeError
    | Some n =>
        do name <- as_str "name" n;
        do json_encode <-
          as_bool "json_encode" (kwarg kw "json_encode" (PBool false));
        do base64_encode <-
          as_bool "base64_encode" (kwarg kw "base64_encode" (PBool false));
        do required <- as_bool "required" (kwarg kw "required" (PBool true));
        do description <-
          as_opt_str "description" (kwarg kw "description" PNone);
        do sensitive <-
          as_bool "sensitive" (kwarg kw "sensitive" (PBool false));
        do type <- as_opt_str "type" (kwarg kw "type" PNone);
        do trigger <- as_opt_str "trigger" (kwarg kw "trigger" PNone);
        Ok (__init__ name json_encode base64_encode (kwarg kw "default" PNone)
                 required description sensitive type trigger)
    end.

End TerraformModuleParameter.

(** ** What the code imports from elsewhere *)

(** Functions of other packages, taken as given.
    - [is_nothing], [strtobool]: [gitops_utils.utils]; [strtobool] answers
      [True], [False] or [None].
    - [json_loads]: [json.loads], [None] standing for [JSONDecodeError].
    - [tssplit]: [tssplit(p, quote=Q, quote_keep=True, delimiter=",")], [Q] the
      double quote character.
    - [joinpath]: [Path(dir).joinpath], applied to the segments. *)
Class Externals : Type := {
  is_nothing : pyval -> bool;
  strtobool : pyval -> option bool;
  json_loads : string -> option pyval;
  tssplit : string -> list string;
  joinpath : string -> list string -> string
}.

(** The constants of [terraform_modules_interface.defaults]. *)
Record Defaults : Type := {
  TERRAFORM_MODULES_DIR : string;
  TERRAFORM_MODULES_CLASS : string;
  TERRAFORM_MODULES_NAME_DELIM : string;
  TERRAFORM_MODULES_BINARY_NAME : string
}.

(** ** terraform_module_resources.py *)

Module TerraformModuleResources.

(** The parameter model, under a short name. *)
Module Param := TerraformModuleParameter.

Definition is_quote (c : ascii) : bool := Ascii.eqb c "034"%char.
Definition is_hash (c : ascii) : bool := Ascii.eqb c "#"%char.

Definition strip_quoted (s : string) : string :=
  Str.strip_by is_quote (Str.strip s).

Definition failed_chunks (chunk : string) : exn :=
  RuntimeError ("Failed to get chunks for: " ++ chunk) None (Some ValueError).

Definition get_json_export_for_chunk {ext : Externals} (chunk : string)
  : result (string * pyval) :=
  match Str.split ":" (strip_quoted chunk) with
  | [k; v] =>
      let k := strip_quoted k in
      let v := strip_quoted v in
      match json_loads v with
      | Some decoded => Ok (k, decoded)
      | None => Ok (k, PStr v)
      end
  | _ => Raise (failed_chunks chunk)
  end.

(** The attributes of a [TerraformModuleResources] object.  The three
    directive tables keyed by a decoded value ([extra_outputs], [sub_keys],
    [required_providers]) are kept as the sequence of their item assignments
    in program order; [module_parameter_names] is a set, kept without
    repetition; a [Path] is identified with its rendering. *)
Record t : Type := mk {
  modules_dir : string;
  modules_class : string;
  name_delim : string;
  binary_name : string;
  module_name : string;
  module_type : option string;
  docstring : option string;
  descriptor : option string;
  module_parameters : list Param.t;
  generator_parameters : sdict pyval;
  extra_outputs : list (pyval * sdict pyval);
  sub_keys : list (pyval * sdict pyval);
  required_providers : list (pyval * sdict pyval);
  copy_variables_to : list (sdict pyval);
  module_parameter_names : list string;
  foreach_modules : sdict string;
  foreach_iterator : option Param.t;
  foreach_from_file_path : option Param.t;
  foreach_keys : list string;
  foreach_values : list string;
  foreach_only : list string;
  foreach_forbidden : list string;
  generation_forbidden : bool;
  call : string;
  foreach_bind_log_file_name_to_key : bool
}.

(** Attribute assignment, [self.f = v], one function per attribute the
    methods assign. *)
Definition set_descriptor (v : option string) (d : t) : t :=
  mk (modules_dir d) (modules_class d) (name_delim d) (binary_name d)
     (module_name d) (module_type d) (docstring d) v (module_parameters d)
     (generator_parameters d) (extra_outputs d) (sub_keys d)
     (required_providers d) (copy_variables_to d)
     (module_parameter_names d) (foreach_modules d) (foreach_iterator d)
     (foreach_from_file_path d) (foreach_keys d) (foreach_values d)
     (foreach_only d) (foreach_forbidden d) (generation_forbidden d)
     (call d) (foreach_bind_log_file_name_to_key d).

Definition set_module_parameters (v : list Param.t) (d : t) : t :=
  mk (modules_dir d) (modules_class d) (name_delim d) (binary_name d)
     (module_name d) (module_type d) (docstring d) (descriptor d) v
     (generator_parameters d) (extra_outputs d) (sub_keys d)
     (required_providers d) (copy_variables_to d)
     (module_parameter_names d) (foreach_modules d) (foreach_iterator d)
     (foreach_from_file_path d) (foreach_keys d) (foreach_values d)
     (foreach_only d) (foreach_forbidden d) (generation_forbidden d)
     (call d) (foreach_bind_log_file_name_to_key d).

Definition set_generator_parameters (v : sdict pyval) (d : t) : t :=
  mk (modules_dir d) (modules_class d) (name_delim d) (binary_name d)
     (module_name d) (module_type d) (docstring d) (descriptor d)
     (module_parameters d) v (extra_outputs d) (sub_keys d)
     (required_providers d) (copy_variables_to d)
     (module_parameter_names d) (foreach_modules d) (foreach_iterator d)
     (foreach_from_file_path d) (foreach_keys d) (foreach_values d)
     (foreach_only d) (foreach_forbidden d) (generation_forbidden d)
     (call d) (foreach_bind_log_file_name_to_key d).

Definition set_extra_outputs (v : list (pyval * sdict pyval)) (d : t) : t :=
  mk (modules_dir d) (modules_class d) (name_delim d) (binary_name d)
     (module_name d) (module_type d) (docstring d) (descriptor d)
     (module_parameters d) (generator_parameters d) v (sub_keys d)
     (required_providers d) (copy_variables_to d)
     (module_parameter_names d) (foreach_modules d) (foreach_iterator d)
     (foreach_from_file_path d) (foreach_keys d) (foreach_values d)
     (foreach_only d) (foreach_forbidden d) (generation_forbidden d)
     (call d) (foreach_bind_log_file_name_to_key d).

Definition set_sub_keys (v : list (pyval * sdict pyval)) (d : t) : t :=
  mk (modules_dir d) (modules_class d) (name_delim d) (binary_name d)
     (module_name d) (module_type d) (docstring d) (descriptor d)
     (module_parameters d) (generator_parameters d) (extra_outputs d) v
     (required_providers d) (copy_variables_to d)
     (module_parameter_names d) (foreach_modules d) (foreach_iterator d)
     (foreach_from_file_path d) (foreach_keys d) (foreach_values d)
     (foreach_only d) (foreach_forbidden d) (generation_forbidden d)
     (call d) (foreach_bind_log_file_name_to_key d).

Definition set_required_providers (v : list (pyval * sdict pyval)) (d : t)
  : t :=
  mk (modules_dir d) (modules_class d) (name_delim d) (binary_name d)
     (module_name d) (module_type d) (docstring d) (descriptor d)
     (module_parameters d) (generator_parameters d) (extra_outputs d)
     (sub_keys d) v (copy_variables_to d) (module_parameter_names d)
     (foreach_modules d) (foreach_iterator d) (foreach_from_file_path d)
     (foreach_keys d) (foreach_values d) (foreach_only d)
     (foreach_forbidden d) (generation_forbidden d) (call d)
     (foreach_bind_log_file_name_to_key d).

Definition set_copy_variables_to (v : list (sdict pyval)) (d : t) : t :=
  mk (modules_dir d) (modules_class d) (name_delim d) (binary_name d)
     (module_name d) (module_type d) (docstring d) (descriptor d)
     (module_parameters d) (generator_parameters d) (extra_outputs d)
     (sub_keys d) (required_providers d) v (module_parameter_names d)
     (foreach_modules d) (foreach_iterator d) (foreach_from_file_path d)
     (foreach_keys d) (foreach_values d) (foreach_only d)
     (foreach_forbidden d) (generation_forbidden d) (call d)
     (foreach_bind_log_file_name_to_key d).

Definition set_module_parameter_names (v : list string) (d : t) : t :=
  mk (modules_dir d) (modules_class d) (name_delim d) (binary_name d)
     (module_name d) (module_type d) (docstring d) (descriptor d)
     (module_parameters d) (generator_parameters d) (extra_outputs d)
     (sub_keys d) (required_providers d) (copy_variables_to d) v
     (foreach_modules d) (foreach_iterator d) (foreach_from_file_path d)
     (foreach_keys d) (foreach_values d) (foreach_only d)
     (foreach_forbidden d) (generation_forbidden d) (call d)
     (foreach_bind_log_file_name_to_key d).

Definition set_foreach_modules (v : sdict string) (d : t) : t :=
  mk (modules_dir d) (modules_class d) (name_delim d) (binary_name d)
     (module_name d) (module_type d) (docstring d) (descriptor d)
     (module_parameters d) (generator_parameters d) (extra_outputs d)
     (sub_keys d) (required_providers d) (copy_variables_to d)
     (module_parameter_names d) v (foreach_iterator d)
     (foreach_from_file_path d) (foreach_keys d) (foreach_values d)
     (foreach_only d) (foreach_forbidden d) (generation_forbidden d)
     (call d) (foreach_bind_log_file_name_to_key d).

Definition set_foreach_iterator (v : option Param.t) (d : t) : t :=
  mk (modules_dir d) (modules_class d) (name_delim d) (binary_name d)
     (module_name d) (module_type d) (docstring d) (descriptor d)
     (module_parameters d) (generator_parameters d) (extra_outputs d)
     (sub_keys d) (required_providers d) (copy_variables_to d)
     (module_parameter_names d) (foreach_modules d) v
     (foreach_from_file_path d) (foreach_keys d) (foreach_values d)
     (foreach_only d) (foreach_forbidden d) (generation_forbidden d)
     (call d) (foreach_bind_log_file_name_to_key d).

Definition set_foreach_from_file_path (v : option Param.t) (d : t) : t :=
  mk (modules_dir d) (modules_class d) (name_delim d) (binary_name d)
     (module_name d) (module_type d) (docstring d) (descriptor d)
     (module_parameters d) (generator_parameters d) (extra_outputs d)
     (sub_keys d) (required_providers d) (copy_variables_to d)
     (module_parameter_names d) (foreach_modules d) (foreach_iterator d) v
     (foreach_keys d) (foreach_values d) (foreach_only d)
     (foreach_forbidden d) (generation_forbidden d) (call d)
     (foreach_bind_log_file_name_to_key d).

Definition set_foreach_keys (v : list string) (d : t) : t :=
  mk (modules_dir d) (modules_class d) (name_delim d) (binary_name d)
     (module_name d) (module_type d) (docstring d) (descriptor d)
     (module_parameters d) (generator_parameters d) (extra_outputs d)
     (sub_keys d) (required_providers d) (copy_variables_to d)
     (module_parameter_names d) (foreach_modules d) (foreach_iterator d)
     (foreach_from_file_path d) v (foreach_values d) (foreach_only d)
     (foreach_forbidden d) (generation_forbidden d) (call d)
     (foreach_bind_log_file_name_to_key d).

Definition set_foreach_values (v : list string) (d : t) : t :=
  mk (modules_dir d) (modules_class d) (name_delim d) (binary_name d)
     (module_name d) (module_type d) (docstring d) (descriptor d)
     (module_parameters d) (generator_parameters d) (extra_outputs d)
     (sub_keys d) (required_providers d) (copy_variables_to d)
     (module_parameter_names d) (foreach_modules d) (foreach_iterator d)
     (foreach_from_file_path d) (foreach_keys d) v (foreach_only d)
     (foreach_forbidden d) (generation_forbidden d) (call d)
     (foreach_bind_log_file_name_to_key d).

Definition set_foreach_only (v : list string) (d : t) : t :=
  mk (modules_dir d) (modules_class d) (name_delim d) (binary_name d)
     (module_name d) (module_type d) (docstring d) (descriptor d)
     (module_parameters d) (generator_parameters d) (extra_outputs d)
     (sub_keys d) (required_providers d) (copy_variables_to d)
     (module_parameter_names d) (foreach_modules d) (foreach_iterator d)
     (foreach_from_file_path d) (foreach_keys d) (foreach_values d) v
     (foreach_forbidden d) (generation_forbidden d) (call d)
     (foreach_bind_log_file_name_to_key d).

Definition set_foreach_forbidden (v : list string) (d : t) : t :=
  mk (modules_dir d) (modules_class d) (name_delim d) (binary_name d)
     (module_name d) (module_type d) (docstring d) (descriptor d)
     (module_parameters d) (generator_parameters d) (extra_outputs d)
     (sub_keys d) (required_providers d) (copy_variables_to d)
     (module_parameter_names d) (foreach_modules d) (foreach_iterator d)
     (foreach_from_file_path d) (foreach_keys d) (foreach_values d)
     (foreach_only d) v (generation_forbidden d) (call d)
     (foreach_bind_log_file_name_to_key d).

Definition set_generation_forbidden (v : bool) (d : t) : t :=
  mk (modules_dir d) (modules_class d) (name_delim d) (binary_name d)
     (module_name d) (module_type d) (docstring d) (descriptor d)
     (module_parameters d) (generator_parameters d) (extra_outputs d)
     (sub_keys d) (required_providers d) (copy_variables_to d)
     (module_parameter_names d) (foreach_modules d) (foreach_iterator d)
     (foreach_from_file_path d) (foreach_keys d) (foreach_values d)
     (foreach_only d) (foreach_forbidden d) v (call d)
     (foreach_bind_log_file_name_to_key d).

Definition set_foreach_bind_log_file_name_to_key (v : bool) (d : t) : t :=
  mk (modules_dir d) (modules_class d) (name_delim d) (binary_name d)
     (module_name d) (module_type d) (docstring d) (descriptor d)
     (module_parameters d) (generator_parameters d) (extra_outputs d)
     (sub_keys d) (required_providers d) (copy_variables_to d)
     (module_parameter_names d) (foreach_modules d) (foreach_iterator d)
     (foreach_from_file_path d) (foreach_keys d) (foreach_values d)
     (foreach_only d) (foreach_forbidden d) (generation_forbidden d)
     (call d) v.

Section Methods.
Context {ext : Externals}.

(** [d.get(k, dflt)]. *)
Definition get_or {V : Type} (k : string) (d : sdict V) (dflt : V) : V :=
  match sget k d with Some v => v | None => dflt end.

(** The truth value of an answer of [strtobool]. *)
Definition truth (o : option bool) : bool :=
  match o with Some b => b | None => false end.

Definition optbool_val (o : option bool) : pyval :=
  match o with Some b => PBool b | None => PNone end.

Definition hashable (v : pyval) : bool :=
  match v with PList _ | PDict _ => false | _ => true end.

(** The items of a sequence handed to [str.join] or [joinpath] must be
    strings. *)
Fixpoint all_str (items : list pyval) : result (list string) :=
  match items with
  | [] => Ok []
  | PStr s :: rest => do tl <- all_str rest; Ok (s :: tl)
  | _ :: _ => Raise TypeError
  end.

(** [re.search(r"[A-Za-z0-9]", s)]: the start of the first match. *)
Fixpoint search_ascii_alnum (s : string) : option nat :=
  match s with
  | EmptyString => None
  | String c r =>
      if Str.is_ascii_alnum c then Some 0
      else option_map S (search_ascii_alnum r)
  end.

Definition get_module_class (d : t) (module_class : pyval) : result pyval :=
  if is_nothing module_class then
    Ok (get_or "module_class" (generator_parameters d) (PStr (modules_class d)))
  else
    match module_class with
    | PStr s =>
        if negb (Str.first_isalnum s) then
          match search_ascii_alnum s with
          | None => Ok PNone
          | Some first_alpha => Ok (PStr s)
          end
        else Ok (PStr s)
    | PList _ => Raise AttributeError
    | _ => Raise TypeError
    end.

Definition get_module_name (d : t) (module_class module_name : pyval)
  : result string :=
  do module_class <- get_module_class d module_class;
  let chunks :=
    if is_nothing module_class
       || truth (strtobool (get_or "no_class_in_module_name"
                                   (generator_parameters d) (PBool false)))
    then [] else [module_class] in
  let chunks :=
    (chunks
     ++ [if is_nothing module_name
         then PStr (TerraformModuleResources.module_name d)
         else module_name])%list in
  do parts <- all_str chunks;
  Ok (Str.replace (Str.join (name_delim d) parts) "_" (name_delim d)).

Definition py_eq_str (v : pyval) (s : string) : bool :=
  match v with PStr s' => String.eqb s' s | _ => false end.

Definition get_module_path (d : t)
  (modules_dir module_class module_name modules_file_name : pyval)
  : result string :=
  let modules_dir :=
    if is_nothing modules_dir then PStr (TerraformModuleResources.modules_dir d)
    else modules_dir in
  do dir <- match modules_dir with PStr s => Ok s | _ => Raise TypeError end;
  do module_class <- get_module_class d module_class;
  do module_name <- get_module_name d module_class module_name;
  do segments <-
    all_str (if py_eq_str module_class module_name
             then [PStr module_name; modules_file_name]
             else [module_class; PStr module_name; modules_file_name]);
  Ok (joinpath dir segments).

(** *** Parameters of the module *)

(** An item of a [module_params] list: a parameter, or the keyword
    dictionary of one. *)
Definition entry : Type := (Param.t + sdict pyval)%type.

Definition set_add (x : string) (names : list string) : list string :=
  if existsb (String.eqb x) names then names else (names ++ [x])%list.

Definition append_parameter (p : Param.t) (d : t) : t :=
  set_module_parameter_names
    (set_add (Param.name p) (module_parameter_names d))
    (set_module_parameters (module_parameters d ++ [p])%list d).

Fixpoint add_module_params (items : list entry) (d : t) : result t :=
  match items with
  | [] => Ok d
  | inl p :: rest => add_module_params rest (append_parameter p d)
  | inr kw :: rest =>
      do p <- Param.of_kwargs kw;
      add_module_params rest (append_parameter p d)
  end.

Definition set_module_params (module_params : option (list entry)) (d : t)
  : result t :=
  match module_params with
  | None => Ok d
  | Some items => add_module_params items d
  end.

Definition required_params : sdict Param.t :=
  [("checksum",
    Param.__init__ "checksum" false false (PStr "") false
      (Some "Optional checksum to use for triggering resource updates")
      false None None);
   ("log_results_dir",
    Param.__init__ "log_results_dir" false false (PStr "") false
      (Some "Optional log results directory to use for aggregating log results")
      false None None);
   ("execution_role_arn",
    Param.__init__ "execution_role_arn" false false (PStr "") false
      (Some "Execution role ARN") false None None)].

Definition add_required (d : t) (item : string * Param.t) : t :=
  let (param_name, module_param) := item in
  if existsb (String.eqb param_name) (module_parameter_names d) then d
  else
    set_module_parameter_names (set_add param_name (module_parameter_names d))
      (set_module_parameters (module_parameters d ++ [module_param])%list d).

Definition set_required_module_params (d : t) : t :=
  fold_left add_required required_params d.

(** *** Lines of the docstring *)

(** The chunk loops of the directives: each chunk is decoded and stored
    under its key. *)
Fixpoint export_chunks (chunks : list string) (acc : sdict pyval)
  : result (sdict pyval) :=
  match chunks with
  | [] => Ok acc
  | chunk :: rest =>
      do kv <- get_json_export_for_chunk chunk;
      export_chunks rest (sset (fst kv) (snd kv) acc)
  end.

Fixpoint generator_chunks (chunks : list string) (acc : sdict pyval)
  : result (sdict pyval) :=
  match chunks with
  | [] => Ok acc
  | chunk :: rest =>
      do kv <- get_json_export_for_chunk chunk;
      let (k, v) := kv in
      generator_chunks rest
        (sset k (if String.eqb k "plaintext_output"
                 then optbool_val (strtobool v) else v) acc)
  end.

(** The blocks of [extra_output=], [sub_key=] and [required_provider=]:
    they differ in the field popped ([key], [key], [name]) and in the
    message only. *)
Definition keyed_directive (field missing param rest : string)
  : result (pyval * sdict pyval) :=
  do table <- export_chunks (tssplit rest) [];
  let key := get_or field table PNone in
  let table := Dict.remove String.eqb field table in
  if is_nothing key then Raise (RuntimeError (missing ++ param) None None)
  else if hashable key then Ok (key, table)
  else Raise TypeError.

(** The chunk loop of [foreach=]: the target name, the module called and
    the log file binding. *)
Fixpoint foreach_chunks (chunks : list string)
  (foreach_module_name foreach_module_call : pyval) (bind : option bool)
  : result (pyval * pyval * option bool) :=
  match chunks with
  | [] => Ok (foreach_module_name, foreach_module_call, bind)
  | chunk :: rest =>
      do kv <- get_json_export_for_chunk chunk;
      let (k, v) := kv in
      if String.eqb k "module_name"
      then foreach_chunks rest v foreach_module_call bind
      else if String.eqb k "module_call"
      then foreach_chunks rest foreach_module_name v bind
      else if String.eqb k "bind_log_file_name_to_key"
      then foreach_chunks rest foreach_module_name foreach_module_call
             (strtobool v)
      else foreach_chunks rest foreach_module_name foreach_module_call bind
  end.

(** The markers a parameter line can carry. *)
Record markers : Type := mk_markers {
  found_foreach_iterator : bool;
  found_foreach_from_file_path : bool;
  found_foreach_key : bool;
  found_foreach_value : bool;
  marked_foreach_only : bool;
  marked_foreach_forbidden : bool
}.

Definition no_markers : markers :=
  mk_markers false false false false false false.

Definition mark (k : string) (m : markers) : option markers :=
  let 'mk_markers it ff ky vl on fb := m in
  if String.eqb k "foreach_iterator" then Some (mk_markers true ff ky vl on fb)
  else if String.eqb k "foreach_from_file_path"
  then Some (mk_markers it true ky vl on fb)
  else if String.eqb k "foreach_key" then Some (mk_markers it ff true vl on fb)
  else if String.eqb k "foreach_value"
  then Some (mk_markers it ff ky true on fb)
  else if String.eqb k "foreach_only" then Some (mk_markers it ff ky vl true fb)
  else if String.eqb k "foreach_forbidden"
  then Some (mk_markers it ff ky vl on true)
  else None.

(** The chunk loop of a parameter line. *)
Fixpoint expand_chunks (chunks : list string) (m : markers)
  (expanded_param : sdict pyval) : result (markers * sdict pyval) :=
  match chunks with
  | [] => Ok (m, expanded_param)
  | chunk :: rest =>
      do kv <- get_json_export_for_chunk chunk;
      let (k, v) := kv in
      match mark k m with
      | Some m' => expand_chunks rest m' expanded_param
      | None => expand_chunks rest m (sset k v expanded_param)
      end
  end.

(** What a parameter line declares: its markers, the parameter built from
    the remaining keys, and those keys. *)
Definition expand_param (param : string)
  : result (markers * Param.t * sdict pyval) :=
  do me <- expand_chunks (tssplit param) no_markers [];
  let (m, expanded_param) := me in
  match Param.of_kwargs expanded_param with
  | Ok module_param => Ok (m, module_param, expanded_param)
  | Raise TypeError =>
      Raise (RuntimeError
               "Failed to generate module parameter for expanded parameter: "
               (Some (PDict expanded_param)) (Some TypeError))
  | Raise e => Raise e
  end.

(** The kind of a stripped line, in the order the code tests for it. *)
Inductive line_kind : Type :=
| Blank
| Comment
| Generator (rest : string)
| ExtraOutput (rest : string)
| SubKey (rest : string)
| RequiredProvider (rest : string)
| CopyVariablesTo (rest : string)
| Foreach (rest : string)
| ParameterLine.

Definition directive (param prefix : string) : option string :=
  if Str.startswith param prefix then Some (Str.removeprefix param prefix)
  else None.

Definition classify (param : string) : line_kind :=
  if is_nothing (PStr param) then Blank
  else if Str.startswith param "#" then Comment
  else match directive param "generator=" with Some r => Generator r | None =>
  match directive param "extra_output=" with Some r => ExtraOutput r | None =>
  match directive param "sub_key=" with Some r => SubKey r | None =>
  match directive param "required_provider=" with
  | Some r => RequiredProvider r | None =>
  match directive param "copy_variables_to=" with
  | Some r => CopyVariablesTo r | None =>
  match directive param "foreach=" with Some r => Foreach r | None =>
  ParameterLine end end end end end end.

(** The markers and the parameter a line declares, when it is a parameter
    line that the parser accepts. *)
Definition declares (line : string) : option (markers * Param.t) :=
  let param := Str.strip line in
  match classify param with
  | ParameterLine =>
      match expand_param param with
      | Ok (m, module_param, _) => Some (m, module_param)
      | Raise _ => None
      end
  | _ => None
  end.

(** The parameter bound to an iterator attribute after a line, [before]
    being the one bound before it: the line's own parameter when it carries
    the marker [flag]. *)
Definition marked (flag : markers -> bool) (line : string)
  (before : option Param.t) : option Param.t :=
  match declares line with
  | Some (m, module_param) => if flag m then Some module_param else before
  | None => before
  end.

(** The parsing state: the object and the local list [module_params]. *)
Definition parse_state : Type := (t * list entry)%type.

(** The tail of the loop body for a parameter line, once the parameter is
    built. *)
Definition declare (m : markers) (module_param : Param.t)
  (expanded_param : sdict pyval) (st : parse_state) : parse_state :=
  let (d, module_params) := st in
  let name := Param.name module_param in
  let module_params := (module_params ++ [inl module_param])%list in
  let d := if found_foreach_iterator m
           then set_foreach_iterator (Some module_param) d else d in
  let d := if found_foreach_from_file_path m
           then set_foreach_from_file_path (Some module_param) d else d in
  let d := if found_foreach_key m
           then set_foreach_keys (foreach_keys d ++ [name])%list d else d in
  let d := if found_foreach_value m
           then set_foreach_values (foreach_values d ++ [name])%list d else d in
  if marked_foreach_only m
  then (set_foreach_only (foreach_only d ++ [name])%list d, module_params)
  else if marked_foreach_forbidden m
  then (set_foreach_forbidden (foreach_forbidden d ++ [name])%list d,
        module_params)
  else (d, (module_params ++ [inr expanded_param])%list).

(** [except RuntimeError as exc: raise RuntimeError(...) from exc]. *)
Definition reraise {A : Type} (param : string) (r : result A) : result A :=
  match r with
  | Raise (RuntimeError msg obj cause) =>
      Raise (RuntimeError ("Failed to parse docstring param: " ++ param) None
               (Some (RuntimeError msg obj cause)))
  | _ => r
  end.

Definition main_file : pyval := PStr "main.tf.json".

(** One turn of the loop over the docstring's lines. *)
Definition process_param (st : parse_state) (line : string)
  : result parse_state :=
  let (d, module_params) := st in
  let param := Str.strip line in
  reraise param
    match classify param with
    | Blank => Ok st
    | Comment =>
        let comment := Str.lower (Str.strip (Str.lstrip_by is_hash param)) in
        if String.eqb comment "noterraform"
        then Ok (set_generation_forbidden true d, module_params)
        else Ok st
    | Generator rest =>
        do gp <- generator_chunks (tssplit rest) (generator_parameters d);
        Ok (set_generator_parameters gp d, module_params)
    | ExtraOutput rest =>
        do kv <- keyed_directive "key"
                   "Extra output from Terraform module is missing key: "
                   param rest;
        Ok (set_extra_outputs (extra_outputs d ++ [kv])%list d, module_params)
    | SubKey rest =>
        do kv <- keyed_directive "key"
                   "Sub key from Terraform module is missing key: " param rest;
        Ok (set_sub_keys (sub_keys d ++ [kv])%list d, module_params)
    | RequiredProvider rest =>
        do kv <- keyed_directive "name"
                   ("Required provider from Terraform module is missing "
                    ++ "provider name: ")
                   param rest;
        Ok (set_required_providers (required_providers d ++ [kv])%list d,
            module_params)
    | CopyVariablesTo rest =>
        do table <- export_chunks (tssplit rest) [];
        Ok (set_copy_variables_to (copy_variables_to d ++ [table])%list d,
            module_params)
    | Foreach rest =>
        do target <- foreach_chunks (tssplit rest)
                       (PStr (module_name d ++ "s")) (PStr (module_name d))
                       (Some false);
        let '(foreach_module_name, foreach_module_call, bind) := target in
        do foreach_module_path <-
          get_module_path d PNone PNone foreach_module_name main_file;
        do called <- get_module_name d PNone foreach_module_call;
        Ok (set_foreach_bind_log_file_name_to_key (truth bind)
              (set_foreach_modules
                 (sset foreach_module_path called (foreach_modules d)) d),
            module_params)
    | ParameterLine =>
        do decl <- expand_param param;
        let '(m, module_param, expanded_param) := decl in
        Ok (declare m module_param expanded_param st)
    end.

Fixpoint process_params (lines : list string) (st : parse_state)
  : result parse_state :=
  match lines with
  | [] => Ok st
  | line :: rest => do st' <- process_param st line; process_params rest st'
  end.

(** [[line for line in docstring.splitlines() if line != ""]]. *)
Definition docstring_lines (doc : string) : list string :=
  filter (fun line => negb (String.eqb line "")) (Str.splitlines doc).

Definition get_module_config (d : t) : result t :=
  match docstring d with
  | None => Ok d
  | Some doc =>
      match docstring_lines doc with
      | [] => Ok d
      | first :: rest =>
          let d := set_descriptor (Some first) d in
          match rest with
          | [] => Ok d
          | _ =>
              do st <- process_params rest (d, []);
              set_module_params (Some (snd st)) (fst st)
          end
      end
  end.

(** A constructor argument left out or nothing falls back on the package
    default ([is_nothing(None)] holds). *)
Definition or_default (arg : option string) (dflt : string) : string :=
  match arg with
  | None => dflt
  | Some s => if is_nothing (PStr s) then dflt else s
  end.

(** [TerraformModuleResources.__init__]. *)
Definition __init__ (defaults : Defaults) (module_name : string)
  (docstring module_type : option string)
  (module_params : option (list entry))
  (modules_dir modules_class modules_name_delim modules_binary_name
     : option string) : result t :=
  let modules_dir := or_default modules_dir (TERRAFORM_MODULES_DIR defaults) in
  let modules_class :=
    or_default modules_class (TERRAFORM_MODULES_CLASS defaults) in
  let name_delim :=
    or_default modules_name_delim (TERRAFORM_MODULES_NAME_DELIM defaults) in
  let binary_name :=
    or_default modules_binary_name (TERRAFORM_MODULES_BINARY_NAME defaults) in
  let modules_class := Str.removesuffix modules_class name_delim in
  let d :=
    mk modules_dir modules_class name_delim binary_name module_name
       module_type docstring None [] [] [] [] [] [] [] [] None None
       [] [] [] [] false (binary_name ++ " " ++ module_name) false in
  do d <- get_module_config d;
  do d <- set_module_params module_params d;
  Ok (set_required_module_params d).

(** *** Documents *)

Definition name_in (x : string) (names : list string) : bool :=
  existsb (String.eqb x) names.

(** The test shared by [get_variables] and [get_triggers]. *)
Definition filtered_out (d : t)
  (filter_foreach_only filter_foreach_forbidden : bool) (param : Param.t)
  : bool :=
  (filter_foreach_only && name_in (Param.name param) (foreach_only d))
  || (filter_foreach_forbidden
      && name_in (Param.name param) (foreach_forbidden d)).

Definition get_variables (d : t)
  (filter_foreach_only filter_foreach_forbidden : bool)
  : sdict (sdict pyval) :=
  fold_left
    (fun variables param =>
       if filtered_out d filter_foreach_only filter_foreach_forbidden param
       then variables
       else sset (Param.name param)
                 (Param.get_variable param) variables)
    (module_parameters d) [].

Definition get_triggers (d : t)
  (disable_encoding filter_foreach_only filter_foreach_forbidden : bool)
  : sdict string :=
  let triggers :=
    fold_left
      (fun triggers param =>
         if filtered_out d filter_foreach_only filter_foreach_forbidden param
         then triggers
         else sset (Param.name param)
                   (Param.get_trigger param disable_encoding)
                   triggers)
      (module_parameters d) [] in
  if truth (strtobool (get_or "always" (generator_parameters d) (PBool false)))
  then sset "always" "${timestamp()}" triggers
  else triggers.

(** The document yielded for one foreach target: the keys [variable],
    [module] and, when there is an output key, [output]. *)
Record foreach_document : Type := mk_document {
  doc_variable : sdict (sdict pyval);
  doc_module : sdict (sdict string);
  doc_output : option (pyval * sdict string)
}.

Definition dq : string := String "034"%char EmptyString.

(** The trigger bound to the key of the instance, spaces replaced. *)
Definition log_file_name_trigger : string :=
  "${replace(each.key, " ++ dq ++ " " ++ dq ++ ", " ++ dq ++ "_" ++ dq
  ++ ")}.log".

(** The iterators of the descriptor and the variables they bring. *)
Definition foreach_iterators (d : t) : sdict (sdict pyval) * list string :=
  let acc :=
    match foreach_iterator d with
    | Some it =>
        let iterator_name := Param.name it in
        (sset iterator_name (Param.get_variable it) [],
         ["try(nonsensitive(var." ++ iterator_name ++ "), var."
          ++ iterator_name ++ ")"])
    | None => ([], [])
    end in
  match foreach_from_file_path d with
  | Some ff =>
      let iterator_from_file_path_name := Param.name ff ++ "_file" in
      (sset iterator_from_file_path_name (Param.get_variable ff)
            (fst acc),
       List.app (snd acc)
         ["try(jsondecode(file(var." ++ iterator_from_file_path_name
          ++ ")), {})"])
  | None => acc
  end.

Definition module_iterator_of (module_iterators : list string) : string :=
  "${"
  ++ match module_iterators with
     | [one] => one
     | _ => "merge(" ++ Str.join "," module_iterators ++ ")"
     end
  ++ "}".

Definition foreach_variables (d : t) (variables : sdict (sdict pyval))
  : sdict (sdict pyval) :=
  fold_left
    (fun variables nv =>
       let (name, variable) := (nv : string * sdict pyval) in
       if smem name variables || name_in name (foreach_keys d)
          || name_in name (foreach_values d)
       then variables
       else if String.eqb name "log_file_name"
               && foreach_bind_log_file_name_to_key d
       then variables
       else sset name variable variables)
    (get_variables d false true) variables.

Definition bind_all (names : list string) (value : string)
  (triggers : sdict string) : sdict string :=
  fold_left (fun triggers name => sset name value triggers) names triggers.

Definition foreach_triggers (d : t) : sdict string :=
  let triggers :=
    filter (fun nt => negb (String.eqb (fst nt) "always"))
           (get_triggers d true true true) in
  let triggers :=
    if foreach_bind_log_file_name_to_key d
    then sset "log_file_name" log_file_name_trigger triggers
    else triggers in
  let triggers := bind_all (foreach_keys d) "${each.key}" triggers in
  bind_all (foreach_values d) "${each.value}" triggers.

(** The [output] entry of a document: none without a key; the key must be
    a string to be concatenated and the entry's name hashable. *)
Definition foreach_output (key foreach_key : pyval)
  (output_description : string) : result (option (pyval * sdict string)) :=
  match key with
  | PNone => Ok None
  | PStr k =>
      let foreach_value :=
        "${{for id, data in module.default : id => data." ++ k ++ "}}" in
      if hashable foreach_key
      then Ok (Some (foreach_key,
                     [("value", foreach_value);
                      ("description", output_description)]))
      else Raise TypeError
  | _ => Raise TypeError
  end.

(** What a generator does when it is run to its end: the values yielded,
    and the exception that stopped it, if any. *)
Fixpoint run_generator {A : Type} (steps : list (result A))
  : list A * option exn :=
  match steps with
  | [] => ([], None)
  | Ok a :: rest => let (ys, e) := run_generator rest in (a :: ys, e)
  | Raise e :: _ => ([], Some e)
  end.

(** [if key is None: key = self.generator_parameters.get("key")] and
    [if foreach_key is None: foreach_key =
     self.generator_parameters.get("foreach_key", key)]. *)
Definition resolve_key (d : t) (key : pyval) : pyval :=
  match key with
  | PNone => get_or "key" (generator_parameters d) PNone
  | _ => key
  end.

Definition resolve_foreach_key (d : t) (key foreach_key : pyval) : pyval :=
  match foreach_key with
  | PNone => get_or "foreach_key" (generator_parameters d) key
  | _ => foreach_key
  end.

Definition get_foreach (d : t) (key foreach_key : pyval)
  (output_description : string)
  : list (string * foreach_document) * option exn :=
  match foreach_iterator d, foreach_from_file_path d with
  | None, None => ([], None)
  | _, _ =>
      let (variables, module_iterators) := foreach_iterators d in
      let module_iterator := module_iterator_of module_iterators in
      let variables := foreach_variables d variables in
      let triggers := foreach_triggers d in
      let key := resolve_key d key in
      let foreach_key := resolve_foreach_key d key foreach_key in
      run_generator
        (map (fun target =>
                let (module_path, module_call) := (target : string * string) in
                let module :=
                  Dict.union String.eqb
                    [("for_each", module_iterator);
                     ("source", "../" ++ module_call)]
                    triggers in
                do output <- foreach_output key foreach_key output_description;
                Ok (module_path,
                    mk_document variables [("default", module)] output))
             (foreach_modules d))
  end.

(** *** Copies of the variables *)

(** The keywords of [get_module_path]. *)
Definition path_keywords : list string :=
  ["modules_dir"; "module_class"; "module_name"; "modules_file_name"].

(** [get_module_path] called with a dictionary unpacked into keyword
    arguments: a key that is no keyword is a [TypeError]; a keyword left
    out takes its default. *)
Definition get_module_path_kwargs (d : t) (kw : sdict pyval) : result string :=
  if negb (forallb (fun k => name_in k path_keywords) (Dict.keys kw))
  then Raise TypeError
  else
    get_module_path d (get_or "modules_dir" kw PNone)
      (get_or "module_class" kw PNone) (get_or "module_name" kw PNone)
      (get_or "modules_file_name" kw main_file).

Definition copy_without_name (copy_variables_to : sdict pyval) : exn :=
  RuntimeError "Cannot process a copy of variables without a module name: "
    (Some (PDict copy_variables_to)) None.

(** The document of a copy: the key [variable] alone. *)
Definition copy_document (d : t) : sdict (sdict (sdict pyval)) :=
  [("variable", get_variables d true false)].

(** The loop of [get_modules_to_copy_variables_to], run to its end: the
    pairs yielded, the exception that stopped it, if any, and the items of
    [copy_variables_to] as the loop leaves them (it stores the default file
    name in the items it reaches). *)
Fixpoint copy_run (d : t) (items : list (sdict pyval))
  : list (string * sdict (sdict (sdict pyval))) * option exn
    * list (sdict pyval) :=
  match items with
  | [] => ([], None, [])
  | copy_variables_to :: rest =>
      if negb (smem "module_name" copy_variables_to)
      then ([], Some (copy_without_name copy_variables_to), items)
      else
        let copy_variables_to :=
          if negb (smem "modules_file_name" copy_variables_to)
          then sset "modules_file_name" (PStr "variables.tf.json")
                 copy_variables_to
          else copy_variables_to in
        match get_module_path_kwargs d copy_variables_to with
        | Raise e => ([], Some e, copy_variables_to :: rest)
        | Ok module_path =>
            let '(yielded, e, rest') := copy_run d rest in
            ((module_path, copy_document d) :: yielded, e,
             copy_variables_to :: rest')
        end
  end.

(** The generator run to its end, and the object it leaves. *)
Definition get_modules_to_copy_variables_to (d : t)
  : list (string * sdict (sdict (sdict pyval))) * option exn * t :=
  let '(yielded, e, items) := copy_run d (copy_variables_to d) in
  (yielded, e, set_copy_variables_to items d).

(** *** Statements about the lines *)

(** A comment line that forbids the generation. *)
Definition forbids_generation (line : string) : bool :=
  let param := Str.strip line in
  match classify param with
  | Comment =>
      String.eqb
        (Str.lower (Str.strip (Str.lstrip_by is_hash param))) "noterraform"
  | _ => false
  end.

(** The parameter that gives a name its entry in [get_variables] and
    [get_triggers]: the last one of that name the filters let through. *)
Definition entry_of (d : t)
  (filter_foreach_only filter_foreach_forbidden : bool) (name : string)
  : option Param.t :=
  find (fun param =>
          String.eqb name (Param.name param)
          && negb (filtered_out d filter_foreach_only
                     filter_foreach_forbidden param))
       (rev (module_parameters d)).

End Methods.

End TerraformModuleResources.

(** ** terraform_remote_module_variables.py *)

Module TerraformRemoteModuleVariables.

Definition is_newline (c : ascii) : bool := Ascii.eqb c "010"%char.
Definition is_open_brace (c : ascii) : bool := Ascii.eqb c "{"%char.
Definition is_close_brace (c : ascii) : bool := Ascii.eqb c "}"%char.

(** The pattern [(?<={).+?(?=})].  [lazy_tail s] continues a match into
    [s]: the shortest run of characters other than a line feed that stops
    before a closing brace; it answers the run and what follows it. *)
Fixpoint lazy_tail (s : string) : option (string * string) :=
  match s with
  | EmptyString => None
  | String c r =>
      if is_close_brace c then Some (EmptyString, s)
      else if is_newline c then None
      else match lazy_tail r with
           | Some (m, rest) => Some (String c m, rest)
           | None => None
           end
  end.

(** A match starting on the first character of [s]: [.+?] takes at least
    one character. *)
Definition match_here (s : string) : option (string * string) :=
  match s with
  | EmptyString => None
  | String c r =>
      if is_newline c then None
      else match lazy_tail r with
           | Some (m, rest) => Some (String c m, rest)
           | None => None
           end
  end.

Fixpoint last_char (dflt : ascii) (s : string) : ascii :=
  match s with
  | EmptyString => dflt
  | String c r => last_char c r
  end.

(** [re.findall]: matches from the left, the search resuming where the
    last match ended.  [prev] is the character before [s], seen by the
    lookbehind; every turn consumes a character, so the length of the
    text is fuel enough. *)
Fixpoint findall_from (fuel : nat) (prev : option ascii) (s : string)
  : list string :=
  match fuel with
  | O => []
  | S fuel' =>
      let attempt :=
        match prev with
        | Some p => if is_open_brace p then match_here s else None
        | None => None
        end in
      match attempt with
      | Some (m, rest) =>
          m :: findall_from fuel' (Some (last_char "000"%char m)) rest
      | None =>
          match s with
          | EmptyString => []
          | String c r => findall_from fuel' (Some c) r
          end
      end
  end.

Definition findall (s : string) : list string :=
  findall_from (S (String.length s)) None s.

(** [KeyError] and [NameError], besides the exceptions above. *)
Inductive raised : Type :=
| Exn (e : exn)
| KeyError (key : string)
| NameError (name : string).

Inductive outcome (A : Type) : Type :=
| Returns (a : A)
| Raises (r : raised).
Arguments Returns {A} a.
Arguments Raises {A} r.

Definition and_then {A B : Type} (o : outcome A) (k : A -> outcome B)
  : outcome B :=
  match o with
  | Returns a => k a
  | Raises r => Raises r
  end.

Notation "'run' x <- o ; k" := (and_then o (fun x => k))
  (at level 10, x pattern, o at level 100, k at level 200).

Definition lift {A : Type} (r : result A) : outcome A :=
  match r with
  | Ok a => Returns a
  | Raise e => Raises (Exn e)
  end.

(** The names of the module.  Line 7 imports [Utils] and [strtobool] from
    [gitops_utils.utils], and nothing else of the module binds a name the
    methods use: [is_nothing] (lines 157, 181, 282, 287, 290 and 357) and
    [all_non_empty] (line 337) are looked up when their call is reached,
    and the lookup raises [NameError]. *)
Definition is_nothing : outcome (pyval -> bool) :=
  Raises (NameError "is_nothing").

Definition all_non_empty : outcome (list pyval -> pyval) :=
  Raises (NameError "all_non_empty").

(** A call of a name of the module: the name is looked up, then applied. *)
Definition call {A B : Type} (f : outcome (A -> B)) (a : A) : outcome B :=
  run f <- f; Returns (f a).

(** Lines 360 to 396 of [decode_type_param]: what follows the test of
    [is_nothing]. *)
Definition decode_type_param_body (variable_type : pyval) (key : string)
  : result string :=
  do variable_type <-
    match variable_type with
    | PList (first :: _) => Ok first
    | PList [] => Raise IndexError
    | _ => Ok variable_type
    end;
  match variable_type with
  | PStr text =>
      match findall text with
      | [] =>
          Raise (RuntimeError
                   ("No type found parsing " ++ text ++ " for key " ++ key)
                   None None)
      | part :: _ =>
          let first_part := Str.replace part "set" "list" in
          if Str.contains "object" first_part then Ok "any"
          else if negb (Str.contains "(" first_part) then Ok first_part
          else if negb (Str.contains ")" first_part)
          then Raise (RuntimeError (first_part ++ ")") None None)
          else Ok first_part
      end
  | _ => Raise TypeError
  end.

Definition decode_type_param (variable_type : pyval) (key : string)
  : outcome string :=
  run nothing <- call is_nothing variable_type;
  if nothing
  then Raises (Exn (RuntimeError ("No type set for key " ++ key) None None))
  else lift (decode_type_param_body variable_type key).

Definition is_list_type (variable_type : string) : bool :=
  Str.startswith variable_type "list("
  || Str.startswith variable_type "optional(list(".

(** [None] is [PNone]. *)
Definition compact_default_for_variable_type (variable_type : string)
  (default : pyval) (key : string) : pyval :=
  if is_list_type variable_type && negb (isinstance_list default)
  then PList [default]
  else if negb (is_list_type variable_type) && isinstance_list default
  then match default with
       | PList [] => PNone
       | PList (first :: _) => first
       | _ => default
       end
  else default.

(** *** The variables of a remote module

    Logging is left out.  A dictionary of a configuration is one object:
    no two names share one. *)

(** The variables of a module: from a name to the fields of the
    variable. *)
Abbreviation variables_t := (sdict (sdict pyval)).

(** What the class takes from [Utils] and from other packages.
    - [merge]: [self.merger.merge].
    - [get_file]: [self.get_file(file_path, charset="ascii",
      errors="ignore", headers=headers)], the parsed file.
    - [path_name]: [Path(p).name]. *)
Class RemoteExternals : Type := {
  merge : variables_t -> variables_t -> variables_t;
  get_file : string -> sdict string -> result pyval;
  path_name : string -> string
}.

(** The attributes the methods read. *)
Record t : Type := mk {
  repository_name : string;
  repository_tag : string;
  variable_files : list string;
  local_module_source : option string;
  defaults : variables_t;
  overrides : variables_t;
  parameter_generators : sdict pyval;
  map_name_to : sdict pyval;
  map_sanitized_name_to : sdict pyval;
  requires_github_authentication : bool;
  GITHUB_TOKEN : option string
}.

Section Variables.
Context {ext : Externals} {rext : RemoteExternals}.

Definition get_or {V : Type} (k : string) (d : sdict V) (dflt : V) : V :=
  match sget k d with Some v => v | None => dflt end.

(** The truth value of [strtobool(v)]. *)
Definition is_true (v : pyval) : bool :=
  match strtobool v with Some b => b | None => false end.

Definition variable_marked_for_removal (variable_data : sdict pyval) : bool :=
  is_true (get_or "remove" variable_data (PBool false)).

(** The value of [required] for a variable in the overrides, else in the
    defaults, else [False]. *)
Definition required_of (self : t) (key : string) : pyval :=
  get_or "required" (get_or key (overrides self) [])
    (get_or "required" (get_or key (defaults self) []) (PBool false)).

(** The type made to agree with [required]: a required variable loses one
    [optional(...)], another one gains it unless it has it. *)
Definition optional_type (variable_required : bool) (variable_type : string)
  : string :=
  if variable_required && Str.startswith variable_type "optional("
  then Str.removesuffix (Str.removeprefix variable_type "optional(") ")"
  else if negb variable_required
          && negb (Str.startswith variable_type "optional(")
  then "optional(" ++ variable_type ++ ")"
  else variable_type.

(** [params.get("description", "")], taken out of a list. *)
Definition description_of (params : sdict pyval) : pyval :=
  match get_or "description" params (PStr "") with
  | PList [] => PStr ""
  | PList (first :: _) => first
  | description => description
  end.

(** The body of the loop of [get_config_from_variables]: the fields of one
    variable. *)
Definition config_of (self : t) (source_path key : string) (params : pyval)
  : outcome (sdict pyval) :=
  match params with
  | PDict params =>
      match sget "type" params with
      | None => Raises (KeyError "type")
      | Some declared =>
          run variable_type <- decode_type_param declared key;
          let default :=
            compact_default_for_variable_type variable_type
              (get_or "default" params PNone) key in
          let description := description_of params in
          let defaults := get_or key (defaults self) [] in
          let overrides := get_or key (overrides self) [] in
          let variable_required := is_true (required_of self key) in
          let variable_type := optional_type variable_required variable_type in
          Returns
            [("type", PStr variable_type);
             ("source", PStr (path_name source_path));
             ("default_value",
              get_or "default_value" overrides
                (get_or "default_value" defaults default));
             ("default_generator",
              get_or "default_generator" overrides
                (get_or "default_generator" defaults PNone));
             ("override_value",
              get_or "override_value" overrides
                (get_or "override_value" defaults PNone));
             ("required", required_of self key);
             ("description", description);
             ("internal", PBool false);
             ("parameter_generator",
              get_or key (parameter_generators self)
                (get_or "parameter_generator" overrides
                   (get_or "parameter_generator" defaults PNone)))]
      end
  | _ => Raises (Exn TypeError)
  end.

(** The loop over the items of a dictionary. *)
Fixpoint config_of_items (self : t) (source_path : string)
  (items : sdict pyval) (variables : variables_t) : outcome variables_t :=
  match items with
  | [] => Returns variables
  | (key, params) :: rest =>
      run parameters <- config_of self source_path key params;
      config_of_items self source_path rest (sset key parameters variables)
  end.

Fixpoint get_config_from_variables (self : t) (variable_data : pyval)
  (source_path : string) {struct variable_data} : outcome variables_t :=
  match variable_data with
  | PList nested =>
      (fix over (nested : list pyval) (variables : variables_t)
         : outcome variables_t :=
         match nested with
         | [] => Returns variables
         | nested_variable_data :: rest =>
             run found <-
               get_config_from_variables self nested_variable_data
                 source_path;
             over rest (merge variables found)
         end) nested []
  | PDict items => config_of_items self source_path items []
  | _ => Raises (Exn AttributeError)
  end.

Definition line_feed : string := String "010"%char EmptyString.

Definition missing_variable_data (file_name : string) (variable_file : pyval)
  : exn :=
  RuntimeError
    ("Variable file " ++ file_name ++ " empty or missing variable data:"
     ++ line_feed)
    (Some variable_file) None.

(** [variable_file["variable"]], after the test that raises on a file that
    is nothing or has no such key. *)
Definition variable_section (file_name : string) (variable_file : pyval)
  : outcome pyval :=
  let missing := Raises (Exn (missing_variable_data file_name variable_file)) in
  run nothing <- call is_nothing variable_file;
  if nothing then missing
  else
    match variable_file with
    | PDict items =>
        match sget "variable" items with
        | Some section => Returns section
        | None => missing
        end
    | PStr text =>
        if Str.contains "variable" text then Raises (Exn TypeError)
        else missing
    | PList elements =>
        if existsb (fun element =>
                      match element with
                      | PStr s => String.eqb s "variable"
                      | _ => false
                      end) elements
        then Raises (Exn TypeError)
        else missing
    | _ => Raises (Exn TypeError)
    end.

(** The source of the files; [None] is formatted as [None]. *)
Definition module_source_of (self : t) : outcome string :=
  let local_module_source :=
    match local_module_source self with
    | Some source => PStr source
    | None => PNone
    end in
  run nothing <- call is_nothing local_module_source;
  if nothing
  then Returns ("https://raw.githubusercontent.com/" ++ repository_name self
                ++ "/" ++ repository_tag self)
  else Returns match local_module_source with
               | PStr source => source
               | _ => "None"
               end.

Definition headers_of (self : t) : sdict string :=
  if requires_github_authentication self
  then [("Authorization",
         "token " ++ match GITHUB_TOKEN self with
                     | Some token => token
                     | None => "None"
                     end)]
  else [].

Fixpoint get_variables_from (self : t) (headers : sdict string)
  (module_source : string) (files : list string) (variables : variables_t)
  : outcome variables_t :=
  match files with
  | [] => Returns variables
  | file_name :: rest =>
      run variable_file <-
        lift (get_file (module_source ++ "/" ++ file_name) headers);
      run section <- variable_section file_name variable_file;
      run found <- get_config_from_variables self section module_source;
      get_variables_from self headers module_source rest
        (merge variables found)
  end.

(** The headers are built before the source is. *)
Definition get_variables (self : t) : outcome variables_t :=
  let headers := headers_of self in
  run module_source <- module_source_of self;
  get_variables_from self headers module_source (variable_files self) [].

(** The loops of [convert] over the defaults and over the overrides. *)
Definition fill_missing (variable_data fields : sdict pyval) : sdict pyval :=
  fold_left
    (fun fields kv =>
       if smem (fst kv) fields then fields
       else sset (fst kv) (snd kv) fields)
    variable_data fields.

Definition overlay (variable_data fields : sdict pyval) : sdict pyval :=
  fold_left (fun fields kv => sset (fst kv) (snd kv) fields)
    variable_data fields.

Definition defaults_step (variables : variables_t)
  (item : string * sdict pyval) : variables_t :=
  let (variable_name, variable_data) := item in
  if variable_marked_for_removal variable_data
  then
    if smem variable_name variables
    then Dict.remove String.eqb variable_name variables
    else variables
  else
    match sget variable_name variables with
    | None => sset variable_name variable_data variables
    | Some fields =>
        sset variable_name (fill_missing variable_data fields) variables
    end.

Definition overrides_step (variables : variables_t)
  (item : string * sdict pyval) : variables_t :=
  let (variable_name, variable_data) := item in
  if variable_marked_for_removal variable_data && smem variable_name variables
  then Dict.remove String.eqb variable_name variables
  else
    match sget variable_name variables with
    | None => sset variable_name variable_data variables
    | Some fields =>
        sset variable_name (overlay variable_data fields) variables
    end.

(** [variables[variable_name][k] = v]. *)
Definition assign (variable_name k : string) (v : pyval)
  (variables : variables_t) : outcome variables_t :=
  match sget variable_name variables with
  | Some fields => Returns (sset variable_name (sset k v fields) variables)
  | None => Raises (KeyError variable_name)
  end.

Definition base_variable_data : sdict pyval :=
  [("source", PNone); ("override_value", PNone);
   ("default_generator", PNone); ("parameter_generator", PNone);
   ("internal", PBool false); ("required", PBool false)].

(** The generator of the default: by the sanitized name, else by the name,
    else the one the variable has. *)
Definition default_generator_of (self : t) (variable_name : string)
  (variable_data : sdict pyval) : pyval :=
  get_or variable_name (map_sanitized_name_to self)
    (get_or variable_name (map_name_to self)
       (get_or "default_generator" variable_data PNone)).

(** The default of a variable that has no generator. *)
Definition default_value_of (variable_name : string) (variable_type : pyval)
  (variable_data : sdict pyval) : outcome pyval :=
  let variable_default_value := get_or "default_value" variable_data PNone in
  run nothing <- call is_nothing variable_default_value;
  match variable_type with
  | PStr variable_type =>
      if nothing
      then
        Returns
          (if Str.startswith variable_type "optional(list"
              || Str.startswith variable_type "list"
           then PList []
           else if Str.contains "any" variable_type then PDict []
           else variable_default_value)
      else
        Returns
          (compact_default_for_variable_type variable_type
             variable_default_value variable_name)
  | _ => Raises (Exn AttributeError)
  end.

Fixpoint assign_missing (variable_name : string)
  (variable_data base : sdict pyval) (variables : variables_t)
  : outcome variables_t :=
  match base with
  | [] => Returns variables
  | (k, v) :: rest =>
      if smem k variable_data
      then assign_missing variable_name variable_data rest variables
      else
        run variables <- assign variable_name k v variables;
        assign_missing variable_name variable_data rest variables
  end.

(** One turn of the last loop of [convert]: [variable_data] is the copy
    made before the loop, [variables] is what the loop writes to. *)
Definition finalize_step (self : t) (variables : variables_t)
  (item : string * sdict pyval) : outcome variables_t :=
  let (variable_name, variable_data) := item in
  if variable_marked_for_removal variable_data
  then
    if smem variable_name variables
    then Returns (Dict.remove String.eqb variable_name variables)
    else Raises (KeyError variable_name)
  else
    let default_generator :=
      default_generator_of self variable_name variable_data in
    run variables <-
      assign variable_name "default_generator" default_generator variables;
    let variable_type := get_or "type" variable_data PNone in
    run nothing <- call is_nothing variable_type;
    if nothing
    then Raises (Exn (RuntimeError
                        ("Variable " ++ variable_name ++ " has no type set")
                        None None))
    else
      run no_generator <- call is_nothing default_generator;
      run default_value <-
        (if no_generator
         then default_value_of variable_name variable_type variable_data
         else Returns default_generator);
      run variables <-
        assign variable_name "default_value" default_value variables;
      run variables <-
        match default_value with
        | PList elements =>
            run non_empty <- call all_non_empty elements;
            assign variable_name "default_value" non_empty variables
        | _ => Returns variables
        end;
      assign_missing variable_name variable_data base_variable_data variables.

Fixpoint finalize (self : t) (copied : variables_t) (variables : variables_t)
  : outcome variables_t :=
  match copied with
  | [] => Returns variables
  | item :: rest =>
      run variables <- finalize_step self variables item;
      finalize self rest variables
  end.

Definition convert (self : t) : outcome variables_t :=
  run variables <- get_variables self;
  let variables := fold_left defaults_step (defaults self) variables in
  let variables := fold_left overrides_step (overrides self) variables in
  finalize self variables variables.

End Variables.

End TerraformRemoteModuleVariables.

(** ** A sample of the imported functions and constants

    Used to run the code on concrete inputs.  Each function follows its
    library on the inputs met there: bare words, the literals [true],
    [false] and [null], integers, commas outside double quotes, relative
    path segments.  The constants of [defaults] are a sample too. *)

Module Sample.

Definition is_nothing (v : pyval) : bool :=
  match v with
  | PNone => true
  | PStr s => String.eqb (Str.strip s) ""
  | PList [] => true
  | PDict [] => true
  | _ => false
  end.

Definition strtobool (v : pyval) : option bool :=
  match v with
  | PBool b => Some b
  | PStr s =>
      let w := Str.lower s in
      if existsb (String.eqb w) ["y"; "yes"; "t"; "true"; "on"; "1"]
      then Some true
      else if existsb (String.eqb w) ["n"; "no"; "f"; "false"; "off"; "0"]
      then Some false
      else None
  | _ => None
  end.

Definition digit_of (c : ascii) : option Z :=
  let n := Str.code c in
  if (48 <=? n) && (n <=? 57) then Some (Z.of_nat (n - 48)) else None.

Fixpoint digits_value (acc : Z) (s : string) : option Z :=
  match s with
  | EmptyString => Some acc
  | String c r =>
      match digit_of c with
      | Some v => digits_value (10 * acc + v)%Z r
      | None => None
      end
  end.

(** A JSON integer: no sign but [-], no leading zero. *)
Definition natural (s : string) : option Z :=
  match s with
  | EmptyString => None
  | String "0" EmptyString => Some 0%Z
  | String "0" _ => None
  | _ => digits_value 0%Z s
  end.

Definition json_loads (s : string) : option pyval :=
  if String.eqb s "true" then Some (PBool true)
  else if String.eqb s "false" then Some (PBool false)
  else if String.eqb s "null" then Some PNone
  else match s with
       | String "-" r => option_map (fun z => PInt (- z)%Z) (natural r)
       | _ => option_map PInt (natural s)
       end.

Definition is_comma (c : ascii) : bool := Ascii.eqb c ","%char.

(** Chunks between the commas that stand outside double quotes, the
    quotes kept. *)
Fixpoint tssplit_from (in_quotes : bool) (s : string) : list string :=
  match s with
  | EmptyString => [EmptyString]
  | String c r =>
      if is_comma c && negb in_quotes
      then EmptyString :: tssplit_from in_quotes r
      else
        let in_quotes :=
          if TerraformModuleResources.is_quote c then negb in_quotes
          else in_quotes in
        match tssplit_from in_quotes r with
        | [] => [String c EmptyString]
        | h :: t => String c h :: t
        end
  end.

Definition tssplit (s : string) : list string := tssplit_from false s.

Definition joinpath (dir : string) (segments : list string) : string :=
  Str.join "/" (dir :: segments).

Definition externals : Externals :=
  Build_Externals is_nothing strtobool json_loads tssplit joinpath.

Definition defaults : Defaults :=
  Build_Defaults "terraform-modules" "library" "-" "tm_cli".

Definition newline : string := String "010"%char EmptyString.

(** [TerraformModuleResources(module_name, docstring)], the other
    arguments left to their defaults. *)
Definition resources (module_name docstring : string)
  : result TerraformModuleResources.t :=
  TerraformModuleResources.__init__ (ext := externals) defaults module_name
    (Some docstring) None None None None None None.

(** An object with no docstring, before the required parameters are
    added. *)
Definition bare : TerraformModuleResources.t :=
  TerraformModuleResources.mk "terraform-modules" "library" "-" "tm_cli" "m"
    None None None [] [] [] [] [] [] [] [] None None [] [] [] [] false
    "tm_cli m" false.

(** The object built from a docstring, [bare] standing for a failed
    construction. *)
Definition built (docstring : string) : TerraformModuleResources.t :=
  match resources "m" docstring with
  | Ok d => d
  | Raise _ => bare
  end.

(** Parameters and docstrings of the examples. *)
Definition plain (name : string) : TerraformModuleParameter.t :=
  TerraformModuleParameter.__init__ name false false PNone true None false
    None None.

Definition encoded_x : TerraformModuleParameter.t :=
  TerraformModuleParameter.__init__ "x" true true PNone true None false
    None None.

Definition overridden_x : TerraformModuleParameter.t :=
  TerraformModuleParameter.__init__ "x" false false PNone true None false None
    (Some "local.x").

Definition untyped_id : TerraformModuleParameter.t :=
  TerraformModuleParameter.mk "vpc_id" false false (PInt 7) true None false
    None None.

Definition lines (ls : list string) : string := Str.join newline ls.

Definition doc_plain : string :=
  lines ["Desc"; "name:foo,default:" ++ TerraformModuleResources.dq ++ "bar"
                 ++ TerraformModuleResources.dq].

Definition doc_two_iterators : string :=
  lines ["Desc"; "name:a,foreach_iterator:true";
         "name:b,foreach_iterator:true"].

Definition doc_two_files : string :=
  lines ["Desc"; "name:a,foreach_from_file_path:true";
         "name:b,foreach_from_file_path:true"].

Definition doc_region : string :=
  lines ["Desc"; "name:region,foreach_iterator:true";
         "foreach=module_name:regions"].

Definition doc_region_numeric_key : string :=
  lines ["Desc"; "generator=key:5"; "name:region,foreach_iterator:true";
         "foreach=module_name:regions"].

Definition doc_region_for_each : string :=
  lines ["Desc"; "name:region,foreach_iterator:true"; "name:for_each";
         "foreach=module_name:regions"].

Definition doc_unknown_key : string :=
  lines ["Desc"; "name:foo,colour:red"].

Definition doc_noterraform : string := lines ["Desc"; "# NoTerraform"].

Definition doc_copy : string :=
  lines ["Desc"; "name:a"; "name:b,foreach_only:true";
         "copy_variables_to=module_name:other"].

Definition doc_copy_unnamed : string :=
  lines ["Desc"; "name:a"; "copy_variables_to=modules_file_name:v.tf.json"].

(** The document [get_foreach] yields for [doc_region]. *)
Definition region_document : TerraformModuleResources.foreach_document :=
  match fst (TerraformModuleResources.get_foreach (ext := externals)
               (built doc_region) PNone PNone "Data query results") with
  | (_, doc) :: _ => doc
  | [] => TerraformModuleResources.mk_document [] [] None
  end.

(** A sample of what the remote variables take from [Utils]: the merge
    keeps the entries of the right over those of the left, one file is
    there, and a path is named by its last segment. *)
Definition merge (a b : sdict (sdict pyval)) : sdict (sdict pyval) :=
  Dict.union String.eqb a b.

Definition declarations : sdict pyval :=
  [("name", PDict [("type", PStr "${string}");
                   ("description", PStr "The name")]);
   ("tags", PDict [("type", PStr "${map(string)}"); ("default", PDict [])]);
   ("zones", PDict [("type", PStr "${set(string)}")])].

(** One block for each declaration, as the parser of the files gives
    them. *)
Definition variable_blocks : list pyval :=
  map (fun declaration => PDict [declaration]) declarations.

Definition variables_tf : pyval :=
  PDict [("variable", PList variable_blocks)].

Definition get_file (file_path : string) (headers : sdict string)
  : result pyval :=
  if String.eqb file_path "modules/vpc/variables.tf" then Ok variables_tf
  else Ok PNone.

Definition path_name (p : string) : string :=
  last (Str.split "/" p) EmptyString.

Definition remote_externals : TerraformRemoteModuleVariables.RemoteExternals :=
  TerraformRemoteModuleVariables.Build_RemoteExternals merge get_file
    path_name.

(** [TerraformRemoteModuleVariables] for a module kept in a local
    directory. *)
Definition remote : TerraformRemoteModuleVariables.t :=
  TerraformRemoteModuleVariables.mk "org/repo" "v1" ["variables.tf"]
    (Some "modules/vpc")
    [("name", [("note", PStr "from the defaults");
               ("description", PStr "A default description")])]
    [("name", [("required", PBool true)]);
     ("tags", [("remove", PBool true)])]
    [] [] [] false None.

(** Variables as the loops of [convert] would take them. *)
Definition fetched : sdict (sdict pyval) :=
  [("name",
    [("type", PStr "string"); ("source", PStr "vpc");
     ("default_value", PNone); ("default_generator", PNone);
     ("override_value", PNone); ("required", PBool true);
     ("description", PStr "The name"); ("internal", PBool false);
     ("parameter_generator", PNone)]);
   ("tags",
    [("type", PStr "optional(map(string))"); ("source", PStr "vpc");
     ("default_value", PDict []); ("default_generator", PNone);
     ("override_value", PNone); ("required", PBool false);
     ("description", PStr ""); ("internal", PBool false);
     ("parameter_generator", PNone)])].

End Sample.

(** Distinct keys of a dictionary that is given. *)
Ltac distinct_keys :=
  vm_compute;
  repeat (apply NoDup_cons;
          [let H := fresh in
           intros H; repeat (destruct H as [H|H]; [discriminate H|]);
           exact H|]);
  apply NoDup_nil.

(** * Properties *)


(** ** Results *)

Lemma bind_ok {A B : Type} (r : result A) (k : A -> result B) (b : B) :
  bind r k = Ok b -> exists a, r = Ok a /\ k a = Ok b.
Proof.
  destruct r as [a|e]; cbn; [eauto | discriminate].
Qed.

Lemma reraise_ok {A : Type} (param : string) (r : result A) (a : A) :
  TerraformModuleResources.reraise param r = Ok a -> r = Ok a.
Proof.
  destruct r as [x|[]]; cbn; congruence.
Qed.

(** ** Strings *)

Lemma append_assoc (a b c : string) : (a ++ b) ++ c = a ++ (b ++ c).
Proof.
  induction a as [|x a IH]; cbn; [reflexivity | now rewrite IH].
Qed.

Lemma prefix_cons (a b : ascii) (s1 s2 : string) :
  String.prefix (String a s1) (String b s2) = true ->
  a = b /\ String.prefix s1 s2 = true.
Proof.
  cbn. destruct (ascii_dec a b) as [->|]; [now split | discriminate].
Qed.

Lemma prefix_split (sub s : string) :
  String.prefix sub s = true -> exists t, s = sub ++ t.
Proof.
  revert s. induction sub as [|a sub IH]; intros s Hpre.
  - exists s. reflexivity.
  - destruct s as [|b s]; [discriminate|].
    apply prefix_cons in Hpre as [-> Hpre].
    destruct (IH _ Hpre) as [t ->]. exists t. reflexivity.
Qed.

(** Rewriting [set] to [list] keeps an occurrence of [object]: no match of
    [set] overlaps it.  The statement follows the recursion, [k] characters
    of a match being still to pass. *)
Lemma replace_from_keeps_object (s : string) : forall k : nat,
  Str.contains "object" (Str.drop k s) = true ->
  Str.contains "object" (Str.replace_from k "set" "list" s) = true.
Proof.
  induction s as [|c r IH]; intros k Hin.
  - destruct k; discriminate.
  - destruct k as [|k]; [|exact (IH k Hin)].
    cbn [Str.drop] in Hin. cbn [Str.replace_from].
    destruct (String.prefix "set" (String c r)) eqn:Hset.
    + apply prefix_split in Hset as [t Ht]. cbn in Ht.
      injection Ht as -> ->.
      cbn in Hin. specialize (IH 2 Hin). cbn in IH |- *.
      rewrite IH. reflexivity.
    + cbn [Str.contains] in Hin. apply orb_true_iff in Hin as [Hhere|Hlater].
      * apply prefix_split in Hhere as [t Ht]. cbn in Ht.
        injection Ht as -> ->. cbn.
        now destruct (Str.replace_from 0 "set" "list" t).
      * cbn [Str.contains]. rewrite (IH 0 Hlater). apply orb_true_r.
Qed.

Lemma replace_keeps_object (s : string) :
  Str.contains "object" s = true ->
  Str.contains "object" (Str.replace s "set" "list") = true.
Proof.
  intros Hin. unfold Str.replace. now apply replace_from_keeps_object.
Qed.

Lemma split_length (sep : ascii) (s : string) :
  List.length (Str.split sep s) = S (Str.count sep s).
Proof.
  induction s as [|c r IH]; cbn; [reflexivity|].
  destruct (Ascii.eqb c sep); cbn.
  - now rewrite IH.
  - destruct (Str.split sep r) as [|h t]; cbn in *; [discriminate | exact IH].
Qed.

(** Stripping characters other than [x] keeps the occurrences of [x]. *)
Lemma count_lstrip_by (p : ascii -> bool) (x : ascii) (s : string) :
  p x = false -> Str.count x (Str.lstrip_by p s) = Str.count x s.
Proof.
  intros Hx. induction s as [|c r IH]; cbn; [reflexivity|].
  destruct (p c) eqn:Hc; [|reflexivity].
  rewrite IH.
  destruct (Ascii.eqb_spec c x) as [->|_]; [congruence | reflexivity].
Qed.

Lemma count_rstrip_by (p : ascii -> bool) (x : ascii) (s : string) :
  p x = false -> Str.count x (Str.rstrip_by p s) = Str.count x s.
Proof.
  intros Hx. induction s as [|c r IH]; cbn; [reflexivity|].
  destruct (Str.rstrip_by p r) as [|c' r'] eqn:Hr.
  - cbn in IH. rewrite <- IH.
    destruct (p c) eqn:Hc; cbn; [|reflexivity].
    destruct (Ascii.eqb_spec c x) as [->|_]; [congruence | reflexivity].
  - rewrite <- IH. reflexivity.
Qed.

Lemma count_strip_by (p : ascii -> bool) (x : ascii) (s : string) :
  p x = false -> Str.count x (Str.strip_by p s) = Str.count x s.
Proof.
  intros Hx. unfold Str.strip_by.
  now rewrite count_rstrip_by, count_lstrip_by.
Qed.

(** ** The model on the examples of the documentation *)

Example trigger_of_encoded_parameter :
  TerraformModuleParameter.get_trigger Sample.encoded_x false
  = "${try(nonsensitive(base64encode(jsonencode(var.x))), base64encode(jsonencode(var.x)))}".
Proof. reflexivity. Qed.

Example variable_of_required_parameter :
  TerraformModuleParameter.get_variable
    (TerraformModuleParameter.__init__ "foo" false false (PStr "bar") true
       None false None None)
  = [("type", PStr "string")].
Proof. reflexivity. Qed.

Example variable_of_optional_parameter :
  TerraformModuleParameter.get_variable
    (TerraformModuleParameter.__init__ "foo" false false (PStr "bar") false
       None false None None)
  = [("type", PStr "string"); ("default", PStr "bar")].
Proof. reflexivity. Qed.

Example compact_default_wraps :
  TerraformRemoteModuleVariables.compact_default_for_variable_type
    "list(string)" (PStr "a") "k"
  = PList [PStr "a"].
Proof. reflexivity. Qed.

Example compact_default_empty :
  TerraformRemoteModuleVariables.compact_default_for_variable_type "string"
    (PList []) "k" = PNone.
Proof. reflexivity. Qed.

Example compact_default_single :
  TerraformRemoteModuleVariables.compact_default_for_variable_type "string"
    (PList [PStr "a"]) "k" = PStr "a".
Proof. reflexivity. Qed.

Example findall_object_type :
  TerraformRemoteModuleVariables.findall "${object({foo=string})}"
  = ["object({foo=string"].
Proof. reflexivity. Qed.

Example findall_resumes_after_a_match :
  TerraformRemoteModuleVariables.findall "${a}{b}x{}}" = ["a"; "b"; "}"].
Proof. reflexivity. Qed.

Example chunk_with_quoted_value :
  TerraformModuleResources.get_json_export_for_chunk (ext := Sample.externals)
    ("default:" ++ TerraformModuleResources.dq ++ "bar"
     ++ TerraformModuleResources.dq)
  = Ok ("default", PStr "bar").
Proof. reflexivity. Qed.

Example chunk_with_equals_sign :
  TerraformModuleResources.get_json_export_for_chunk (ext := Sample.externals)
    "name=foo"
  = Raise (TerraformModuleResources.failed_chunks "name=foo").
Proof. reflexivity. Qed.

(** ** The parameter model *)

Section ParameterModel.
Import TerraformModuleParameter.

(** C1, as stated, fails: a parameter with an explicit [trigger] gets that
    string back as it is, and it is not of the form
    [${try(nonsensitive(E), E)}]. *)
Lemma get_trigger_override_not_wrapped :
  get_trigger Sample.overridden_x false = "local.x"
  /\ ~ (exists E : string,
          get_trigger Sample.overridden_x false
          = "${try(nonsensitive(" ++ E ++ "), " ++ E ++ ")}").
Proof.
  split; [reflexivity|].
  intros [E H]. cbn in H. discriminate H.
Qed.

(** C1, amended: without a [trigger] override, [get_trigger] answers
    [${try(nonsensitive(E), E)}], where [E] is [var.<name>] wrapped in
    [jsonencode] and then [base64encode] as the flags ask, unless encoding
    is disabled; with an override, it answers the override itself. *)
Theorem get_trigger_wraps_unless_overridden (p : t) (disable_encoding : bool) :
  (trigger p = None ->
   exists E : string,
     get_trigger p disable_encoding
     = "${try(nonsensitive(" ++ E ++ "), " ++ E ++ ")}"
     /\ E = trigger_expression p disable_encoding
     /\ (disable_encoding = true -> E = "var." ++ name p)
     /\ (disable_encoding = false -> json_encode p = false ->
         base64_encode p = false -> E = "var." ++ name p)
     /\ (disable_encoding = false -> json_encode p = true ->
         base64_encode p = true ->
         E = "base64encode(jsonencode(var." ++ name p ++ "))"))
  /\ (forall override : string,
        trigger p = Some override ->
        get_trigger p disable_encoding = override).
Proof.
  split.
  - intros Hnone. exists (trigger_expression p disable_encoding).
    unfold get_trigger. rewrite Hnone.
    repeat split.
    + intros ->. unfold trigger_expression. cbn [negb].
      now rewrite !andb_false_r.
    + intros -> Hj Hb. unfold trigger_expression.
      rewrite Hj, Hb. reflexivity.
    + intros -> Hj Hb. unfold trigger_expression.
      rewrite Hj, Hb. cbn. now rewrite append_assoc.
  - intros override Hsome. unfold get_trigger. now rewrite Hsome.
Qed.

Lemma get_trigger_wraps_unless_overridden_witness :
  trigger Sample.encoded_x = None
  /\ get_trigger Sample.encoded_x false
     = "${try(nonsensitive(base64encode(jsonencode(var.x))), base64encode(jsonencode(var.x)))}".
Proof.
  split; [reflexivity|].
  destruct (get_trigger_wraps_unless_overridden Sample.encoded_x false)
    as [Hwrap _].
  destruct (Hwrap eq_refl) as [E [Hform [HE _]]].
  rewrite Hform, HE. reflexivity.
Defined.





End ParameterModel.

(** ** Type strings and defaults of remote variables *)

Section RemoteVariables.
Import TerraformRemoteModuleVariables.

(** A call of [is_nothing] in this module gives no answer. *)
Lemma call_is_nothing (v : pyval) :
  call is_nothing v = Raises (NameError "is_nothing").
Proof. reflexivity. Qed.

(** The first statement of [decode_type_param] is such a call. *)
Lemma decode_type_param_unbound (variable_type : pyval) (key : string) :
  decode_type_param variable_type key = Raises (NameError "is_nothing").
Proof.
  unfold decode_type_param. now rewrite call_is_nothing.
Qed.




(** C7: the code does not do what the claim says.  Both calls of the claim
    raise [NameError] for the name [is_nothing], and no call of
    [decode_type_param] returns a type.  The lines the calls do not reach
    are those of the claim: they give ["any"] for the object type and
    ["list(string)"] for the set type. *)
Theorem decode_type_param_object_and_set_not_decoded :
  decode_type_param (PStr "${object({foo=string})}") "k"
  = Raises (NameError "is_nothing")
  /\ decode_type_param (PStr "${set(string)}") "k"
     = Raises (NameError "is_nothing")
  /\ (forall variable_type key decoded,
        decode_type_param variable_type key <> Returns decoded)
  /\ decode_type_param_body (PStr "${object({foo=string})}") "k" = Ok "any"
  /\ decode_type_param_body (PStr "${set(string)}") "k" = Ok "list(string)".
Proof.
  split; [apply decode_type_param_unbound|].
  split; [apply decode_type_param_unbound|].
  split; [|split; reflexivity].
  intros variable_type key decoded.
  rewrite decode_type_param_unbound. discriminate.
Qed.

(** C10: for a type that is not a list type and a list default of two
    elements or more, [compact_default_for_variable_type] returns the first
    element; the others are dropped. *)
Theorem compact_default_keeps_first_only
  (variable_type key : string) (first second : pyval) (others : list pyval) :
  Str.startswith variable_type "list(" = false ->
  Str.startswith variable_type "optional(list(" = false ->
  compact_default_for_variable_type variable_type
    (PList (first :: second :: others)) key
  = first.
Proof.
  intros Hlist Hoptional.
  unfold compact_default_for_variable_type, is_list_type.
  now rewrite Hlist, Hoptional.
Qed.

Lemma compact_default_keeps_first_only_witness :
  compact_default_for_variable_type "string"
    (PList [PStr "a"; PStr "b"; PStr "c"]) "k"
  = PStr "a".
Proof.
  apply compact_default_keeps_first_only; reflexivity.
Defined.

End RemoteVariables.

(** ** Chunks, lines and descriptors *)

Section Descriptors.
Import TerraformModuleResources.

Lemma count_strip_quoted (chunk : string) :
  Str.count ":" (strip_quoted chunk) = Str.count ":" chunk.
Proof.
  unfold strip_quoted, Str.strip.
  now rewrite !count_strip_by by reflexivity.
Qed.

(** C9: a chunk with no colon, or with two colons or more, makes
    [get_json_export_for_chunk] raise the error of a malformed chunk; a
    chunk with one colon is given a key and a value. *)
Theorem get_json_export_for_chunk_needs_one_colon {ext : Externals}
  (chunk : string) :
  (Str.count ":" chunk <> 1 ->
   get_json_export_for_chunk chunk
   = Raise (RuntimeError ("Failed to get chunks for: " ++ chunk) None
              (Some ValueError)))
  /\ (Str.count ":" chunk = 1 ->
      exists k v, get_json_export_for_chunk chunk = Ok (k, v)).
Proof.
  unfold get_json_export_for_chunk.
  pose proof (split_length ":" (strip_quoted chunk)) as Hlen.
  rewrite count_strip_quoted in Hlen.
  destruct (Str.split ":" (strip_quoted chunk)) as [|k [|v [|w rest]]];
    cbn in Hlen; split; intros Hcount; try reflexivity; try lia.
  destruct (json_loads (strip_quoted v)); eauto.
Qed.

Lemma get_json_export_for_chunk_needs_one_colon_witness :
  Str.count ":" "url:https://example.com" <> 1
  /\ get_json_export_for_chunk (ext := Sample.externals)
       "url:https://example.com"
     = Raise (RuntimeError "Failed to get chunks for: url:https://example.com"
                None (Some ValueError)).
Proof.
  assert (Hcount : Str.count ":" "url:https://example.com" <> 1)
    by (cbn; lia).
  split; [exact Hcount|].
  destruct (get_json_export_for_chunk_needs_one_colon
              (ext := Sample.externals) "url:https://example.com")
    as [Hraise _].
  exact (Hraise Hcount).
Defined.

(** C5, on the code: a class that is not nothing and holds an ASCII letter
    or digit comes back as it was given, leading characters included;
    ["_foo"] comes back as ["_foo"], not as ["foo"]. *)
Theorem get_module_class_keeps_leading_characters {ext : Externals}
  (d : t) :
  (forall s : string,
     is_nothing (PStr s) = false ->
     search_ascii_alnum s <> None ->
     get_module_class d (PStr s) = Ok (PStr s))
  /\ (is_nothing (PStr "_foo") = false ->
      get_module_class d (PStr "_foo") = Ok (PStr "_foo")).
Proof.
  assert (Hgen : forall s : string,
             is_nothing (PStr s) = false ->
             search_ascii_alnum s <> None ->
             get_module_class d (PStr s) = Ok (PStr s)).
  { intros s Hsome Hfound. unfold get_module_class. rewrite Hsome.
    destruct (Str.first_isalnum s); cbn; [reflexivity|].
    destruct (search_ascii_alnum s); [reflexivity | congruence]. }
  split; [exact Hgen|].
  intros Hsome. apply Hgen; [exact Hsome | discriminate].
Qed.

Lemma get_module_class_keeps_leading_characters_witness :
  is_nothing (Externals := Sample.externals) (PStr "_foo") = false
  /\ get_module_class (ext := Sample.externals) Sample.bare (PStr "_foo")
     = Ok (PStr "_foo").
Proof.
  split; [reflexivity|].
  destruct (get_module_class_keeps_leading_characters
              (ext := Sample.externals) Sample.bare) as [_ Hfoo].
  apply Hfoo. reflexivity.
Defined.

(** A parameter line with neither [foreach_only] nor [foreach_forbidden]
    puts two items on the local list: the parameter, then its keywords. *)
Lemma declare_plain (m : markers) (module_param : TerraformModuleParameter.t)
  (expanded_param : sdict pyval) (d : t) (module_params : list entry) :
  marked_foreach_only m = false ->
  marked_foreach_forbidden m = false ->
  snd (declare m module_param expanded_param (d, module_params))
  = (module_params ++ [inl module_param; inr expanded_param])%list.
Proof.
  intros Honly Hforbidden. unfold declare.
  rewrite Honly, Hforbidden. cbn. now rewrite <- app_assoc.
Qed.

Lemma expand_param_builds {ext : Externals} (param : string) (m : markers)
  (module_param : TerraformModuleParameter.t) (expanded_param : sdict pyval) :
  expand_param param = Ok (m, module_param, expanded_param) ->
  TerraformModuleParameter.of_kwargs expanded_param = Ok module_param.
Proof.
  unfold expand_param. intros Hexpand.
  apply bind_ok in Hexpand as [[m' e] [_ Hexpand]].
  destruct (TerraformModuleParameter.of_kwargs e) as [q|err] eqn:Hbuilt.
  - now injection Hexpand as _ <- <-.
  - destruct err; discriminate.
Qed.

(** Whatever the imported functions are, such a line leaves two items that
    build the same parameter. *)
Lemma plain_line_two_items {ext : Externals} (st st' : parse_state)
  (line : string) (m : markers) (p : TerraformModuleParameter.t) :
  process_param st line = Ok st' ->
  declares line = Some (m, p) ->
  marked_foreach_only m = false ->
  marked_foreach_forbidden m = false ->
  exists expanded_param : sdict pyval,
    snd st' = (snd st ++ [inl p; inr expanded_param])%list
    /\ TerraformModuleParameter.of_kwargs expanded_param = Ok p.
Proof.
  destruct st as [d module_params]. unfold process_param, declares.
  intros Hrun Hdecl Honly Hforbidden. apply reraise_ok in Hrun.
  destruct (classify (Str.strip line)); try discriminate.
  destruct (expand_param (Str.strip line)) as [[[m' p'] e]|err] eqn:Hexpand;
    [|discriminate].
  injection Hdecl as -> ->. cbn [bind] in Hrun. injection Hrun as <-.
  exists e. split.
  - now apply declare_plain.
  - exact (expand_param_builds _ _ _ _ Hexpand).
Qed.

(** C2, on the code: the docstring whose one parameter line is
    [name:foo,default:"bar"] builds a descriptor with two parameters named
    [foo], followed by the three required ones. *)
Theorem plain_parameter_line_appended_twice :
  exists d : t,
    Sample.resources "m" Sample.doc_plain = Ok d
    /\ map TerraformModuleParameter.name (module_parameters d)
       = ["foo"; "foo"; "checksum"; "log_results_dir"; "execution_role_arn"]
    /\ ~ NoDup (map TerraformModuleParameter.name (module_parameters d)).
Proof.
  eexists. split; [vm_compute; reflexivity|].
  split; [reflexivity|].
  cbn. intros Hnodup. inversion Hnodup as [|x l Hnotin _]; subst.
  apply Hnotin. left. reflexivity.
Qed.

End Descriptors.

(** ** The foreach markers of a docstring *)

Section ForeachMarkers.
Import TerraformModuleResources.
Context {ext : Externals}.

Lemma process_param_iterators (st st' : parse_state) (line : string) :
  process_param st line = Ok st' ->
  foreach_iterator (fst st')
  = marked found_foreach_iterator line (foreach_iterator (fst st))
  /\ foreach_from_file_path (fst st')
     = marked found_foreach_from_file_path line
         (foreach_from_file_path (fst st)).
Proof.
  destruct st as [d module_params]. unfold process_param, marked, declares.
  intros Hrun. apply reraise_ok in Hrun.
  destruct (classify (Str.strip line)) eqn:Hkind.
  - injection Hrun as <-. now split.
  - destruct (String.eqb _ _); injection Hrun as <-; now split.
  - apply bind_ok in Hrun as [gp [_ Hrun]]. injection Hrun as <-. now split.
  - apply bind_ok in Hrun as [kv [_ Hrun]]. injection Hrun as <-. now split.
  - apply bind_ok in Hrun as [kv [_ Hrun]]. injection Hrun as <-. now split.
  - apply bind_ok in Hrun as [kv [_ Hrun]]. injection Hrun as <-. now split.
  - apply bind_ok in Hrun as [kv [_ Hrun]]. injection Hrun as <-. now split.
  - apply bind_ok in Hrun as [[[fname fcall] fbind] [_ Hrun]].
    apply bind_ok in Hrun as [path [_ Hrun]].
    apply bind_ok in Hrun as [called [_ Hrun]].
    injection Hrun as <-. now split.
  - apply bind_ok in Hrun as [[[m module_param] expanded] [Hexpand Hrun]].
    rewrite Hexpand. injection Hrun as <-.
    unfold declare.
    destruct m as [it ff ky vl on fb].
    destruct it, ff, ky, vl, on, fb; now split.
Qed.

Lemma process_params_app (l1 l2 : list string) (st : parse_state) :
  process_params (l1 ++ l2)%list st
  = bind (process_params l1 st) (process_params l2).
Proof.
  revert st. induction l1 as [|line l1 IH]; intros st; cbn; [reflexivity|].
  destruct (process_param st line) as [st1|e]; cbn; [apply IH | reflexivity].
Qed.

(** The two attributes are assigned by parameter lines only; the rest of the
    constructor leaves them alone. *)
Lemma add_module_params_iterators (items : list entry) (d d' : t) :
  add_module_params items d = Ok d' ->
  foreach_iterator d' = foreach_iterator d
  /\ foreach_from_file_path d' = foreach_from_file_path d.
Proof.
  revert d. induction items as [|[p|kw] items IH]; intros d Hrun; cbn in Hrun.
  - injection Hrun as <-. now split.
  - apply IH in Hrun. exact Hrun.
  - apply bind_ok in Hrun as [p [_ Hrun]]. apply IH in Hrun. exact Hrun.
Qed.

Lemma set_module_params_iterators (items : option (list entry)) (d d' : t) :
  set_module_params items d = Ok d' ->
  foreach_iterator d' = foreach_iterator d
  /\ foreach_from_file_path d' = foreach_from_file_path d.
Proof.
  destruct items as [items|]; cbn.
  - apply add_module_params_iterators.
  - intros Hrun. injection Hrun as <-. now split.
Qed.

Lemma add_required_iterators (d : t) (item : string * Param.t) :
  foreach_iterator (add_required d item) = foreach_iterator d
  /\ foreach_from_file_path (add_required d item) = foreach_from_file_path d.
Proof.
  destruct item as [param_name module_param]. unfold add_required.
  destruct (existsb _ _); now split.
Qed.

Lemma set_required_module_params_iterators (d : t) :
  foreach_iterator (set_required_module_params d) = foreach_iterator d
  /\ foreach_from_file_path (set_required_module_params d)
     = foreach_from_file_path d.
Proof.
  unfold set_required_module_params.
  generalize required_params. intros items. revert d.
  induction items as [|item items IH]; intros d; cbn; [now split|].
  destruct (IH (add_required d item)) as [-> ->].
  apply add_required_iterators.
Qed.

Section OneMarker.
Variable flag : markers -> bool.
Variable attribute : t -> option TerraformModuleParameter.t.
Hypothesis attribute_step :
  forall (st st' : parse_state) (line : string),
    process_param st line = Ok st' ->
    attribute (fst st') = marked flag line (attribute (fst st)).

(** Lines that do not carry the marker leave the attribute as it is. *)
Lemma unmarked_lines_keep (after : list string) (st st' : parse_state) :
  (forall l m' p',
      In l after -> declares l = Some (m', p') -> flag m' = false) ->
  process_params after st = Ok st' ->
  attribute (fst st') = attribute (fst st).
Proof.
  revert st. induction after as [|l after IH]; intros st Hnone Hrun;
    cbn in Hrun.
  - now injection Hrun as <-.
  - apply bind_ok in Hrun as [st1 [Hstep Hrun]].
    rewrite (IH st1); [|intros; eapply Hnone; eauto using in_cons | exact Hrun].
    rewrite (attribute_step _ _ _ Hstep). unfold marked.
    destruct (declares l) as [[m' p']|] eqn:Hdecl; [|reflexivity].
    now rewrite (Hnone l m' p' (in_eq _ _) Hdecl).
Qed.

(** The last line carrying the marker gives the attribute. *)
Lemma last_marked_line_wins (before after : list string) (line : string)
  (m : markers) (p : TerraformModuleParameter.t) (st st' : parse_state) :
  declares line = Some (m, p) ->
  flag m = true ->
  (forall l m' p',
      In l after -> declares l = Some (m', p') -> flag m' = false) ->
  process_params (before ++ line :: after)%list st = Ok st' ->
  attribute (fst st') = Some p.
Proof.
  intros Hdecl Hflag Hnone Hrun.
  rewrite process_params_app in Hrun.
  apply bind_ok in Hrun as [st0 [_ Hrun]]. cbn in Hrun.
  apply bind_ok in Hrun as [st1 [Hstep Hrun]].
  rewrite (unmarked_lines_keep after st1 st' Hnone Hrun).
  rewrite (attribute_step _ _ _ Hstep). unfold marked.
  now rewrite Hdecl, Hflag.
Qed.
End OneMarker.

(** The descriptor built by the constructor carries what the loop over the
    lines left in the two attributes. *)
Lemma init_iterators (defaults : Defaults) (module_name docstring : string)
  (module_type : option string) (module_params : option (list entry))
  (modules_dir modules_class modules_name_delim modules_binary_name
     : option string)
  (d : t) (first : string) (rest : list string) :
  __init__ defaults module_name (Some docstring) module_type module_params
    modules_dir modules_class modules_name_delim modules_binary_name = Ok d ->
  docstring_lines docstring = first :: rest ->
  rest <> [] ->
  exists (d0 : t) (st : parse_state),
    foreach_iterator d0 = None
    /\ foreach_from_file_path d0 = None
    /\ process_params rest (d0, []) = Ok st
    /\ foreach_iterator d = foreach_iterator (fst st)
    /\ foreach_from_file_path d = foreach_from_file_path (fst st).
Proof.
  intros Hinit Hlines Hrest. unfold __init__ in Hinit.
  apply bind_ok in Hinit as [d1 [Hconfig Hinit]].
  apply bind_ok in Hinit as [d2 [Hparams Hinit]].
  injection Hinit as <-.
  unfold get_module_config in Hconfig.
  cbn [TerraformModuleResources.docstring] in Hconfig.
  rewrite Hlines in Hconfig.
  destruct rest as [|line rest]; [congruence|].
  apply bind_ok in Hconfig as [st [Hloop Hconfig]].
  match type of Hloop with
  | process_params _ (?d0, _) = _ => exists d0, st
  end.
  split; [reflexivity|]. split; [reflexivity|].
  split; [exact Hloop|].
  destruct (set_required_module_params_iterators d2) as [-> ->].
  destruct (set_module_params_iterators _ _ _ Hparams) as [-> ->].
  destruct (set_module_params_iterators _ _ _ Hconfig) as [-> ->].
  now split.
Qed.

(** C3, amended: when several parameter lines carry [foreach_iterator]
    (or several carry [foreach_from_file_path]), the descriptor's iterator
    (its from-file parameter) is the parameter built from the last of them:
    each such line assigns the attribute again. *)
Theorem last_foreach_marker_wins (defaults : Defaults)
  (module_name docstring : string) (module_type : option string)
  (module_params : option (list entry))
  (modules_dir modules_class modules_name_delim modules_binary_name
     : option string)
  (d : t) (first line : string) (before after : list string)
  (m : markers) (p : TerraformModuleParameter.t) :
  __init__ defaults module_name (Some docstring) module_type module_params
    modules_dir modules_class modules_name_delim modules_binary_name = Ok d ->
  docstring_lines docstring = (first :: before ++ line :: after)%list ->
  declares line = Some (m, p) ->
  (found_foreach_iterator m = true ->
   (forall l m' p',
       In l after -> declares l = Some (m', p') ->
       found_foreach_iterator m' = false) ->
   foreach_iterator d = Some p)
  /\ (found_foreach_from_file_path m = true ->
      (forall l m' p',
          In l after -> declares l = Some (m', p') ->
          found_foreach_from_file_path m' = false) ->
      foreach_from_file_path d = Some p).
Proof.
  intros Hinit Hlines Hdecl.
  destruct (init_iterators _ _ _ _ _ _ _ _ _ _ _ _ Hinit Hlines)
    as [d0 [st [_ [_ [Hloop [Hit Hff]]]]]].
  { destruct before; discriminate. }
  split; intros Hflag Hafter.
  - rewrite Hit.
    apply (last_marked_line_wins found_foreach_iterator foreach_iterator)
      with (before := before) (after := after) (line := line) (m := m)
           (st := (d0, [])); try assumption.
    intros st0 st1 l Hstep. now apply process_param_iterators.
  - rewrite Hff.
    apply (last_marked_line_wins found_foreach_from_file_path
             foreach_from_file_path)
      with (before := before) (after := after) (line := line) (m := m)
           (st := (d0, [])); try assumption.
    intros st0 st1 l Hstep. now apply process_param_iterators.
Qed.

End ForeachMarkers.

Section ForeachMarkersOnExamples.
Import TerraformModuleResources.

(** C3, as stated, fails: of two lines carrying [foreach_iterator], naming
    [a] and then [b], the descriptor keeps [b]; likewise for
    [foreach_from_file_path]. *)
Lemma first_foreach_marker_overwritten :
  (exists d : t,
      Sample.resources "m" Sample.doc_two_iterators = Ok d
      /\ foreach_iterator d = Some (Sample.plain "b")
      /\ foreach_iterator d <> Some (Sample.plain "a"))
  /\ (exists d : t,
         Sample.resources "m" Sample.doc_two_files = Ok d
         /\ foreach_from_file_path d = Some (Sample.plain "b")
         /\ foreach_from_file_path d
            <> Some (Sample.plain "a")).
Proof.
  split; eexists; (split; [vm_compute; reflexivity|]);
    (split; [reflexivity | discriminate]).
Qed.

Lemma last_foreach_marker_wins_witness :
  exists d : t,
    Sample.resources "m" Sample.doc_two_iterators = Ok d
    /\ foreach_iterator d = Some (Sample.plain "b").
Proof.
  eexists. split; [vm_compute; reflexivity|].
  refine (proj1 (last_foreach_marker_wins (ext := Sample.externals)
                   Sample.defaults "m" Sample.doc_two_iterators
                   None None None None None None _
                   "Desc" "name:b,foreach_iterator:true"
                   ["name:a,foreach_iterator:true"] []
                   (mk_markers true false false false false false)
                   (Sample.plain "b") _ _ _) _ _).
  - vm_compute. reflexivity.
  - reflexivity.
  - reflexivity.
  - reflexivity.
  - intros l m' p' [].
Defined.

End ForeachMarkersOnExamples.

(** ** Foreach documents *)

Section ForeachDocuments.
Import TerraformModuleResources.

Lemma sget_sset_other {V : Type} (k k' : string) (v : V) (d : sdict V) :
  String.eqb k k' = false -> sget k (sset k' v d) = sget k d.
Proof.
  intros Hk. induction d as [|[k0 v0] d IH]; cbn.
  - now rewrite Hk.
  - destruct (String.eqb_spec k' k0) as [->|Hk0]; cbn.
    + now rewrite Hk.
    + now rewrite IH.
Qed.

(** A key the right operand lacks keeps the value of the left one. *)
Lemma sget_union_absent {V : Type} (k : string) (a b : sdict V) :
  sget k b = None -> sget k (Dict.union String.eqb a b) = sget k a.
Proof.
  unfold Dict.union. revert a.
  induction b as [|[k0 v0] b IH]; intros a Hb; cbn in *; [reflexivity|].
  destruct (String.eqb k k0) eqn:Hk; [discriminate|].
  rewrite (IH _ Hb). now apply sget_sset_other.
Qed.

(** C8, amended: a descriptor whose foreach iterator is named [region],
    with no from-file parameter and one foreach target, yields one pair,
    and the [for_each] of its [module.default] is
    [${try(nonsensitive(var.region), var.region)}], provided that no
    trigger of the foreach body is itself named [for_each] (the triggers
    are merged over the module block) and that the output key is absent,
    or is a string and the name of the output hashable. *)
Theorem get_foreach_single_target {ext : Externals} (d : t)
  (it : TerraformModuleParameter.t) (module_path module_call : string)
  (key foreach_key : pyval) (output_description : string) :
  foreach_iterator d = Some it ->
  TerraformModuleParameter.name it = "region" ->
  foreach_from_file_path d = None ->
  foreach_modules d = [(module_path, module_call)] ->
  sget "for_each" (foreach_triggers d) = None ->
  (resolve_key d key = PNone
   \/ exists k : string,
        resolve_key d key = PStr k
        /\ hashable (resolve_foreach_key d (resolve_key d key) foreach_key)
           = true) ->
  exists doc : foreach_document,
    get_foreach d key foreach_key output_description
    = ([(module_path, doc)], None)
    /\ exists module : sdict string,
         sget "default" (doc_module doc) = Some module
         /\ sget "for_each" module
            = Some "${try(nonsensitive(var.region), var.region)}".
Proof.
  intros Hit Hname Hff Htargets Hfree Hkey.
  assert (Houtput : exists output,
             foreach_output (resolve_key d key)
               (resolve_foreach_key d (resolve_key d key) foreach_key)
               output_description = Ok output).
  { destruct Hkey as [-> | [k [Hk Hhash]]].
    - eexists. reflexivity.
    - unfold foreach_output. rewrite Hk in *. rewrite Hhash. eexists.
      reflexivity. }
  destruct Houtput as [output Houtput].
  unfold get_foreach, foreach_iterators. rewrite Hit, Hff, Hname, Htargets.
  cbn [map run_generator fst snd]. rewrite Houtput. cbn [bind run_generator].
  eexists. split; [reflexivity|].
  cbn [doc_module]. eexists. split; [reflexivity|].
  now rewrite (sget_union_absent _ _ _ Hfree).
Qed.

End ForeachDocuments.

Section ForeachDocumentsOnExamples.
Import TerraformModuleResources.

(** C8, as stated, fails: with a second parameter named [for_each], the
    descriptor of the claim yields one pair whose [for_each] is the trigger
    of that parameter; and with the generator key [5], a number, building
    the output stops the generator before any pair. *)
Lemma get_foreach_for_each_shadowed :
  (exists (d : t) (path : string)
          (doc : foreach_document) (module : sdict string),
      Sample.resources "m" Sample.doc_region_for_each = Ok d
      /\ foreach_iterator d = Some (Sample.plain "region")
      /\ foreach_from_file_path d = None
      /\ List.length (foreach_modules d) = 1
      /\ get_foreach (ext := Sample.externals) d PNone PNone
           "Data query results"
         = ([(path, doc)], None)
      /\ sget "default" (doc_module doc) = Some module
      /\ sget "for_each" module
         = Some "${try(nonsensitive(var.for_each), var.for_each)}"
      /\ sget "for_each" module
         <> Some "${try(nonsensitive(var.region), var.region)}")
  /\ (exists d : t,
         Sample.resources "m" Sample.doc_region_numeric_key = Ok d
         /\ foreach_iterator d = Some (Sample.plain "region")
         /\ foreach_from_file_path d = None
         /\ List.length (foreach_modules d) = 1
         /\ get_foreach (ext := Sample.externals) d PNone
              PNone "Data query results"
            = ([], Some TypeError)).
Proof.
  split.
  - eexists. eexists. eexists. eexists.
    split; [vm_compute; reflexivity|].
    split; [reflexivity|]. split; [reflexivity|]. split; [reflexivity|].
    split; [vm_compute; reflexivity|].
    split; [reflexivity|]. split; [reflexivity | discriminate].
  - eexists.
    split; [vm_compute; reflexivity|].
    split; [reflexivity|]. split; [reflexivity|]. split; [reflexivity|].
    vm_compute. reflexivity.
Qed.

Lemma get_foreach_single_target_witness :
  Sample.resources "m" Sample.doc_region = Ok (Sample.built Sample.doc_region)
  /\ exists (doc : foreach_document) (module : sdict string),
       get_foreach (ext := Sample.externals)
         (Sample.built Sample.doc_region) PNone PNone "Data query results"
       = ([("terraform-modules/library/library-regions/main.tf.json", doc)],
          None)
       /\ sget "default" (doc_module doc) = Some module
       /\ sget "for_each" module
          = Some "${try(nonsensitive(var.region), var.region)}".
Proof.
  split; [vm_compute; reflexivity|].
  destruct (get_foreach_single_target (ext := Sample.externals)
              (Sample.built Sample.doc_region) (Sample.plain "region")
              "terraform-modules/library/library-regions/main.tf.json"
              "library-m" PNone PNone "Data query results")
    as [doc [Hrun Hmodule]].
  - vm_compute. reflexivity.
  - reflexivity.
  - vm_compute. reflexivity.
  - vm_compute. reflexivity.
  - vm_compute. reflexivity.
  - left. vm_compute. reflexivity.
  - destruct Hmodule as [module Hmodule]. exists doc, module.
    split; [exact Hrun | exact Hmodule].
Defined.

End ForeachDocumentsOnExamples.

(** * Further properties *)

(** ** Variable blocks *)

Section VariableBlocks.
Import TerraformModuleParameter.

(** X1: the variable block always has the type; it has the default exactly
    when the parameter is not required, the description when there is one,
    and [sensitive] only when it is set. *)
Theorem get_variable_fields (p : t) :
  sget "type" (get_variable p) = Some (opt_str (type p))
  /\ sget "default" (get_variable p)
     = (if required p then None else Some (default p))
  /\ sget "description" (get_variable p) = option_map PStr (description p)
  /\ sget "sensitive" (get_variable p)
     = (if sensitive p then Some (PBool true) else None).
Proof.
  unfold get_variable.
  destruct (required p), (description p), (sensitive p); cbn; auto.
Qed.

End VariableBlocks.

(** ** The constructor *)

Section Constructor.
Import TerraformModuleResources.
Context {ext : Externals}.

Lemma name_in_In (x : string) (names : list string) :
  name_in x names = true <-> In x names.
Proof.
  unfold name_in. rewrite existsb_exists. split.
  - intros [y [Hin Heq]]. apply String.eqb_eq in Heq. now subst.
  - intros Hin. exists x. split; [exact Hin | apply String.eqb_refl].
Qed.

Lemma set_add_In (x n : string) (names : list string) :
  In n (set_add x names) <-> n = x \/ In n names.
Proof.
  unfold set_add. destruct (existsb (String.eqb x) names) eqn:Hx.
  - split; [now right|]. intros [->|Hin]; [|exact Hin].
    now apply name_in_In.
  - rewrite in_app_iff. cbn. intuition.
Qed.

Lemma set_add_NoDup (x : string) (names : list string) :
  NoDup names -> NoDup (set_add x names).
Proof.
  intros Hnodup. unfold set_add.
  destruct (existsb (String.eqb x) names) eqn:Hx; [exact Hnodup|].
  apply NoDup_app; [exact Hnodup | repeat constructor; now intros [] |].
  intros a Hin [<-|[]].
  apply name_in_In in Hin. unfold name_in in Hin. congruence.
Qed.

(** The stages of [get_module_config]. *)
Lemma get_module_config_stages (d0 d1 : t) :
  get_module_config d0 = Ok d1 ->
  (d1 = d0 /\ (docstring d0 = None
               \/ exists doc, docstring d0 = Some doc
                              /\ docstring_lines doc = []))
  \/ (exists doc first,
         docstring d0 = Some doc /\ docstring_lines doc = [first]
         /\ d1 = set_descriptor (Some first) d0)
  \/ (exists doc first rest st,
         docstring d0 = Some doc /\ docstring_lines doc = first :: rest
         /\ rest <> []
         /\ process_params rest (set_descriptor (Some first) d0, []) = Ok st
         /\ set_module_params (Some (snd st)) (fst st) = Ok d1).
Proof.
  unfold get_module_config. intros Hconfig.
  destruct (docstring d0) as [doc|] eqn:Hdoc.
  2:{ injection Hconfig as <-. left. split; [reflexivity | now left]. }
  destruct (docstring_lines doc) as [|first rest] eqn:Hlines.
  { injection Hconfig as <-. left. split; [reflexivity|]. right. eauto. }
  destruct rest as [|line rest].
  { injection Hconfig as <-. right. left. eauto. }
  apply bind_ok in Hconfig as [st [Hloop Hconfig]].
  right. right. exists doc, first, (line :: rest), st.
  repeat split; try assumption. discriminate.
Qed.

(** What a line leaves alone: the parameters of the object (the loop fills
    a local list) and the arguments of the constructor; and what it does to
    [generation_forbidden]. *)
Lemma process_param_frame (st st' : parse_state) (line : string) :
  process_param st line = Ok st' ->
  module_parameters (fst st') = module_parameters (fst st)
  /\ module_parameter_names (fst st') = module_parameter_names (fst st)
  /\ descriptor (fst st') = descriptor (fst st)
  /\ generation_forbidden (fst st')
     = generation_forbidden (fst st) || forbids_generation line.
Proof.
  destruct st as [d module_params].
  unfold process_param, forbids_generation.
  intros Hrun. apply reraise_ok in Hrun.
  destruct (classify (Str.strip line)) eqn:Hkind.
  - injection Hrun as <-. cbn. now rewrite orb_false_r.
  - destruct (String.eqb _ _); injection Hrun as <-; cbn;
      now rewrite ?orb_true_r, ?orb_false_r.
  - apply bind_ok in Hrun as [gp [_ Hrun]]. injection Hrun as <-.
    cbn. now rewrite orb_false_r.
  - apply bind_ok in Hrun as [kv [_ Hrun]]. injection Hrun as <-.
    cbn. now rewrite orb_false_r.
  - apply bind_ok in Hrun as [kv [_ Hrun]]. injection Hrun as <-.
    cbn. now rewrite orb_false_r.
  - apply bind_ok in Hrun as [kv [_ Hrun]]. injection Hrun as <-.
    cbn. now rewrite orb_false_r.
  - apply bind_ok in Hrun as [kv [_ Hrun]]. injection Hrun as <-.
    cbn. now rewrite orb_false_r.
  - apply bind_ok in Hrun as [[[fname fcall] fbind] [_ Hrun]].
    apply bind_ok in Hrun as [path [_ Hrun]].
    apply bind_ok in Hrun as [called [_ Hrun]].
    injection Hrun as <-. cbn. now rewrite orb_false_r.
  - apply bind_ok in Hrun as [[[m module_param] expanded] [_ Hrun]].
    injection Hrun as <-. unfold declare.
    destruct m as [it ff ky vl on fb].
    destruct it, ff, ky, vl, on, fb; cbn; now rewrite orb_false_r.
Qed.

Lemma process_params_frame (lines : list string) (st st' : parse_state) :
  process_params lines st = Ok st' ->
  module_parameters (fst st') = module_parameters (fst st)
  /\ module_parameter_names (fst st') = module_parameter_names (fst st)
  /\ descriptor (fst st') = descriptor (fst st)
  /\ generation_forbidden (fst st')
     = generation_forbidden (fst st) || existsb forbids_generation lines.
Proof.
  revert st. induction lines as [|line lines IH]; intros st Hrun;
    cbn in Hrun.
  - injection Hrun as <-. cbn. now rewrite orb_false_r.
  - apply bind_ok in Hrun as [st1 [Hstep Hrun]].
    destruct (IH _ Hrun) as [-> [-> [-> ->]]].
    destruct (process_param_frame _ _ _ Hstep) as [-> [-> [-> ->]]].
    cbn. now rewrite orb_assoc.
Qed.

(** The names recorded are those of the parameters, each once. *)
Lemma append_parameter_names (p : Param.t) (d : t) :
  NoDup (module_parameter_names d) ->
  (forall n, In n (module_parameter_names d)
             <-> In n (map Param.name (module_parameters d))) ->
  NoDup (module_parameter_names (append_parameter p d))
  /\ (forall n, In n (module_parameter_names (append_parameter p d))
                <-> In n (map Param.name
                            (module_parameters (append_parameter p d)))).
Proof.
  intros Hnodup Hsame. unfold append_parameter. cbn. split.
  - now apply set_add_NoDup.
  - intros n. rewrite set_add_In, map_app, in_app_iff, Hsame. cbn.
    intuition.
Qed.

Lemma add_module_params_names (items : list entry) (d d' : t) :
  add_module_params items d = Ok d' ->
  NoDup (module_parameter_names d) ->
  (forall n, In n (module_parameter_names d)
             <-> In n (map Param.name (module_parameters d))) ->
  NoDup (module_parameter_names d')
  /\ (forall n, In n (module_parameter_names d')
                <-> In n (map Param.name (module_parameters d'))).
Proof.
  revert d. induction items as [|[p|kw] items IH]; intros d Hrun Hnodup Hsame;
    cbn in Hrun.
  - injection Hrun as <-. now split.
  - destruct (append_parameter_names p d Hnodup Hsame).
    now apply (IH _ Hrun).
  - apply bind_ok in Hrun as [p [_ Hrun]].
    destruct (append_parameter_names p d Hnodup Hsame).
    now apply (IH _ Hrun).
Qed.

Lemma set_module_params_names (items : option (list entry)) (d d' : t) :
  set_module_params items d = Ok d' ->
  NoDup (module_parameter_names d) ->
  (forall n, In n (module_parameter_names d)
             <-> In n (map Param.name (module_parameters d))) ->
  NoDup (module_parameter_names d')
  /\ (forall n, In n (module_parameter_names d')
                <-> In n (map Param.name (module_parameters d'))).
Proof.
  destruct items as [items|]; cbn.
  - apply add_module_params_names.
  - intros Hrun. injection Hrun as <-. now split.
Qed.

Lemma get_module_config_names (d0 d1 : t) :
  get_module_config d0 = Ok d1 ->
  NoDup (module_parameter_names d0) ->
  (forall n, In n (module_parameter_names d0)
             <-> In n (map Param.name (module_parameters d0))) ->
  NoDup (module_parameter_names d1)
  /\ (forall n, In n (module_parameter_names d1)
                <-> In n (map Param.name (module_parameters d1))).
Proof.
  intros Hconfig Hnodup Hsame.
  destruct (get_module_config_stages _ _ Hconfig)
    as [[-> _] | [[doc [first [_ [_ ->]]]]
                 | [doc [first [rest [st [_ [_ [_ [Hloop Hparams]]]]]]]]]].
  - now split.
  - now split.
  - destruct (process_params_frame _ _ _ Hloop) as [Hps [Hnames _]].
    cbn in Hps, Hnames.
    apply (set_module_params_names _ _ _ Hparams).
    + now rewrite Hnames.
    + intros n. now rewrite Hnames, Hps.
Qed.

(** The required parameters: those whose name is not recorded yet are
    appended, in their order. *)
Lemma name_in_set_add_other (x y : string) (names : list string) :
  String.eqb x y = false ->
  existsb (String.eqb x) (set_add y names) = existsb (String.eqb x) names.
Proof.
  intros Hxy. unfold set_add.
  destruct (existsb (String.eqb y) names); [reflexivity|].
  rewrite existsb_app. cbn. now rewrite Hxy, !orb_false_r.
Qed.

(** X2: [set_required_module_params] appends, in the order [checksum],
    [log_results_dir], [execution_role_arn], exactly the required parameters
    whose name is not recorded yet, and leaves the others alone. *)
Theorem set_required_appends_missing (d : t) :
  module_parameters (set_required_module_params d)
  = (module_parameters d
     ++ map snd
          (filter (fun item =>
                     negb (name_in (fst item) (module_parameter_names d)))
                  required_params))%list.
Proof.
  unfold set_required_module_params, required_params, name_in.
  cbn [fold_left filter map fst snd].
  unfold add_required at 3.
  destruct (existsb (String.eqb "checksum") (module_parameter_names d))
    eqn:Hc; cbn [negb];
  unfold add_required at 2; cbn [module_parameter_names module_parameters
    set_module_parameters set_module_parameter_names];
  rewrite ?name_in_set_add_other by reflexivity;
  destruct (existsb (String.eqb "log_results_dir") (module_parameter_names d))
    eqn:Hl; cbn [negb];
  unfold add_required; cbn [module_parameter_names module_parameters
    set_module_parameters set_module_parameter_names];
  rewrite ?name_in_set_add_other by reflexivity;
  destruct (existsb (String.eqb "execution_role_arn")
              (module_parameter_names d)) eqn:He; cbn [negb];
  cbn [module_parameter_names module_parameters
    set_module_parameters set_module_parameter_names map snd filter];
  rewrite <- ?app_assoc; cbn [app]; rewrite ?app_nil_r; reflexivity.
Qed.

Lemma add_required_names (d : t) (item : string * Param.t) :
  Param.name (snd item) = fst item ->
  NoDup (module_parameter_names d) ->
  (forall n, In n (module_parameter_names d)
             <-> In n (map Param.name (module_parameters d))) ->
  NoDup (module_parameter_names (add_required d item))
  /\ (forall n, In n (module_parameter_names (add_required d item))
                <-> In n (map Param.name
                            (module_parameters (add_required d item))))
  /\ In (fst item) (module_parameter_names (add_required d item))
  /\ (forall n, In n (module_parameter_names d) ->
                In n (module_parameter_names (add_required d item))).
Proof.
  destruct item as [param_name module_param]. cbn [fst snd].
  intros Hname Hnodup Hsame. unfold add_required.
  destruct (existsb (String.eqb param_name) (module_parameter_names d))
    eqn:Hin.
  - split; [exact Hnodup|]. split; [exact Hsame|].
    split; [now apply name_in_In | auto].
  - cbn. split; [now apply set_add_NoDup|]. split; [|split].
    + intros n. rewrite set_add_In, map_app, in_app_iff, Hsame. cbn.
      rewrite Hname. intuition.
    + apply set_add_In. now left.
    + intros n Hn. apply set_add_In. now right.
Qed.

Lemma set_required_module_params_names (d : t) :
  NoDup (module_parameter_names d) ->
  (forall n, In n (module_parameter_names d)
             <-> In n (map Param.name (module_parameters d))) ->
  NoDup (module_parameter_names (set_required_module_params d))
  /\ (forall n, In n (module_parameter_names (set_required_module_params d))
                <-> In n (map Param.name
                            (module_parameters
                               (set_required_module_params d))))
  /\ (forall n, In n (map fst required_params) ->
                In n (module_parameter_names (set_required_module_params d))).
Proof.
  unfold set_required_module_params.
  assert (Hkeys : forall item, In item required_params ->
                               Param.name (snd item) = fst item).
  { intros item [<-|[<-|[<-|[]]]]; reflexivity. }
  revert Hkeys d. generalize required_params. intros items.
  induction items as [|item items IH]; intros Hkeys d Hnodup Hsame.
  - cbn. split; [exact Hnodup|]. split; [exact Hsame|]. intros n [].
  - cbn [fold_left map].
    destruct (add_required_names d item (Hkeys item (in_eq _ _)) Hnodup Hsame)
      as [Hnodup' [Hsame' [Hitem Hkeep]]].
    destruct (IH (fun i Hi => Hkeys i (in_cons _ _ _ Hi))
                 (add_required d item) Hnodup' Hsame')
      as [Hnodup'' [Hsame'' Hall]].
    split; [exact Hnodup''|]. split; [exact Hsame''|].
    intros n [<-|Hn]; [|now apply Hall].
    clear - Hitem. revert Hitem.
    generalize (add_required d item). clear.
    induction items as [|i items IH]; intros d0 Hin; cbn; [exact Hin|].
    apply IH. destruct i as [pn mp]. unfold add_required.
    destruct (existsb _ _); [exact Hin|]. cbn. apply set_add_In. now right.
Qed.

(** The stages of the constructor. *)
Lemma init_stages (defaults : Defaults) (module_name : string)
  (docstring module_type : option string)
  (module_params : option (list entry))
  (modules_dir modules_class modules_name_delim modules_binary_name
     : option string) (r : result t) :
  __init__ defaults module_name docstring module_type module_params
    modules_dir modules_class modules_name_delim modules_binary_name = r ->
  exists d0 : t,
    TerraformModuleResources.docstring d0 = docstring
    /\ module_parameters d0 = [] /\ module_parameter_names d0 = []
    /\ descriptor d0 = None /\ generation_forbidden d0 = false
    /\ foreach_modules d0 = []
    /\ r = bind (get_module_config d0)
             (fun d1 => bind (set_module_params module_params d1)
                          (fun d2 => Ok (set_required_module_params d2))).
Proof.
  intros <-. unfold __init__.
  match goal with |- context [get_module_config ?d] => exists d end.
  repeat split.
Qed.

(** X3: in every descriptor the constructor builds, the set of parameter
    names holds exactly the names of the parameters, and the three required
    names are among them. *)
Theorem built_descriptor_names (defaults : Defaults) (module_name : string)
  (docstring module_type : option string)
  (module_params : option (list entry))
  (modules_dir modules_class modules_name_delim modules_binary_name
     : option string) (d : t) :
  __init__ defaults module_name docstring module_type module_params
    modules_dir modules_class modules_name_delim modules_binary_name = Ok d ->
  NoDup (module_parameter_names d)
  /\ (forall n, In n (module_parameter_names d)
                <-> In n (map Param.name (module_parameters d)))
  /\ In "checksum" (map Param.name (module_parameters d))
  /\ In "log_results_dir" (map Param.name (module_parameters d))
  /\ In "execution_role_arn" (map Param.name (module_parameters d)).
Proof.
  intros Hinit.
  destruct (init_stages _ _ _ _ _ _ _ _ _ _ Hinit)
    as [d0 [_ [Hps [Hnames [_ [_ [_ Hrun]]]]]]].
  symmetry in Hrun.
  apply bind_ok in Hrun as [d1 [Hconfig Hrun]].
  apply bind_ok in Hrun as [d2 [Hparams Hrun]].
  injection Hrun as <-.
  assert (H0 : NoDup (module_parameter_names d0)
               /\ forall n, In n (module_parameter_names d0)
                            <-> In n (map Param.name (module_parameters d0))).
  { rewrite Hps, Hnames. split; [constructor | reflexivity]. }
  destruct H0 as [Hnodup0 Hsame0].
  destruct (get_module_config_names _ _ Hconfig Hnodup0 Hsame0)
    as [Hnodup1 Hsame1].
  destruct (set_module_params_names _ _ _ Hparams Hnodup1 Hsame1)
    as [Hnodup2 Hsame2].
  destruct (set_required_module_params_names d2 Hnodup2 Hsame2)
    as [Hnodup [Hsame Hall]].
  split; [exact Hnodup|]. split; [exact Hsame|].
  split; [|split]; apply Hsame, Hall; cbn; auto.
Qed.

(** The rest of the constructor assigns the parameters and their names
    only. *)
Lemma add_module_params_shape (items : list entry) (d d' : t) :
  add_module_params items d = Ok d' ->
  exists ps ns,
    d' = set_module_parameter_names ns (set_module_parameters ps d).
Proof.
  revert d. induction items as [|[p|kw] items IH]; intros d Hrun;
    cbn in Hrun.
  - injection Hrun as <-.
    exists (module_parameters d), (module_parameter_names d).
    now destruct d.
  - destruct (IH _ Hrun) as [ps [ns ->]]. now exists ps, ns.
  - apply bind_ok in Hrun as [p [_ Hrun]].
    destruct (IH _ Hrun) as [ps [ns ->]]. now exists ps, ns.
Qed.

Lemma set_module_params_shape (items : option (list entry)) (d d' : t) :
  set_module_params items d = Ok d' ->
  exists ps ns,
    d' = set_module_parameter_names ns (set_module_parameters ps d).
Proof.
  destruct items as [items|]; cbn; [apply add_module_params_shape|].
  intros Hrun. injection Hrun as <-.
  exists (module_parameters d), (module_parameter_names d). now destruct d.
Qed.

Lemma set_required_module_params_shape (d : t) :
  exists ps ns,
    set_required_module_params d
    = set_module_parameter_names ns (set_module_parameters ps d).
Proof.
  unfold set_required_module_params. generalize required_params.
  intros items. revert d. induction items as [|[pn mp] items IH]; intros d.
  - exists (module_parameters d), (module_parameter_names d). now destruct d.
  - cbn [fold_left]. destruct (IH (add_required d (pn, mp))) as [ps [ns ->]].
    unfold add_required. destruct (existsb _ _); now exists ps, ns.
Qed.

(** X4: without a docstring, with an empty one, or with one line only, the
    constructor succeeds whatever the line says: the line is the
    descriptor, nothing is parsed, and the parameters are the three
    required ones. *)
Theorem short_docstring_builds (defaults : Defaults) (module_name : string)
  (docstring module_type : option string)
  (modules_dir modules_class modules_name_delim modules_binary_name
     : option string) :
  match docstring with
  | None => True
  | Some doc => List.length (docstring_lines doc) <= 1
  end ->
  exists d : t,
    __init__ defaults module_name docstring module_type None
      modules_dir modules_class modules_name_delim modules_binary_name = Ok d
    /\ descriptor d
       = match docstring with
         | None => None
         | Some doc => hd_error (docstring_lines doc)
         end
    /\ module_parameters d = map snd required_params
    /\ module_parameter_names d = map fst required_params
    /\ generation_forbidden d = false
    /\ foreach_iterator d = None /\ foreach_from_file_path d = None
    /\ foreach_modules d = [] /\ generator_parameters d = [].
Proof.
  intros Hshort. unfold __init__, get_module_config.
  cbn [TerraformModuleResources.docstring].
  destruct docstring as [doc|].
  - destruct (docstring_lines doc) as [|first [|second rest]];
      [| |cbn in Hshort; lia];
      cbn; eexists; split; try reflexivity; repeat split.
  - cbn. eexists. split; [reflexivity|]. repeat split.
Qed.

Lemma bind_raise {A B : Type} (r : result A) (k : A -> result B) (e : exn) :
  bind r k = Raise e ->
  r = Raise e \/ exists a, r = Ok a /\ k a = Raise e.
Proof.
  destruct r as [a|e']; cbn; [eauto|]. intros [= ->]. now left.
Qed.

Lemma of_kwargs_raises (kw : sdict pyval) (e : exn) :
  Param.of_kwargs kw = Raise e ->
  e = TypeError \/ exists f, e = IllTyped f.
Proof.
  unfold Param.of_kwargs.
  destruct (negb _); [intros [= <-]; now left|].
  destruct (sget "name" kw); [|intros [= <-]; now left].
  intros Hrun.
  repeat (apply bind_raise in Hrun as [Hrun | [? [_ Hrun]]];
          [ right;
            unfold Param.as_str, Param.as_bool, Param.as_opt_str in Hrun;
            match type of Hrun with
            | match ?v with _ => _ end = _ =>
                destruct v; inversion Hrun; eauto
            end |]).
  discriminate Hrun.
Qed.

Lemma add_module_params_raises (items : list entry) (d : t) (e : exn) :
  add_module_params items d = Raise e ->
  e = TypeError \/ exists f, e = IllTyped f.
Proof.
  revert d. induction items as [|[p|kw] items IH]; intros d Hrun;
    cbn in Hrun.
  - discriminate.
  - now apply IH in Hrun.
  - apply bind_raise in Hrun as [Hrun | [p [_ Hrun]]].
    + now apply of_kwargs_raises in Hrun.
    + now apply IH in Hrun.
Qed.

(** A [RuntimeError] of a line is that of the handler: it names the line,
    stripped, and has the error of the line as its cause. *)
Lemma process_param_raises (st : parse_state) (line msg : string)
  (obj : option pyval) (cause : option exn) :
  process_param st line = Raise (RuntimeError msg obj cause) ->
  msg = "Failed to parse docstring param: " ++ Str.strip line
  /\ obj = None
  /\ exists m o c, cause = Some (RuntimeError m o c).
Proof.
  destruct st as [d module_params]. unfold process_param.
  match goal with
  | |- reraise _ ?r = _ -> _ => destruct r as [st'|[]]
  end; cbn; try discriminate.
  intros [= <- <- <-].
  split; [reflexivity|]. split; [reflexivity|]. eauto.
Qed.

Lemma process_params_raises (lines : list string) (st : parse_state)
  (e : exn) :
  process_params lines st = Raise e ->
  exists line st0, In line lines /\ process_param st0 line = Raise e.
Proof.
  revert st. induction lines as [|line lines IH]; intros st Hrun;
    cbn in Hrun; [discriminate|].
  apply bind_raise in Hrun as [Hrun | [st1 [_ Hrun]]].
  - exists line, st. split; [now left | exact Hrun].
  - destruct (IH _ Hrun) as [l [st0 [Hin Hl]]].
    exists l, st0. split; [now right | exact Hl].
Qed.

(** X5: a [RuntimeError] of the constructor always comes from a line of
    the docstring after the first: its message is [Failed to parse
    docstring param: ] followed by that line, stripped, and its cause is
    the [RuntimeError] the line met. *)
Theorem constructor_errors_name_the_line (defaults : Defaults)
  (module_name : string) (docstring module_type : option string)
  (module_params : option (list entry))
  (modules_dir modules_class modules_name_delim modules_binary_name
     : option string)
  (msg : string) (obj : option pyval) (cause : option exn) :
  __init__ defaults module_name docstring module_type module_params
    modules_dir modules_class modules_name_delim modules_binary_name
  = Raise (RuntimeError msg obj cause) ->
  exists doc line,
    docstring = Some doc
    /\ In line (tl (docstring_lines doc))
    /\ msg = "Failed to parse docstring param: " ++ Str.strip line
    /\ obj = None
    /\ exists m o c, cause = Some (RuntimeError m o c).
Proof.
  intros Hinit.
  destruct (init_stages _ _ _ _ _ _ _ _ _ _ Hinit)
    as [d0 [Hdoc [_ [_ [_ [_ [_ Hrun]]]]]]].
  symmetry in Hrun.
  apply bind_raise in Hrun as [Hconfig | [d1 [_ Hrun]]].
  - unfold get_module_config in Hconfig. rewrite Hdoc in Hconfig.
    destruct docstring as [doc|]; [|discriminate].
    destruct (docstring_lines doc) as [|first [|line rest]] eqn:Hlines;
      try discriminate.
    apply bind_raise in Hconfig as [Hloop | [st [_ Hparams]]].
    + apply process_params_raises in Hloop as [l [st0 [Hin Hl]]].
      apply process_param_raises in Hl. exists doc, l.
      split; [reflexivity|]. rewrite Hlines.
      split; [exact Hin | exact Hl].
    + cbn in Hparams. apply add_module_params_raises in Hparams.
      destruct Hparams as [? | [? ?]]; discriminate.
  - apply bind_raise in Hrun as [Hparams | [d2 [_ Hrun]]]; [|discriminate].
    destruct module_params as [items|]; [|discriminate].
    cbn in Hparams. apply add_module_params_raises in Hparams.
    destruct Hparams as [? | [? ?]]; discriminate.
Qed.

(** X6: a parameter line with a key that is neither a marker nor a field
    of the parameter, or without [name], fails with the error of the
    handler, whose cause is the error of the parameter, whose cause is the
    [TypeError] of the constructor call. *)
Theorem unknown_keyword_fails (st : parse_state) (line : string)
  (m : markers) (expanded_param : sdict pyval) :
  classify (Str.strip line) = ParameterLine ->
  expand_chunks (tssplit (Str.strip line)) no_markers []
  = Ok (m, expanded_param) ->
  forallb Param.is_field (Dict.keys expanded_param) = false
  \/ sget "name" expanded_param = None ->
  process_param st line
  = Raise
      (RuntimeError ("Failed to parse docstring param: " ++ Str.strip line)
         None
         (Some
            (RuntimeError
               "Failed to generate module parameter for expanded parameter: "
               (Some (PDict expanded_param)) (Some TypeError)))).
Proof.
  intros Hkind Hchunks Hbad. destruct st as [d module_params].
  unfold process_param. rewrite Hkind. unfold expand_param.
  rewrite Hchunks. cbn [bind].
  assert (Hbuilt : Param.of_kwargs expanded_param = Raise TypeError).
  { unfold Param.of_kwargs. destruct Hbad as [-> | Hname]; [reflexivity|].
    rewrite Hname. now destruct (negb _). }
  now rewrite Hbuilt.
Qed.

(** X7: generation is forbidden exactly when a line after the first is a
    comment that reads [noterraform] once its [#] and the space around are
    taken off, in any case of the letters. *)
Theorem generation_forbidden_by_comment (defaults : Defaults)
  (module_name : string) (docstring module_type : option string)
  (module_params : option (list entry))
  (modules_dir modules_class modules_name_delim modules_binary_name
     : option string) (d : t) :
  __init__ defaults module_name docstring module_type module_params
    modules_dir modules_class modules_name_delim modules_binary_name = Ok d ->
  generation_forbidden d
  = match docstring with
    | None => false
    | Some doc => existsb forbids_generation (tl (docstring_lines doc))
    end.
Proof.
  intros Hinit.
  destruct (init_stages _ _ _ _ _ _ _ _ _ _ Hinit)
    as [d0 [Hdoc [_ [_ [_ [Hforbidden [_ Hrun]]]]]]].
  symmetry in Hrun.
  apply bind_ok in Hrun as [d1 [Hconfig Hrun]].
  apply bind_ok in Hrun as [d2 [Hparams Hrun]].
  injection Hrun as <-.
  destruct (set_required_module_params_shape d2) as [ps [ns ->]].
  destruct (set_module_params_shape _ _ _ Hparams) as [ps1 [ns1 ->]].
  cbn [generation_forbidden set_module_parameter_names set_module_parameters].
  destruct (get_module_config_stages _ _ Hconfig)
    as [[-> Hnone] | [[doc [first [Hd [Hlines ->]]]]
                 | [doc [first [rest [st [Hd [Hlines [_ [Hloop Hps]]]]]]]]]].
  - rewrite Hforbidden.
    destruct Hnone as [Hnone | [doc [Hd Hlines]]]; rewrite Hdoc in *.
    + now rewrite Hnone.
    + rewrite Hd, Hlines. reflexivity.
  - rewrite Hdoc in Hd. rewrite Hd, Hlines. exact Hforbidden.
  - rewrite Hdoc in Hd. rewrite Hd, Hlines. cbn [tl].
    destruct (set_module_params_shape _ _ _ Hps) as [ps2 [ns2 ->]].
    cbn [generation_forbidden set_module_parameter_names
           set_module_parameters].
    destruct (process_params_frame _ _ _ Hloop) as [_ [_ [_ ->]]].
    cbn. now rewrite Hforbidden.
Qed.
End Constructor.

(** ** Dictionaries *)

Section Dictionaries.

Lemma find_append {A : Type} (f : A -> bool) (l1 l2 : list A) :
  find f (l1 ++ l2)%list
  = match find f l1 with Some x => Some x | None => find f l2 end.
Proof.
  induction l1 as [|x l1 IH]; cbn; [reflexivity|].
  now destruct (f x).
Qed.

Lemma sget_sset {V : Type} (k k' : string) (v : V) (d : sdict V) :
  sget k (sset k' v d) = if String.eqb k k' then Some v else sget k d.
Proof.
  induction d as [|[k0 v0] d IH]; cbn; [reflexivity|].
  destruct (String.eqb_spec k' k0) as [->|Hk0]; cbn.
  - now destruct (String.eqb k k0).
  - rewrite IH. destruct (String.eqb_spec k k0) as [->|Hk]; [|reflexivity].
    destruct (String.eqb_spec k0 k') as [->|_]; [congruence | reflexivity].
Qed.

Lemma smem_sset {V : Type} (k k' : string) (v : V) (d : sdict V) :
  smem k (sset k' v d) = String.eqb k k' || smem k d.
Proof.
  unfold Dict.mem. rewrite sget_sset. now destruct (String.eqb k k').
Qed.

(** A dictionary filled from a list, some items skipped: a key holds the
    value of the last item that brought it. *)
Lemma sget_fold_sset {A V : Type} (key : A -> string) (val : A -> V)
  (skip : A -> bool) (n : string) (items : list A) (acc : sdict V) :
  sget n (fold_left
            (fun acc x => if skip x then acc else sset (key x) (val x) acc)
            items acc)
  = match find (fun x => String.eqb n (key x) && negb (skip x)) (rev items)
    with
    | Some x => Some (val x)
    | None => sget n acc
    end.
Proof.
  revert acc. induction items as [|x items IH]; intros acc; cbn;
    [reflexivity|].
  rewrite IH, find_append.
  destruct (find _ (rev items)); [reflexivity|]. cbn.
  destruct (skip x); cbn; [now rewrite andb_false_r|].
  rewrite sget_sset, andb_true_r. now destruct (String.eqb n (key x)).
Qed.

Lemma sget_filter_key {V : Type} (k x : string) (d : sdict V) :
  sget k (filter (fun kv => negb (String.eqb (fst kv) x)) d)
  = if String.eqb k x then None else sget k d.
Proof.
  induction d as [|[k0 v0] d IH]; cbn; [now destruct (String.eqb k x)|].
  destruct (String.eqb_spec k0 x) as [->|Hk0]; cbn.
  - rewrite IH. destruct (String.eqb_spec k x) as [->|Hk]; [reflexivity|].
    reflexivity.
  - rewrite IH. destruct (String.eqb_spec k k0) as [->|Hk]; [|reflexivity].
    destruct (String.eqb_spec k0 x); [contradiction | reflexivity].
Qed.

(** Keys stay distinct under assignment and filtering. *)
Lemma sset_keys_In {V : Type} (k k' : string) (v : V) (d : sdict V) :
  In k (Dict.keys (sset k' v d)) <-> k = k' \/ In k (Dict.keys d).
Proof.
  induction d as [|[k0 v0] d IH]; cbn; [intuition|].
  destruct (String.eqb_spec k' k0) as [->|Hk0]; cbn; [intuition|].
  unfold Dict.keys in IH. rewrite IH. intuition.
Qed.

Lemma sset_keys_NoDup {V : Type} (k : string) (v : V) (d : sdict V) :
  NoDup (Dict.keys d) -> NoDup (Dict.keys (sset k v d)).
Proof.
  induction d as [|[k0 v0] d IH]; cbn; intros Hnodup.
  - repeat constructor. now intros [].
  - apply NoDup_cons_iff in Hnodup as [Hnotin Hnodup].
    destruct (String.eqb_spec k k0) as [->|Hk0]; cbn.
    + now constructor.
    + constructor; [|now apply IH].
      intros Hin. apply (sset_keys_In k0 k v d) in Hin as [->|Hin];
        [congruence | contradiction].
Qed.

Lemma fold_sset_keys_NoDup {A V : Type} (f : sdict V -> A -> sdict V)
  (items : list A) (acc : sdict V) :
  (forall acc x, NoDup (Dict.keys acc) -> NoDup (Dict.keys (f acc x))) ->
  NoDup (Dict.keys acc) -> NoDup (Dict.keys (fold_left f items acc)).
Proof.
  intros Hstep. revert acc.
  induction items as [|x items IH]; intros acc Hnodup; cbn;
    [exact Hnodup | apply IH, Hstep, Hnodup].
Qed.

Lemma filter_keys_NoDup {V : Type} (p : string * V -> bool) (d : sdict V) :
  NoDup (Dict.keys d) -> NoDup (Dict.keys (filter p d)).
Proof.
  induction d as [|kv d IH]; cbn; intros Hnodup; [constructor|].
  apply NoDup_cons_iff in Hnodup as [Hnotin Hnodup].
  destruct (p kv); cbn; [|now apply IH].
  constructor; [|now apply IH].
  intros Hin. apply Hnotin. unfold Dict.keys in *.
  apply in_map_iff in Hin as [kv' [Heq Hin]].
  apply filter_In in Hin as [Hin _]. apply in_map_iff. eauto.
Qed.

(** With distinct keys, the last item of a key is the one [get] finds. *)
Lemma find_rev_sget {V : Type} (k : string) (d : sdict V) :
  NoDup (Dict.keys d) ->
  option_map snd (find (fun kv => String.eqb k (fst kv)) (rev d)) = sget k d.
Proof.
  induction d as [|[k0 v0] d IH]; cbn; intros Hnodup; [reflexivity|].
  apply NoDup_cons_iff in Hnodup as [Hnotin Hnodup].
  rewrite find_append. specialize (IH Hnodup).
  destruct (String.eqb_spec k k0) as [->|Hk].
  - destruct (find _ (rev d)) as [[k1 v1]|] eqn:Hfind.
    + apply find_some in Hfind as [Hin Heq]. cbn in Heq.
      apply String.eqb_eq in Heq. subst k1. exfalso. apply Hnotin.
      apply in_rev in Hin. unfold Dict.keys. apply in_map_iff.
      exists (k0, v1). now split.
    + cbn. now rewrite String.eqb_refl.
  - destruct (find _ (rev d)) as [[k1 v1]|] eqn:Hfind; [exact IH|].
    cbn. destruct (String.eqb_spec k k0); [contradiction | exact IH].
Qed.

(** [a | b] with the keys of [b] distinct. *)
Lemma sget_union {V : Type} (k : string) (a b : sdict V) :
  NoDup (Dict.keys b) ->
  sget k (Dict.union String.eqb a b)
  = match sget k b with Some v => Some v | None => sget k a end.
Proof.
  intros Hnodup. rewrite <- (find_rev_sget k b Hnodup). clear Hnodup.
  unfold Dict.union. revert a.
  induction b as [|[k0 v0] b IH]; intros a; cbn; [reflexivity|].
  rewrite IH, find_append.
  destruct (find _ (rev b)); cbn; [reflexivity|].
  rewrite sget_sset. now destruct (String.eqb k k0).
Qed.

End Dictionaries.

(** ** Variables and triggers of a descriptor *)

Section VariablesAndTriggers.
Import TerraformModuleResources.
Context {ext : Externals}.

Lemma get_variables_entry (d : t)
  (filter_foreach_only filter_foreach_forbidden : bool) (n : string) :
  sget n (get_variables d filter_foreach_only filter_foreach_forbidden)
  = option_map Param.get_variable
      (entry_of d filter_foreach_only filter_foreach_forbidden n).
Proof.
  unfold get_variables, entry_of.
  rewrite (sget_fold_sset Param.name Param.get_variable
             (filtered_out d filter_foreach_only filter_foreach_forbidden)
             n (module_parameters d) []).
  now destruct (find _ _).
Qed.

Lemma get_triggers_entry (d : t)
  (disable_encoding filter_foreach_only filter_foreach_forbidden : bool)
  (n : string) :
  n <> "always" ->
  sget n (get_triggers d disable_encoding filter_foreach_only
            filter_foreach_forbidden)
  = option_map (fun p => Param.get_trigger p disable_encoding)
      (entry_of d filter_foreach_only filter_foreach_forbidden n).
Proof.
  assert (Hfold : forall k,
             sget k (fold_left
                       (fun triggers param =>
                          if filtered_out d filter_foreach_only
                               filter_foreach_forbidden param
                          then triggers
                          else sset (Param.name param)
                                 (Param.get_trigger param disable_encoding)
                                 triggers)
                       (module_parameters d) [])
             = option_map (fun p => Param.get_trigger p disable_encoding)
                 (entry_of d filter_foreach_only filter_foreach_forbidden k)).
  { intros k. unfold entry_of.
    rewrite (sget_fold_sset Param.name
               (fun p => Param.get_trigger p disable_encoding)
               (filtered_out d filter_foreach_only filter_foreach_forbidden)
               k (module_parameters d) []).
    now destruct (find _ _). }
  intros Hn. unfold get_triggers. destruct (truth _); [|apply Hfold].
  rewrite sget_sset.
  destruct (String.eqb_spec n "always"); [contradiction | apply Hfold].
Qed.

(** X8: [get_variables] gives a name the variable block of the last
    parameter of that name that the filters let through, and no entry to a
    name without such a parameter; with the default filters, a name in
    [foreach_only] has no entry. *)
Theorem get_variables_lookup (d : t)
  (filter_foreach_only filter_foreach_forbidden : bool) (n : string) :
  sget n (get_variables d filter_foreach_only filter_foreach_forbidden)
  = option_map Param.get_variable
      (entry_of d filter_foreach_only filter_foreach_forbidden n)
  /\ (name_in n (foreach_only d) = true ->
      sget n (get_variables d true filter_foreach_forbidden) = None)
  /\ (name_in n (foreach_forbidden d) = true ->
      sget n (get_variables d filter_foreach_only true) = None).
Proof.
  split; [apply get_variables_entry|].
  split; intros Hin; rewrite get_variables_entry;
    unfold entry_of;
    (destruct (find _ _) as [p|] eqn:Hfind; [|reflexivity]);
    apply find_some in Hfind as [_ Hp];
    apply andb_true_iff in Hp as [Hname Hkept];
    apply String.eqb_eq in Hname; subst n;
    unfold filtered_out in Hkept; rewrite Hin in Hkept;
    cbn in Hkept; rewrite ?orb_true_r in Hkept; discriminate.
Qed.

(** X9: [get_triggers] has the entries of [get_variables], each holding
    the trigger of the same parameter, and besides them [always], bound to
    [${timestamp()}], when the generator parameter [always] is true. *)
Theorem get_triggers_lookup (d : t)
  (disable_encoding filter_foreach_only filter_foreach_forbidden : bool)
  (n : string) :
  (n <> "always" ->
   sget n (get_triggers d disable_encoding filter_foreach_only
             filter_foreach_forbidden)
   = option_map (fun p => Param.get_trigger p disable_encoding)
       (entry_of d filter_foreach_only filter_foreach_forbidden n))
  /\ (n <> "always" ->
      smem n (get_triggers d disable_encoding filter_foreach_only
                filter_foreach_forbidden)
      = smem n (get_variables d filter_foreach_only filter_foreach_forbidden))
  /\ (truth (strtobool (get_or "always" (generator_parameters d)
                          (PBool false))) = true ->
      sget "always" (get_triggers d disable_encoding filter_foreach_only
                       filter_foreach_forbidden)
      = Some "${timestamp()}").
Proof.
  pose proof (get_triggers_entry d disable_encoding filter_foreach_only
                filter_foreach_forbidden n) as Hlookup.
  split; [exact Hlookup|]. split.
  - intros Hn. unfold Dict.mem. rewrite (Hlookup Hn).
    rewrite get_variables_entry.
    now destruct (entry_of _ _ _ _).
  - intros Halways. unfold get_triggers. rewrite Halways.
    now rewrite sget_sset.
Qed.

Lemma sget_bind_all (n value : string) (names : list string)
  (triggers : sdict string) :
  sget n (bind_all names value triggers)
  = if name_in n names then Some value else sget n triggers.
Proof.
  unfold bind_all, name_in. revert triggers.
  induction names as [|x names IH]; intros triggers; cbn; [reflexivity|].
  rewrite IH, sget_sset.
  destruct (existsb (String.eqb n) names); [now rewrite orb_true_r|].
  now rewrite orb_false_r.
Qed.

(** X10: the triggers of a foreach body.  A name in [foreach_values] is
    bound to [${each.value}]; else a name in [foreach_keys] to
    [${each.key}]; else [log_file_name], when it is bound to the key, to the
    key with its spaces replaced; [always] is left out; any other name
    keeps the trigger of its parameter, with the encodings disabled and
    the parameters of [foreach_only] and [foreach_forbidden] left out. *)
Theorem foreach_triggers_lookup (d : t) (n : string) :
  sget n (foreach_triggers d)
  = if name_in n (foreach_values d) then Some "${each.value}"
    else if name_in n (foreach_keys d) then Some "${each.key}"
    else if foreach_bind_log_file_name_to_key d
            && String.eqb n "log_file_name"
    then Some log_file_name_trigger
    else if String.eqb n "always" then None
    else option_map (fun p => Param.get_trigger p true)
           (entry_of d true true n).
Proof.
  unfold foreach_triggers. rewrite !sget_bind_all.
  destruct (name_in n (foreach_values d)); [reflexivity|].
  destruct (name_in n (foreach_keys d)); [reflexivity|].
  assert (Hrest : sget n (filter (fun nt => negb (String.eqb (fst nt) "always"))
                            (get_triggers d true true true))
                  = if String.eqb n "always" then None
                    else option_map (fun p => Param.get_trigger p true)
                           (entry_of d true true n)).
  { rewrite sget_filter_key.
    destruct (String.eqb_spec n "always") as [->|Hn]; [reflexivity|].
    now apply get_triggers_entry. }
  destruct (foreach_bind_log_file_name_to_key d); cbn [andb];
    [|exact Hrest].
  rewrite sget_sset.
  destruct (String.eqb n "log_file_name"); [reflexivity | exact Hrest].
Qed.

End VariablesAndTriggers.

(** ** Foreach documents, module names and copies *)

Section Documents.
Import TerraformModuleResources.
Context {ext : Externals}.

Lemma get_triggers_keys_NoDup (d : t) (de fo ff : bool) :
  NoDup (Dict.keys (get_triggers d de fo ff)).
Proof.
  unfold get_triggers.
  assert (Hfold : forall l acc,
             NoDup (Dict.keys acc) ->
             NoDup (Dict.keys
                      (fold_left
                         (fun triggers param =>
                            if filtered_out d fo ff param then triggers
                            else sset (Param.name param)
                                   (Param.get_trigger param de) triggers)
                         l acc))).
  { intros l acc. apply fold_sset_keys_NoDup. intros acc0 x Hacc.
    destruct (filtered_out d fo ff x); [exact Hacc|].
    now apply sset_keys_NoDup. }
  destruct (truth _); [apply sset_keys_NoDup|]; apply Hfold; constructor.
Qed.

Lemma foreach_triggers_keys_NoDup (d : t) :
  NoDup (Dict.keys (foreach_triggers d)).
Proof.
  unfold foreach_triggers, bind_all.
  repeat (apply fold_sset_keys_NoDup;
          [intros acc x Hacc; now apply sset_keys_NoDup|]).
  destruct (foreach_bind_log_file_name_to_key d);
    [apply sset_keys_NoDup|]; apply filter_keys_NoDup,
                                get_triggers_keys_NoDup.
Qed.

Lemma run_generator_all_ok {A B : Type} (f : A -> B) (items : list A) :
  run_generator (map (fun x => Ok (f x)) items) = (map f items, None).
Proof.
  induction items as [|x items IH]; cbn; [reflexivity|]. now rewrite IH.
Qed.

(** The document of a target, given the output entry. *)
Lemma get_foreach_steps (d : t) (key foreach_key : pyval)
  (output_description : string) :
  foreach_iterator d <> None \/ foreach_from_file_path d <> None ->
  get_foreach d key foreach_key output_description
  = run_generator
      (map (fun target : string * string =>
              do output <-
                foreach_output (resolve_key d key)
                  (resolve_foreach_key d (resolve_key d key) foreach_key)
                  output_description;
              Ok (fst target,
                  mk_document
                    (foreach_variables d (fst (foreach_iterators d)))
                    [("default",
                      Dict.union String.eqb
                        [("for_each",
                          module_iterator_of (snd (foreach_iterators d)));
                         ("source", "../" ++ snd target)]
                        (foreach_triggers d))]
                    output))
           (foreach_modules d)).
Proof.
  intros Hsome. unfold get_foreach.
  destruct (foreach_iterators d) as [variables module_iterators].
  cbn [fst snd].
  destruct (foreach_iterator d), (foreach_from_file_path d);
    try (destruct Hsome; congruence);
    f_equal; apply map_ext; now intros [path call].
Qed.

(** X11: [get_foreach] run to its end.  Without an iterator and without a
    from-file parameter it yields nothing; else, when the output entry can
    be built, it yields one pair for each foreach target, in their order,
    all with the same variables and the same output; and when it cannot,
    the first target stops it with a [TypeError]. *)
Theorem get_foreach_pairs (d : t) (key foreach_key : pyval)
  (output_description : string) :
  (foreach_iterator d = None -> foreach_from_file_path d = None ->
   get_foreach d key foreach_key output_description = ([], None))
  /\ (foreach_iterator d <> None \/ foreach_from_file_path d <> None ->
      forall output,
        foreach_output (resolve_key d key)
          (resolve_foreach_key d (resolve_key d key) foreach_key)
          output_description = Ok output ->
        snd (get_foreach d key foreach_key output_description) = None
        /\ map fst (fst (get_foreach d key foreach_key output_description))
           = map fst (foreach_modules d)
        /\ forall path doc,
             In (path, doc)
               (fst (get_foreach d key foreach_key output_description)) ->
             doc_variable doc
             = foreach_variables d (fst (foreach_iterators d))
             /\ doc_output doc = output)
  /\ (foreach_iterator d <> None \/ foreach_from_file_path d <> None ->
      forall e,
        foreach_output (resolve_key d key)
          (resolve_foreach_key d (resolve_key d key) foreach_key)
          output_description = Raise e ->
        foreach_modules d <> [] ->
        e = TypeError
        /\ get_foreach d key foreach_key output_description
           = ([], Some TypeError)).
Proof.
  split; [|split].
  - intros Hit Hff. unfold get_foreach. now rewrite Hit, Hff.
  - intros Hsome output Houtput.
    assert (Hrun : get_foreach d key foreach_key output_description
                   = (map (fun target : string * string =>
                             (fst target,
                              mk_document
                                (foreach_variables d
                                   (fst (foreach_iterators d)))
                                [("default",
                                  Dict.union String.eqb
                                    [("for_each",
                                      module_iterator_of
                                        (snd (foreach_iterators d)));
                                     ("source", "../" ++ snd target)]
                                    (foreach_triggers d))]
                                output))
                          (foreach_modules d), None)).
    { rewrite (get_foreach_steps _ _ _ _ Hsome), Houtput. cbn [bind].
      apply run_generator_all_ok. }
    rewrite Hrun. cbn [fst snd]. split; [reflexivity|]. split.
    + rewrite map_map. reflexivity.
    + intros path doc Hin. apply in_map_iff in Hin as [target [[= <- <-] _]].
      now split.
  - intros Hsome e Houtput Htargets.
    assert (He : e = TypeError).
    { unfold foreach_output in Houtput.
      destruct (resolve_key d key); try (now injection Houtput);
        try discriminate.
      destruct (hashable _); [discriminate | now injection Houtput]. }
    subst e. split; [reflexivity|].
    rewrite (get_foreach_steps _ _ _ _ Hsome), Houtput.
    destruct (foreach_modules d) as [|[path call] targets]; [congruence|].
    reflexivity.
Qed.

Lemma run_generator_In {A : Type} (steps : list (result A)) (y : A) :
  In y (fst (run_generator steps)) -> In (Ok y) steps.
Proof.
  induction steps as [|[a|e] steps IH]; cbn; [intros [] | | intros []].
  destruct (run_generator steps) as [ys e]. cbn in *.
  intros [->|Hin]; [now left | right; now apply IH].
Qed.

(** X12: the module block of a yielded document.  The triggers of the
    foreach body are merged over [for_each] and [source]: a name with a
    trigger holds it, [for_each] and [source] included; otherwise
    [for_each] is the iterator expression and [source] the module called,
    one directory up.  The iterator expression is the iterator variable
    inside [try(nonsensitive(...))], the decoded file of the from-file
    variable, named after the parameter with [_file] added, or the [merge]
    of both. *)
Theorem foreach_module_block (d : t) (key foreach_key : pyval)
  (output_description path : string) (doc : foreach_document) :
  In (path, doc) (fst (get_foreach d key foreach_key output_description)) ->
  exists module module_call,
    doc_module doc = [("default", module)]
    /\ In (path, module_call) (foreach_modules d)
    /\ (forall n,
          sget n module
          = match sget n (foreach_triggers d) with
            | Some trigger => Some trigger
            | None =>
                if String.eqb n "for_each"
                then Some (module_iterator_of (snd (foreach_iterators d)))
                else if String.eqb n "source"
                then Some ("../" ++ module_call)
                else None
            end)
    /\ module_iterator_of (snd (foreach_iterators d))
       = match foreach_iterator d, foreach_from_file_path d with
         | Some it, None =>
             "${try(nonsensitive(var." ++ Param.name it ++ "), var."
             ++ Param.name it ++ ")}"
         | None, Some ff =>
             "${try(jsondecode(file(var." ++ Param.name ff
             ++ "_file)), {})}"
         | Some it, Some ff =>
             "${merge(try(nonsensitive(var." ++ Param.name it ++ "), var."
             ++ Param.name it ++ "),try(jsondecode(file(var."
             ++ Param.name ff ++ "_file)), {}))}"
         | None, None => "${merge()}"
         end.
Proof.
  intros Hin.
  assert (Hyield : exists module_call output,
             In (path, module_call) (foreach_modules d)
             /\ doc = mk_document
                        (foreach_variables d (fst (foreach_iterators d)))
                        [("default",
                          Dict.union String.eqb
                            [("for_each",
                              module_iterator_of (snd (foreach_iterators d)));
                             ("source", "../" ++ module_call)]
                            (foreach_triggers d))]
                        output).
  { assert (Hsome : foreach_iterator d <> None
                    \/ foreach_from_file_path d <> None).
    { unfold get_foreach in Hin.
      destruct (foreach_iterator d); [left; discriminate|].
      destruct (foreach_from_file_path d); [right; discriminate|].
      destruct (foreach_iterators d). contradiction. }
    rewrite (get_foreach_steps _ _ _ _ Hsome) in Hin.
    apply run_generator_In, in_map_iff in Hin as [[p c] [Hstep Htarget]].
    apply bind_ok in Hstep as [output [_ Hstep]]. cbn [fst snd] in Hstep.
    injection Hstep as <- <-. eauto. }
  destruct Hyield as [module_call [output [Htarget ->]]].
  eexists. exists module_call. cbn [doc_module].
  split; [reflexivity|]. split; [exact Htarget|]. split.
  - intros n. rewrite (sget_union n _ _ (foreach_triggers_keys_NoDup d)).
    destruct (sget n (foreach_triggers d)); [reflexivity|]. cbn.
    destruct (String.eqb n "for_each"); [reflexivity|].
    now destruct (String.eqb n "source").
  - unfold foreach_iterators.
    destruct (foreach_iterator d), (foreach_from_file_path d); cbn;
      rewrite ?append_assoc; cbn; rewrite ?append_assoc; reflexivity.
Qed.

Lemma count_append (x : ascii) (a b : string) :
  Str.count x (a ++ b) = Str.count x a + Str.count x b.
Proof.
  induction a as [|c a IH]; cbn; [reflexivity|]. rewrite IH. lia.
Qed.

Lemma count_replace_underscore (s new : string) :
  Str.count "_" (Str.replace s "_" new)
  = Str.count "_" s * Str.count "_" new.
Proof.
  unfold Str.replace. induction s as [|c r IH]; [reflexivity|].
  cbn [Str.replace_from String.length Nat.sub].
  cbn [String.prefix].
  destruct (ascii_dec "_" c) as [<-|Hc].
  - assert (Hempty : String.prefix "" r = true) by now destruct r.
    rewrite Hempty, count_append, IH. cbn. lia.
  - cbn [Str.count]. rewrite IH.
    destruct (Ascii.eqb_spec c "_") as [->|_]; [congruence | reflexivity].
Qed.

(** X13: a module name has no underscore unless the delimiter has one. *)
Theorem get_module_name_no_underscore (d : t) (module_class module_name : pyval)
  (name : string) :
  get_module_name d module_class module_name = Ok name ->
  Str.count "_" (name_delim d) = 0 ->
  Str.count "_" name = 0.
Proof.
  unfold get_module_name. intros Hrun Hdelim.
  apply bind_ok in Hrun as [class [_ Hrun]].
  apply bind_ok in Hrun as [parts [_ Hrun]].
  injection Hrun as <-.
  rewrite count_replace_underscore, Hdelim. lia.
Qed.

(** The path and the document of a copy do not depend on the items of
    [copy_variables_to]. *)
Lemma copy_run_items (d : t) (stored items : list (sdict pyval)) :
  copy_run (set_copy_variables_to stored d) items = copy_run d items.
Proof.
  induction items as [|item items IH]; [reflexivity|].
  cbn [copy_run]. rewrite IH. reflexivity.
Qed.

Lemma copy_run_again (d : t) (items items' : list (sdict pyval))
  (yielded : list (string * sdict (sdict (sdict pyval)))) (e : option exn) :
  copy_run d items = (yielded, e, items') ->
  copy_run d items' = (yielded, e, items').
Proof.
  revert yielded e items'.
  induction items as [|item items IH]; intros yielded e items' Hrun.
  - now injection Hrun as <- <- <-.
  - cbn [copy_run] in Hrun.
    destruct (negb (smem "module_name" item)) eqn:Hname.
    + injection Hrun as <- <- <-. cbn [copy_run]. now rewrite Hname.
    + set (item' := if negb (smem "modules_file_name" item)
                    then sset "modules_file_name" (PStr "variables.tf.json")
                           item
                    else item) in *.
      assert (Hname' : negb (smem "module_name" item') = false).
      { subst item'. destruct (negb (smem "modules_file_name" item));
          [|exact Hname].
        now rewrite smem_sset. }
      assert (Hfile' : negb (smem "modules_file_name" item') = false).
      { subst item'.
        destruct (negb (smem "modules_file_name" item)) eqn:Hfile.
        - now rewrite smem_sset.
        - exact Hfile. }
      destruct (get_module_path_kwargs d item') as [module_path|err] eqn:Hp.
      * destruct (copy_run d items) as [[ys e0] rest'] eqn:Hrest.
        injection Hrun as <- <- <-.
        cbn [copy_run]. rewrite Hname', Hfile', Hp.
        now rewrite (IH _ _ _ eq_refl).
      * injection Hrun as <- <- <-.
        cbn [copy_run]. now rewrite Hname', Hfile', Hp.
Qed.

Lemma copy_run_stored (d : t) (items items' : list (sdict pyval))
  (yielded : list (string * sdict (sdict (sdict pyval)))) (e : option exn) :
  copy_run d items = (yielded, e, items') ->
  List.length items' = List.length items
  /\ forall i item,
       i < List.length yielded ->
       nth_error items i = Some item ->
       nth_error items' i
       = Some (if smem "modules_file_name" item then item
               else sset "modules_file_name" (PStr "variables.tf.json")
                      item).
Proof.
  revert yielded e items'.
  induction items as [|item0 items IH]; intros yielded e items' Hrun.
  - injection Hrun as <- <- <-. split; [reflexivity|].
    intros i item Hi. cbn in Hi. lia.
  - cbn [copy_run] in Hrun.
    destruct (negb (smem "module_name" item0)).
    + injection Hrun as <- <- <-. split; [reflexivity|].
      intros i item Hi. cbn in Hi. lia.
    + destruct (get_module_path_kwargs d _) as [module_path|err].
      * destruct (copy_run d items) as [[ys e0] rest'] eqn:Hrest.
        injection Hrun as <- <- <-.
        destruct (IH _ _ _ eq_refl) as [Hlength Hstored].
        split; [cbn [List.length]; now rewrite Hlength|].
        intros [|i] item Hi Hitem; cbn [nth_error] in *.
        -- injection Hitem as ->.
           now destruct (smem "modules_file_name" item).
        -- apply Hstored; [cbn [List.length] in Hi; lia | exact Hitem].
      * injection Hrun as <- <- <-. split; [reflexivity|].
        intros i item Hi. cbn in Hi. lia.
Qed.

(** X14: running [get_modules_to_copy_variables_to] stores the default
    file name in the items it reaches, and running it again on the object
    it leaves yields the same pairs, stops on the same exception and
    leaves the object as it is.  The items are as many as before, and the
    item of every pair yielded is the one there was, with the file name
    ["variables.tf.json"] added where it had none. *)
Theorem copy_variables_run_again (d d' : t)
  (yielded : list (string * sdict (sdict (sdict pyval)))) (e : option exn) :
  get_modules_to_copy_variables_to d = (yielded, e, d') ->
  get_modules_to_copy_variables_to d' = (yielded, e, d')
  /\ List.length (copy_variables_to d') = List.length (copy_variables_to d)
  /\ forall i item,
       i < List.length yielded ->
       nth_error (copy_variables_to d) i = Some item ->
       nth_error (copy_variables_to d') i
       = Some (if smem "modules_file_name" item then item
               else sset "modules_file_name" (PStr "variables.tf.json")
                      item).
Proof.
  unfold get_modules_to_copy_variables_to.
  destruct (copy_run d (copy_variables_to d)) as [[ys e0] items'] eqn:Hrun.
  intros [= <- <- <-].
  cbn [copy_variables_to set_copy_variables_to]. split.
  - rewrite copy_run_items, (copy_run_again _ _ _ _ _ Hrun).
    reflexivity.
  - exact (copy_run_stored _ _ _ _ _ Hrun).
Qed.

Lemma copy_run_complete (d : t) (items items' : list (sdict pyval))
  (yielded : list (string * sdict (sdict (sdict pyval)))) :
  copy_run d items = (yielded, None, items') ->
  List.length yielded = List.length items
  /\ List.length items' = List.length items
  /\ (forall path doc, In (path, doc) yielded -> doc = copy_document d)
  /\ (forall item, In item items' ->
                   smem "module_name" item = true
                   /\ smem "modules_file_name" item = true)
  /\ (forall item, In item items ->
                   smem "modules_file_name" item = true -> In item items').
Proof.
  revert yielded items'.
  induction items as [|item items IH]; intros yielded items' Hrun.
  - injection Hrun as <- <-. cbn. repeat split; try reflexivity;
      now intros.
  - cbn [copy_run] in Hrun.
    destruct (negb (smem "module_name" item)) eqn:Hname; [discriminate|].
    apply negb_false_iff in Hname.
    set (item' := if negb (smem "modules_file_name" item)
                  then sset "modules_file_name" (PStr "variables.tf.json")
                         item
                  else item) in *.
    destruct (get_module_path_kwargs d item') as [module_path|err];
      [|discriminate].
    destruct (copy_run d items) as [[ys e0] rest'] eqn:Hrest.
    injection Hrun as <- -> <-.
    destruct (IH _ _ eq_refl) as [Hlen [Hlen' [Hdoc [Hitems Hkept]]]].
    cbn [List.length]. split; [now rewrite Hlen|].
    split; [now rewrite Hlen'|]. split; [|split].
    + intros path doc [[= <- <-]|Hin]; [reflexivity | now apply (Hdoc path)].
    + intros it [<-|Hin]; [|now apply Hitems].
      subst item'. destruct (negb (smem "modules_file_name" item)) eqn:Hfile.
      * rewrite !smem_sset, Hname. now split.
      * apply negb_false_iff in Hfile. now split.
    + intros it [<-|Hin] Hfile; [|right; now apply Hkept].
      left. subst item'. now rewrite Hfile.
Qed.

(** X15: when [get_modules_to_copy_variables_to] ends without an
    exception, it has yielded one pair for each item of
    [copy_variables_to], every document being the variables of the module
    with those of [foreach_only] left out; every item then has a module
    name and a file name, and an item that had a file name is kept as it
    was. *)
Theorem copy_variables_complete (d d' : t)
  (yielded : list (string * sdict (sdict (sdict pyval)))) :
  get_modules_to_copy_variables_to d = (yielded, None, d') ->
  List.length yielded = List.length (copy_variables_to d)
  /\ (forall path doc,
        In (path, doc) yielded ->
        doc = [("variable", get_variables d true false)])
  /\ (forall item, In item (copy_variables_to d') ->
                   smem "module_name" item = true
                   /\ smem "modules_file_name" item = true)
  /\ (forall item, In item (copy_variables_to d) ->
                   smem "modules_file_name" item = true ->
                   In item (copy_variables_to d')).
Proof.
  unfold get_modules_to_copy_variables_to.
  destruct (copy_run d (copy_variables_to d)) as [[ys e0] items'] eqn:Hrun.
  intros [= <- -> <-]. cbn [copy_variables_to set_copy_variables_to].
  destruct (copy_run_complete _ _ _ _ Hrun)
    as [Hlen [_ [Hdoc [Hitems Hkept]]]].
  repeat split; try assumption; try (now apply Hitems).
Qed.

(** X16: an item of [copy_variables_to] without a module name stops the
    generator with the error that shows the item, after the pairs of the
    items before it; the items after it are not reached. *)
Theorem copy_variables_stops_without_name (d : t)
  (before after : list (sdict pyval)) (item : sdict pyval)
  (yielded : list (string * sdict (sdict (sdict pyval))))
  (items' : list (sdict pyval)) :
  copy_run d before = (yielded, None, items') ->
  smem "module_name" item = false ->
  copy_variables_to d = (before ++ item :: after)%list ->
  get_modules_to_copy_variables_to d
  = (yielded,
     Some (RuntimeError
             "Cannot process a copy of variables without a module name: "
             (Some (PDict item)) None),
     set_copy_variables_to (items' ++ item :: after)%list d).
Proof.
  intros Hbefore Hname Hitems.
  unfold get_modules_to_copy_variables_to. rewrite Hitems.
  assert (Hrun : copy_run d (before ++ item :: after)%list
                 = (yielded, Some (copy_without_name item),
                    (items' ++ item :: after)%list)).
  { clear Hitems. revert yielded items' Hbefore.
    induction before as [|b before IH]; intros yielded items' Hbefore.
    - injection Hbefore as <- <-. cbn. now rewrite Hname.
    - cbn [copy_run app] in *.
      destruct (negb (smem "module_name" b)); [discriminate|].
      destruct (get_module_path_kwargs d _) as [module_path|err];
        [|discriminate].
      destruct (copy_run d before) as [[ys e0] rest'] eqn:Hrest.
      injection Hbefore as <- -> <-.
      now rewrite (IH _ _ eq_refl). }
  now rewrite Hrun.
Qed.

End Documents.

(** ** Remote variables *)

Section MoreDictionaries.

Lemma sset_sset {V : Type} (k : string) (v v' : V) (d : sdict V) :
  sset k v (sset k v' d) = sset k v d.
Proof.
  induction d as [|[k0 v0] d IH]; cbn.
  - now rewrite String.eqb_refl.
  - destruct (String.eqb k k0) eqn:Hk; cbn; rewrite Hk; [reflexivity|].
    now rewrite IH.
Qed.

Lemma remove_keys_In {V : Type} (k k' : string) (d : sdict V) :
  In k (Dict.keys (Dict.remove String.eqb k' d)) -> In k (Dict.keys d).
Proof.
  induction d as [|[k0 v0] d IH]; cbn; [auto|].
  destruct (String.eqb k' k0); cbn; intuition.
Qed.

Lemma remove_keys_NoDup {V : Type} (k : string) (d : sdict V) :
  NoDup (Dict.keys d) -> NoDup (Dict.keys (Dict.remove String.eqb k d)).
Proof.
  induction d as [|[k0 v0] d IH]; cbn; intros Hnodup; [constructor|].
  apply NoDup_cons_iff in Hnodup as [Hnotin Hnodup].
  destruct (String.eqb k k0); cbn; [exact Hnodup|].
  constructor; [|now apply IH].
  intros Hin. now apply Hnotin, (remove_keys_In k0 k d).
Qed.

Lemma sget_None_keys {V : Type} (k : string) (d : sdict V) :
  sget k d = None <-> ~ In k (Dict.keys d).
Proof.
  induction d as [|[k0 v0] d IH]; cbn; [intuition|].
  destruct (String.eqb_spec k k0) as [->|Hk].
  - split; [discriminate | intros H; exfalso; apply H; now left].
  - rewrite IH. intuition congruence.
Qed.

Lemma sget_remove {V : Type} (k k' : string) (d : sdict V) :
  NoDup (Dict.keys d) ->
  sget k (Dict.remove String.eqb k' d)
  = if String.eqb k k' then None else sget k d.
Proof.
  induction d as [|[k0 v0] d IH]; cbn; intros Hnodup.
  - now destruct (String.eqb k k').
  - apply NoDup_cons_iff in Hnodup as [Hnotin Hnodup].
    destruct (String.eqb_spec k' k0) as [->|Hk0].
    + destruct (String.eqb_spec k k0) as [->|Hk]; [|reflexivity].
      now apply sget_None_keys.
    + cbn. rewrite (IH Hnodup).
      destruct (String.eqb_spec k k0) as [->|Hk]; [|reflexivity].
      destruct (String.eqb_spec k0 k'); [congruence | reflexivity].
Qed.

Lemma In_sget {V : Type} (k : string) (v : V) (d : sdict V) :
  NoDup (Dict.keys d) -> In (k, v) d -> sget k d = Some v.
Proof.
  induction d as [|[k0 v0] d IH]; cbn; intros Hnodup Hin; [contradiction|].
  apply NoDup_cons_iff in Hnodup as [Hnotin Hnodup].
  destruct Hin as [[= -> ->]|Hin]; [now rewrite String.eqb_refl|].
  destruct (String.eqb_spec k k0) as [->|Hk]; [|now apply IH].
  exfalso. apply Hnotin. unfold Dict.keys. apply in_map_iff.
  now exists (k0, v).
Qed.

Lemma sget_In {V : Type} (k : string) (v : V) (d : sdict V) :
  sget k d = Some v -> In (k, v) d.
Proof.
  induction d as [|[k0 v0] d IH]; cbn; [discriminate|].
  destruct (String.eqb_spec k k0) as [->|Hk].
  - intros [= ->]. now left.
  - intros Hget. right. now apply IH.
Qed.

End MoreDictionaries.

Section RemoteConfig.
Import TerraformRemoteModuleVariables.
Context {ext : Externals} {rext : RemoteExternals}.

(** The fields of one declaration are never built. *)
Lemma config_of_raises (self : t) (source_path key : string)
  (params : pyval) :
  config_of self source_path key params
  = match params with
    | PDict fields =>
        if smem "type" fields then Raises (NameError "is_nothing")
        else Raises (KeyError "type")
    | _ => Raises (Exn TypeError)
    end.
Proof.
  unfold config_of, Dict.mem.
  destruct params as [| | | | | |fields]; try reflexivity.
  now destruct (sget "type" fields).
Qed.

(** X17: a dictionary of declarations.  The first declaration stops
    [get_config_from_variables]: with [NameError] for the name
    [is_nothing] when it is a dictionary that has a [type], with
    [KeyError] when it is a dictionary without [type], with [TypeError]
    when it is no dictionary; so the method returns for an empty
    dictionary only, and a list that starts with a declaration that has a
    type ends in the same [NameError]. *)
Theorem get_config_from_variables_first_declaration (self : t)
  (source_path : string) :
  (forall key params rest,
      get_config_from_variables self (PDict ((key, params) :: rest))
        source_path
      = match params with
        | PDict fields =>
            if smem "type" fields then Raises (NameError "is_nothing")
            else Raises (KeyError "type")
        | _ => Raises (Exn TypeError)
        end)
  /\ (forall items variables,
        get_config_from_variables self (PDict items) source_path
        = Returns variables ->
        items = [] /\ variables = [])
  /\ (forall key fields declared rest others,
        sget "type" fields = Some declared ->
        get_config_from_variables self
          (PList (PDict ((key, PDict fields) :: rest) :: others)) source_path
        = Raises (NameError "is_nothing")).
Proof.
  assert (Hfirst : forall key params rest,
    get_config_from_variables self (PDict ((key, params) :: rest))
      source_path
    = match params with
      | PDict fields =>
          if smem "type" fields then Raises (NameError "is_nothing")
          else Raises (KeyError "type")
      | _ => Raises (Exn TypeError)
      end).
  { intros key params rest. cbn [get_config_from_variables config_of_items].
    rewrite config_of_raises.
    destruct params as [| | | | | |fields]; try reflexivity.
    now destruct (smem "type" fields). }
  split; [exact Hfirst|]. split.
  - intros [|[key params] rest] variables Hrun.
    + injection Hrun as <-. now split.
    + rewrite Hfirst in Hrun.
      destruct params as [| | | | | |fields]; try discriminate.
      now destruct (smem "type" fields).
  - intros key fields declared rest others Htype.
    cbn [get_config_from_variables config_of_items].
    rewrite config_of_raises. unfold Dict.mem. now rewrite Htype.
Qed.

End RemoteConfig.

Section RemoteConvert.
Import TerraformRemoteModuleVariables.
Context {ext : Externals} {rext : RemoteExternals}.

Lemma sget_sset_same {V : Type} (k : string) (v : V) (d : sdict V) :
  sget k (sset k v d) = Some v.
Proof.
  now rewrite sget_sset, String.eqb_refl.
Qed.

Lemma smem_sget {V : Type} (k : string) (d : sdict V) :
  smem k d = match sget k d with Some _ => true | None => false end.
Proof.
  reflexivity.
Qed.

(** [fill_missing] keeps every field there is. *)
Lemma sget_fill_missing (k : string) (variable_data fields : sdict pyval) :
  sget k (fill_missing variable_data fields)
  = match sget k fields with
    | Some v => Some v
    | None => sget k variable_data
    end.
Proof.
  unfold fill_missing. revert fields.
  induction variable_data as [|[k0 v0] rest IH]; intros fields; cbn.
  - now destruct (sget k fields).
  - rewrite IH. unfold Dict.mem.
    destruct (sget k0 fields) as [v1|] eqn:Hk0.
    + destruct (sget k fields) as [v|] eqn:Hk; [reflexivity|].
      destruct (String.eqb_spec k k0) as [->|_]; [congruence | reflexivity].
    + rewrite sget_sset.
      destruct (String.eqb_spec k k0) as [->|_]; [now rewrite Hk0|].
      reflexivity.
Qed.

(** [overlay] takes every field of the overriding data. *)
Lemma sget_overlay (k : string) (variable_data fields : sdict pyval) :
  NoDup (Dict.keys variable_data) ->
  sget k (overlay variable_data fields)
  = match sget k variable_data with
    | Some v => Some v
    | None => sget k fields
    end.
Proof.
  unfold overlay. revert fields.
  induction variable_data as [|[k0 v0] rest IH]; intros fields Hnodup; cbn.
  - reflexivity.
  - cbn in Hnodup. apply NoDup_cons_iff in Hnodup as [Hnotin Hnodup].
    rewrite (IH _ Hnodup), sget_sset.
    destruct (String.eqb_spec k k0) as [->|_]; [|reflexivity].
    apply sget_None_keys in Hnotin. now rewrite Hnotin.
Qed.

(** The loops over the defaults and over the overrides, seen from one
    name. *)
Lemma defaults_step_at (n : string) (data : sdict pyval)
  (variables : variables_t) :
  NoDup (Dict.keys variables) ->
  sget n (defaults_step variables (n, data))
  = if variable_marked_for_removal data then None
    else Some match sget n variables with
              | None => data
              | Some fields => fill_missing data fields
              end.
Proof.
  intros Hnodup. unfold defaults_step.
  destruct (variable_marked_for_removal data).
  - rewrite smem_sget. destruct (sget n variables) eqn:Hget.
    + now rewrite (sget_remove _ _ _ Hnodup), String.eqb_refl.
    + exact Hget.
  - destruct (sget n variables); apply sget_sset_same.
Qed.

Lemma defaults_step_other (n : string) (item : string * sdict pyval)
  (variables : variables_t) :
  NoDup (Dict.keys variables) -> n <> fst item ->
  sget n (defaults_step variables item) = sget n variables.
Proof.
  intros Hnodup Hn. destruct item as [n0 data]. cbn in Hn.
  apply String.eqb_neq in Hn. unfold defaults_step.
  destruct (variable_marked_for_removal data).
  - destruct (smem n0 variables); [|reflexivity].
    now rewrite (sget_remove _ _ _ Hnodup), Hn.
  - destruct (sget n0 variables); now rewrite sget_sset, Hn.
Qed.

Lemma defaults_step_NoDup (item : string * sdict pyval)
  (variables : variables_t) :
  NoDup (Dict.keys variables) ->
  NoDup (Dict.keys (defaults_step variables item)).
Proof.
  intros Hnodup. destruct item as [n0 data]. unfold defaults_step.
  destruct (variable_marked_for_removal data).
  - destruct (smem n0 variables); [now apply remove_keys_NoDup | exact Hnodup].
  - destruct (sget n0 variables); now apply sset_keys_NoDup.
Qed.

Lemma overrides_step_at (n : string) (data : sdict pyval)
  (variables : variables_t) :
  NoDup (Dict.keys variables) ->
  sget n (overrides_step variables (n, data))
  = match sget n variables with
    | None => Some data
    | Some fields =>
        if variable_marked_for_removal data then None
        else Some (overlay data fields)
    end.
Proof.
  intros Hnodup. unfold overrides_step. rewrite smem_sget.
  destruct (sget n variables) eqn:Hget.
  - destruct (variable_marked_for_removal data); cbn [andb].
    + now rewrite (sget_remove _ _ _ Hnodup), String.eqb_refl.
    + apply sget_sset_same.
  - rewrite andb_false_r. apply sget_sset_same.
Qed.

Lemma overrides_step_other (n : string) (item : string * sdict pyval)
  (variables : variables_t) :
  NoDup (Dict.keys variables) -> n <> fst item ->
  sget n (overrides_step variables item) = sget n variables.
Proof.
  intros Hnodup Hn. destruct item as [n0 data]. cbn in Hn.
  apply String.eqb_neq in Hn. unfold overrides_step.
  destruct (variable_marked_for_removal data && smem n0 variables).
  - now rewrite (sget_remove _ _ _ Hnodup), Hn.
  - destruct (sget n0 variables); now rewrite sget_sset, Hn.
Qed.

Lemma overrides_step_NoDup (item : string * sdict pyval)
  (variables : variables_t) :
  NoDup (Dict.keys variables) ->
  NoDup (Dict.keys (overrides_step variables item)).
Proof.
  intros Hnodup. destruct item as [n0 data]. unfold overrides_step.
  destruct (variable_marked_for_removal data && smem n0 variables).
  - now apply remove_keys_NoDup.
  - destruct (sget n0 variables); now apply sset_keys_NoDup.
Qed.

Section OneName.
Variable step : variables_t -> string * sdict pyval -> variables_t.
Hypothesis step_other :
  forall n item variables,
    NoDup (Dict.keys variables) -> n <> fst item ->
    sget n (step variables item) = sget n variables.
Hypothesis step_NoDup :
  forall item variables,
    NoDup (Dict.keys variables) -> NoDup (Dict.keys (step variables item)).

Lemma loop_NoDup (items : variables_t) (variables : variables_t) :
  NoDup (Dict.keys variables) ->
  NoDup (Dict.keys (fold_left step items variables)).
Proof.
  apply fold_sset_keys_NoDup. intros acc x. apply step_NoDup.
Qed.

Lemma loop_other (n : string) (items : variables_t)
  (variables : variables_t) :
  ~ In n (Dict.keys items) -> NoDup (Dict.keys variables) ->
  sget n (fold_left step items variables) = sget n variables.
Proof.
  revert variables.
  induction items as [|item rest IH]; intros variables Hnotin Hnodup; cbn;
    [reflexivity|].
  cbn in Hnotin. rewrite IH.
  - apply step_other; [exact Hnodup|]. intros ->. apply Hnotin. now left.
  - intros Hin. apply Hnotin. now right.
  - now apply step_NoDup.
Qed.

Lemma loop_at (n : string) (data : sdict pyval) (items : variables_t)
  (variables : variables_t) :
  NoDup (Dict.keys items) -> In (n, data) items ->
  NoDup (Dict.keys variables) ->
  exists before,
    NoDup (Dict.keys before)
    /\ sget n before = sget n variables
    /\ sget n (fold_left step items variables) = sget n (step before (n, data)).
Proof.
  revert variables.
  induction items as [|item rest IH]; intros variables Hitems Hin Hnodup;
    [contradiction|].
  cbn in Hitems. apply NoDup_cons_iff in Hitems as [Hnotin Hitems].
  destruct Hin as [->|Hin]; cbn.
  - exists variables. split; [exact Hnodup|]. split; [reflexivity|].
    apply loop_other; [exact Hnotin | now apply step_NoDup].
  - destruct (IH (step variables item) Hitems Hin (step_NoDup _ _ Hnodup))
      as [before [Hbefore [Hsame Hat]]].
    exists before. split; [exact Hbefore|]. split; [|exact Hat].
    rewrite Hsame. apply step_other; [exact Hnodup|].
    intros ->. apply Hnotin. unfold Dict.keys. apply in_map_iff.
    now exists (fst item, data).
Qed.

End OneName.

(** What a name holds after the two loops, from what it held before. *)
Lemma defaults_loop_lookup (n : string) (items : variables_t)
  (variables : variables_t) :
  NoDup (Dict.keys items) -> NoDup (Dict.keys variables) ->
  sget n (fold_left defaults_step items variables)
  = match sget n items with
    | None => sget n variables
    | Some data =>
        if variable_marked_for_removal data then None
        else Some match sget n variables with
                  | None => data
                  | Some fields => fill_missing data fields
                  end
    end.
Proof.
  intros Hitems Hnodup. destruct (sget n items) as [data|] eqn:Hget.
  - destruct (loop_at defaults_step defaults_step_other defaults_step_NoDup
                n data items variables Hitems (sget_In _ _ _ Hget) Hnodup)
      as [before [Hbefore [Hsame ->]]].
    now rewrite (defaults_step_at _ _ _ Hbefore), Hsame.
  - apply (loop_other defaults_step defaults_step_other defaults_step_NoDup);
      [now apply sget_None_keys | exact Hnodup].
Qed.

Lemma overrides_loop_lookup (n : string) (items : variables_t)
  (variables : variables_t) :
  NoDup (Dict.keys items) -> NoDup (Dict.keys variables) ->
  sget n (fold_left overrides_step items variables)
  = match sget n items with
    | None => sget n variables
    | Some data =>
        match sget n variables with
        | None => Some data
        | Some fields =>
            if variable_marked_for_removal data then None
            else Some (overlay data fields)
        end
    end.
Proof.
  intros Hitems Hnodup. destruct (sget n items) as [data|] eqn:Hget.
  - destruct (loop_at overrides_step overrides_step_other overrides_step_NoDup
                n data items variables Hitems (sget_In _ _ _ Hget) Hnodup)
      as [before [Hbefore [Hsame ->]]].
    now rewrite (overrides_step_at _ _ _ Hbefore), Hsame.
  - apply (loop_other overrides_step overrides_step_other
             overrides_step_NoDup);
      [now apply sget_None_keys | exact Hnodup].
Qed.

(** X18: The loops of [convert] over the defaults and over the
    overrides, seen from one name that the module, the defaults and the
    overrides all have, none of the two flagged for removal: a field comes
    from the overrides, else from the module, else from the defaults. *)
Theorem convert_precedence (self : t) (fetched : variables_t) (n : string)
  (fields from_defaults from_overrides : sdict pyval) :
  NoDup (Dict.keys fetched) ->
  NoDup (Dict.keys (defaults self)) ->
  NoDup (Dict.keys (overrides self)) ->
  NoDup (Dict.keys from_overrides) ->
  sget n fetched = Some fields ->
  sget n (defaults self) = Some from_defaults ->
  sget n (overrides self) = Some from_overrides ->
  variable_marked_for_removal from_defaults = false ->
  variable_marked_for_removal from_overrides = false ->
  exists merged,
    sget n (fold_left overrides_step (overrides self)
              (fold_left defaults_step (defaults self) fetched))
    = Some merged
    /\ forall k,
         sget k merged
         = match sget k from_overrides with
           | Some v => Some v
           | None => match sget k fields with
                     | Some v => Some v
                     | None => sget k from_defaults
                     end
           end.
Proof.
  intros Hfetched Hdefaults Hoverrides Hfrom Hfields Hd Ho Hkeepd Hkeepo.
  rewrite (overrides_loop_lookup n _ _ Hoverrides
             (loop_NoDup defaults_step defaults_step_NoDup _ _ Hfetched)).
  rewrite Ho, (defaults_loop_lookup n _ _ Hdefaults Hfetched).
  rewrite Hd, Hkeepd, Hfields, Hkeepo.
  eexists. split; [reflexivity|].
  intros k. now rewrite (sget_overlay _ _ _ Hfrom), sget_fill_missing.
Qed.

(** X19: [get_variables] and [convert] raise [NameError] for the name
    [is_nothing] on every instance: [get_variables] calls it on line 157,
    once the headers are built and before any file is fetched, and
    [convert] starts with [get_variables], so its loops are not reached. *)
Theorem convert_raises_name_error (self : t) :
  get_variables self = Raises (NameError "is_nothing")
  /\ convert self = Raises (NameError "is_nothing").
Proof.
  assert (Hvariables : get_variables self = Raises (NameError "is_nothing")).
  { unfold get_variables, module_source_of.
    now rewrite call_is_nothing. }
  split; [exact Hvariables|].
  unfold convert. now rewrite Hvariables.
Qed.

End RemoteConvert.

Section RemoteTypes.
Import TerraformRemoteModuleVariables.

(** X30: For a list type [compact_default_for_variable_type] returns a
    list, and compacting what it returns changes nothing. *)
Theorem compact_default_list_type (variable_type key key' : string)
  (default : pyval) :
  is_list_type variable_type = true ->
  isinstance_list
    (compact_default_for_variable_type variable_type default key) = true
  /\ compact_default_for_variable_type variable_type
       (compact_default_for_variable_type variable_type default key) key'
     = compact_default_for_variable_type variable_type default key.
Proof.
  intros Hlist. unfold compact_default_for_variable_type. rewrite Hlist.
  cbn [negb andb].
  destruct (isinstance_list default) eqn:Hdefault; cbn [negb];
    [rewrite Hdefault | cbn]; now split.
Qed.

End RemoteTypes.

(** ** The properties on the examples *)

Section DescriptorsOnExamples.
Import TerraformModuleResources.

Lemma built_descriptor_names_witness :
  NoDup (module_parameter_names (Sample.built Sample.doc_plain))
  /\ In "checksum"
       (map Param.name (module_parameters (Sample.built Sample.doc_plain))).
Proof.
  destruct (built_descriptor_names (ext := Sample.externals) Sample.defaults
              "m" (Some Sample.doc_plain) None None None None None None
              (Sample.built Sample.doc_plain))
    as [Hnodup [_ [Hchecksum _]]].
  - vm_compute. reflexivity.
  - split; [exact Hnodup | exact Hchecksum].
Defined.

Lemma short_docstring_builds_witness :
  exists d : t,
    Sample.resources "m" "Desc" = Ok d
    /\ descriptor d = Some "Desc"
    /\ module_parameters d = map snd required_params.
Proof.
  destruct (short_docstring_builds (ext := Sample.externals) Sample.defaults
              "m" (Some "Desc") None None None None None)
    as [d [Hbuilt [Hdescriptor [Hparameters _]]]].
  - vm_compute. apply le_n.
  - exists d. split; [exact Hbuilt|]. split; [exact Hdescriptor|].
    exact Hparameters.
Defined.

Lemma constructor_errors_name_the_line_witness :
  exists doc line,
    Some Sample.doc_unknown_key = Some doc
    /\ In line (tl (docstring_lines doc))
    /\ "Failed to parse docstring param: name:foo,colour:red"
       = "Failed to parse docstring param: " ++ Str.strip line.
Proof.
  destruct (constructor_errors_name_the_line (ext := Sample.externals)
              Sample.defaults "m" (Some Sample.doc_unknown_key) None None
              None None None None
              "Failed to parse docstring param: name:foo,colour:red" None
              (Some
                 (RuntimeError
                    "Failed to generate module parameter for expanded parameter: "
                    (Some (PDict [("name", PStr "foo");
                                  ("colour", PStr "red")]))
                    (Some TypeError))))
    as [doc [line [Hdoc [Hline [Hmsg _]]]]].
  - vm_compute. reflexivity.
  - exists doc, line. split; [exact Hdoc|]. split; [exact Hline | exact Hmsg].
Defined.

Lemma unknown_keyword_fails_witness :
  process_param (ext := Sample.externals) (Sample.bare, [])
    "name:foo,colour:red"
  = Raise
      (RuntimeError "Failed to parse docstring param: name:foo,colour:red"
         None
         (Some
            (RuntimeError
               "Failed to generate module parameter for expanded parameter: "
               (Some (PDict [("name", PStr "foo"); ("colour", PStr "red")]))
               (Some TypeError)))).
Proof.
  apply (unknown_keyword_fails (ext := Sample.externals) (Sample.bare, [])
           "name:foo,colour:red" no_markers
           [("name", PStr "foo"); ("colour", PStr "red")]).
  - vm_compute. reflexivity.
  - vm_compute. reflexivity.
  - left. vm_compute. reflexivity.
Defined.

Lemma generation_forbidden_by_comment_witness :
  generation_forbidden (Sample.built Sample.doc_noterraform)
  = existsb (forbids_generation (ext := Sample.externals))
      (tl (docstring_lines Sample.doc_noterraform)).
Proof.
  apply (generation_forbidden_by_comment (ext := Sample.externals)
           Sample.defaults "m" (Some Sample.doc_noterraform) None None
           None None None None (Sample.built Sample.doc_noterraform)).
  vm_compute. reflexivity.
Defined.

Lemma get_variables_lookup_witness :
  sget "b" (get_variables (Sample.built Sample.doc_copy) true false) = None.
Proof.
  apply (proj1 (proj2 (get_variables_lookup (Sample.built Sample.doc_copy)
                         false false "b"))).
  vm_compute. reflexivity.
Defined.

Lemma get_triggers_lookup_witness :
  sget "a" (get_triggers (ext := Sample.externals)
              (Sample.built Sample.doc_copy) false true false)
  = option_map (fun p => Param.get_trigger p false)
      (entry_of (Sample.built Sample.doc_copy) true false "a").
Proof.
  apply (proj1 (get_triggers_lookup (ext := Sample.externals)
                  (Sample.built Sample.doc_copy) false true false "a")).
  discriminate.
Defined.

Lemma get_foreach_pairs_witness :
  get_foreach (ext := Sample.externals) (Sample.built Sample.doc_plain)
    PNone PNone "Data query results"
  = ([], None)
  /\ (snd (get_foreach (ext := Sample.externals)
             (Sample.built Sample.doc_region) PNone PNone
             "Data query results")
      = None
      /\ map fst (fst (get_foreach (ext := Sample.externals)
                         (Sample.built Sample.doc_region) PNone PNone
                         "Data query results"))
         = ["terraform-modules/library/library-regions/main.tf.json"])
  /\ get_foreach (ext := Sample.externals)
       (Sample.built Sample.doc_region_numeric_key) PNone PNone
       "Data query results"
     = ([], Some TypeError).
Proof.
  split; [|split].
  - apply (proj1 (get_foreach_pairs (ext := Sample.externals)
                    (Sample.built Sample.doc_plain) PNone PNone
                    "Data query results")).
    + vm_compute. reflexivity.
    + vm_compute. reflexivity.
  - destruct (proj1 (proj2 (get_foreach_pairs (ext := Sample.externals)
                              (Sample.built Sample.doc_region) PNone PNone
                              "Data query results"))
                (or_introl
                   (fun H : foreach_iterator (Sample.built Sample.doc_region)
                            = None =>
                      eq_ind (foreach_iterator
                                (Sample.built Sample.doc_region))
                        (fun o => match o with
                                  | Some _ => True
                                  | None => False
                                  end)
                        I None H))
                None)
      as [Hstopped [Hpaths _]].
    + vm_compute. reflexivity.
    + split; [exact Hstopped|]. rewrite Hpaths. vm_compute. reflexivity.
  - apply (proj2 (proj2 (get_foreach_pairs (ext := Sample.externals)
                           (Sample.built Sample.doc_region_numeric_key)
                           PNone PNone "Data query results"))
             (or_introl
                (fun H : foreach_iterator
                           (Sample.built Sample.doc_region_numeric_key)
                         = None =>
                   eq_ind (foreach_iterator
                             (Sample.built Sample.doc_region_numeric_key))
                     (fun o => match o with
                               | Some _ => True
                               | None => False
                               end)
                     I None H))
             TypeError).
    + vm_compute. reflexivity.
    + vm_compute. discriminate.
Defined.

Lemma foreach_module_block_witness :
  exists module module_call,
    doc_module Sample.region_document = [("default", module)]
    /\ In ("terraform-modules/library/library-regions/main.tf.json",
           module_call)
         (foreach_modules (Sample.built Sample.doc_region)).
Proof.
  destruct (foreach_module_block (ext := Sample.externals)
              (Sample.built Sample.doc_region) PNone PNone
              "Data query results"
              "terraform-modules/library/library-regions/main.tf.json"
              Sample.region_document)
    as [module [module_call [Hmodule [Hcall _]]]].
  - vm_compute. left. reflexivity.
  - exists module, module_call. split; [exact Hmodule | exact Hcall].
Defined.

Lemma get_module_name_no_underscore_witness :
  Str.count "_" "library-my-module" = 0.
Proof.
  apply (get_module_name_no_underscore (ext := Sample.externals) Sample.bare
           PNone (PStr "my_module") "library-my-module").
  - vm_compute. reflexivity.
  - reflexivity.
Defined.

Lemma copy_variables_run_again_witness :
  get_modules_to_copy_variables_to (ext := Sample.externals)
    (snd (get_modules_to_copy_variables_to (ext := Sample.externals)
            (Sample.built Sample.doc_copy)))
  = get_modules_to_copy_variables_to (ext := Sample.externals)
      (Sample.built Sample.doc_copy)
  /\ copy_variables_to (Sample.built Sample.doc_copy)
     = [[("module_name", PStr "other")]]
  /\ nth_error
       (copy_variables_to
          (snd (get_modules_to_copy_variables_to (ext := Sample.externals)
                  (Sample.built Sample.doc_copy)))) 0
     = Some [("module_name", PStr "other");
             ("modules_file_name", PStr "variables.tf.json")].
Proof.
  destruct (copy_variables_run_again (ext := Sample.externals)
              (Sample.built Sample.doc_copy)
              (snd (get_modules_to_copy_variables_to (ext := Sample.externals)
                      (Sample.built Sample.doc_copy)))
              (fst (fst (get_modules_to_copy_variables_to
                           (ext := Sample.externals)
                           (Sample.built Sample.doc_copy))))
              (snd (fst (get_modules_to_copy_variables_to
                           (ext := Sample.externals)
                           (Sample.built Sample.doc_copy)))))
    as [Hagain [_ Hstored]].
  - vm_compute. reflexivity.
  - split; [|split].
    + rewrite Hagain. vm_compute. reflexivity.
    + vm_compute. reflexivity.
    + rewrite (Hstored 0 [("module_name", PStr "other")]).
      * reflexivity.
      * vm_compute. apply le_n.
      * vm_compute. reflexivity.
Defined.

Lemma copy_variables_complete_witness :
  List.length
    (fst (fst (get_modules_to_copy_variables_to (ext := Sample.externals)
                 (Sample.built Sample.doc_copy))))
  = List.length (copy_variables_to (Sample.built Sample.doc_copy)).
Proof.
  destruct (copy_variables_complete (ext := Sample.externals)
              (Sample.built Sample.doc_copy)
              (snd (get_modules_to_copy_variables_to (ext := Sample.externals)
                      (Sample.built Sample.doc_copy)))
              (fst (fst (get_modules_to_copy_variables_to
                           (ext := Sample.externals)
                           (Sample.built Sample.doc_copy)))))
    as [Hlength _].
  - vm_compute. reflexivity.
  - exact Hlength.
Defined.

Lemma copy_variables_stops_without_name_witness :
  get_modules_to_copy_variables_to (ext := Sample.externals)
    (Sample.built Sample.doc_copy_unnamed)
  = ([],
     Some (RuntimeError
             "Cannot process a copy of variables without a module name: "
             (Some (PDict [("modules_file_name", PStr "v.tf.json")])) None),
     set_copy_variables_to [[("modules_file_name", PStr "v.tf.json")]]
       (Sample.built Sample.doc_copy_unnamed)).
Proof.
  apply (copy_variables_stops_without_name (ext := Sample.externals)
           (Sample.built Sample.doc_copy_unnamed) [] []
           [("modules_file_name", PStr "v.tf.json")] [] []).
  - reflexivity.
  - reflexivity.
  - vm_compute. reflexivity.
Defined.

End DescriptorsOnExamples.

Section RemoteVariablesOnExamples.
Import TerraformRemoteModuleVariables.

Lemma convert_precedence_witness :
  exists merged,
    sget "name"
      (fold_left (overrides_step (ext := Sample.externals))
         (overrides Sample.remote)
         (fold_left (defaults_step (ext := Sample.externals))
            (defaults Sample.remote) Sample.fetched))
    = Some merged
    /\ sget "required" merged = Some (PBool true)
    /\ sget "description" merged = Some (PStr "The name")
    /\ sget "note" merged = Some (PStr "from the defaults").
Proof.
  destruct (convert_precedence (ext := Sample.externals) Sample.remote
              Sample.fetched "name"
              [("type", PStr "string"); ("source", PStr "vpc");
               ("default_value", PNone); ("default_generator", PNone);
               ("override_value", PNone); ("required", PBool true);
               ("description", PStr "The name"); ("internal", PBool false);
               ("parameter_generator", PNone)]
              [("note", PStr "from the defaults");
               ("description", PStr "A default description")]
              [("required", PBool true)])
    as [merged [Hmerged Hfields]].
  - distinct_keys.
  - distinct_keys.
  - distinct_keys.
  - distinct_keys.
  - vm_compute. reflexivity.
  - reflexivity.
  - reflexivity.
  - reflexivity.
  - reflexivity.
  - exists merged. split; [exact Hmerged|].
    split; [|split]; rewrite Hfields; reflexivity.
Defined.

Lemma compact_default_list_type_witness :
  isinstance_list
    (compact_default_for_variable_type "list(string)" (PStr "a") "zones")
  = true
  /\ compact_default_for_variable_type "list(string)"
       (compact_default_for_variable_type "list(string)" (PStr "a") "zones")
       "zones"
     = compact_default_for_variable_type "list(string)" (PStr "a") "zones".
Proof.
  apply (compact_default_list_type "list(string)" "zones" "zones" (PStr "a")).
  reflexivity.
Defined.

End RemoteVariablesOnExamples.
